(** * get_hist.py: the request-window resolver and the output pipeline

    A shallow embedding of [src/get_hist.py] (IBKR historical data
    downloader) and the properties of its specification.

    Conventions of the embedding.
    - A Python [str] is a [string] of 8-bit characters; the case and
      whitespace operations are the ASCII ones.
    - A Python [int] is a [Z] (or a [nat] for a loop counter): unbounded.
    - A naive [datetime.datetime] is the record [datetime]; its library
      operations ([strptime], [strftime], [replace], subtraction, adding one
      day, comparison) are written out below after CPython.
    - An exception is a value of [exn]; a function that can raise returns
      [result A].
    - What the program reads from its environment (the clock, the file
      system, the keyboard, the broker, pandas and pytz) is an explicit
      argument. *)

From Stdlib Require Import ZArith String Ascii List Lia Bool.
From Stdlib Require Import DecimalString DecimalNat DecimalZ.
From stdpp Require Import base gmap sets list strings.

Open Scope string_scope.
Open Scope Z_scope.

(** ** Exceptions and results *)

Inductive exn : Type :=
| ValueError (msg : string)
| OverflowError (msg : string)
| LookupError (msg : string)
| EOFError
| ConnectionRefusedError
| TimeoutError
| PermissionError
| OtherException (msg : string).

Definition result (A : Type) : Type := (exn + A)%type.

Definition Ok {A : Type} (a : A) : result A := inr a.
Definition Raise {A : Type} (e : exn) : result A := inl e.

Definition rbind {A B : Type} (r : result A) (f : A -> result B) : result B :=
  match r with
  | inl e => inl e
  | inr a => f a
  end.

Notation "'let*' x ':=' r 'in' k" := (rbind r (fun x => k))
  (at level 10, x pattern, r at level 100, k at level 200).

(** ** Python [str] operations *)

Module PyStr.

(** [c.isspace()] on the ASCII range: TAB, LF, VT, FF, CR, FS, GS, RS, US
    and the space. The same set is what [\s] matches in [re]. *)
Definition is_space (c : ascii) : bool :=
  let n := nat_of_ascii c in
  ((9 <=? n) && (n <=? 13) || (28 <=? n) && (n <=? 32))%nat.

Definition is_digit (c : ascii) : bool :=
  let n := nat_of_ascii c in ((48 <=? n) && (n <=? 57))%nat.

Definition in_range (lo hi : ascii) (c : ascii) : bool :=
  ((nat_of_ascii lo <=? nat_of_ascii c) && (nat_of_ascii c <=? nat_of_ascii hi))%nat.

Definition digit_val (c : ascii) : Z := Z.of_nat (nat_of_ascii c) - 48.

Definition upper_char (c : ascii) : ascii :=
  let n := nat_of_ascii c in
  if ((97 <=? n) && (n <=? 122))%nat then ascii_of_nat (n - 32) else c.

(** [s.upper()] *)
Fixpoint upper (s : string) : string :=
  match s with
  | EmptyString => EmptyString
  | String c r => String (upper_char c) (upper r)
  end.

(** [s.lstrip()] *)
Fixpoint lstrip (s : string) : string :=
  match s with
  | EmptyString => EmptyString
  | String c r => if is_space c then lstrip r else s
  end.

(** [s.rstrip()]: a character is dropped when it is a space and everything
    after it has been dropped. *)
Fixpoint rstrip (s : string) : string :=
  match s with
  | EmptyString => EmptyString
  | String c r =>
      match rstrip r with
      | EmptyString => if is_space c then EmptyString else String c EmptyString
      | r' => String c r'
      end
  end.

(** [s.strip()] *)
Definition strip (s : string) : string := rstrip (lstrip s).

(** [drop n s] is [s[n:]]. *)
Fixpoint drop (n : nat) (s : string) : string :=
  match n, s with
  | O, _ => s
  | S n', String _ r => drop n' r
  | S _, EmptyString => EmptyString
  end.

(** [take n s] is [s[:n]]. *)
Fixpoint take (n : nat) (s : string) : string :=
  match n, s with
  | O, _ => EmptyString
  | S n', String c r => String c (take n' r)
  | S _, EmptyString => EmptyString
  end.

(** [s.replace(old, new)] for a non-empty [old]: the occurrences of [old]
    are replaced from left to right, without overlap. [skip] counts the
    characters of an occurrence already replaced that are still to be
    passed over. *)
Fixpoint replace_from (skip : nat) (old new s : string) : string :=
  match s with
  | EmptyString => EmptyString
  | String c r =>
      match skip with
      | S k => replace_from k old new r
      | O =>
          if String.prefix old s
          then new ++ replace_from (String.length old - 1) old new r
          else String c (replace_from O old new r)
      end
  end.

Definition replace (old new s : string) : string := replace_from 0 old new s.

(** [sep.join(parts)] *)
Fixpoint join (sep : string) (parts : list string) : string :=
  match parts with
  | [] => ""
  | [p] => p
  | p :: ps => p ++ sep ++ join sep ps
  end.

(** [x in l] for a list of strings. *)
Definition str_in (x : string) (l : list string) : bool :=
  existsb (String.eqb x) l.

(** [str(n)], also [f"{n}"] and [f"{n:d}"], for an integer. *)
Definition of_Z (n : Z) : string := NilZero.string_of_int (Z.to_int n).

(** [f"{n}"] for a natural number. *)
Definition of_nat (n : nat) : string := NilZero.string_of_uint (Nat.to_uint n).

(** ["0" * k] *)
Fixpoint zeros (k : nat) : string :=
  match k with
  | O => EmptyString
  | S k' => String "0" (zeros k')
  end.

(** [s.rjust(w, "0")] for a string of digits. *)
Definition zfill (w : nat) (s : string) : string :=
  zeros (w - String.length s) ++ s.

(** [f"{n:02d}"] for [n >= 0]: at least two digits, padded with zeros. *)
Definition fmt_02d (n : nat) : string := zfill 2 (of_nat n).

(** [int(s)] for a string of decimal digits (most significant first). *)
Fixpoint int_of_digits (acc : Z) (s : string) : Z :=
  match s with
  | EmptyString => acc
  | String c r => int_of_digits (10 * acc + digit_val c) r
  end.

End PyStr.

(** ** The naive [datetime.datetime] of the Python library *)

Module PyDatetime.

Record datetime : Type := mk_datetime {
  year : Z; month : Z; day : Z;
  hour : Z; minute : Z; second : Z; microsecond : Z
}.

Definition MINYEAR : Z := 1.
Definition MAXYEAR : Z := 9999.

Definition is_leap (y : Z) : bool :=
  (y mod 4 =? 0) && (negb (y mod 100 =? 0) || (y mod 400 =? 0)).

Definition days_in_month (y m : Z) : Z :=
  match m with
  | 1 => 31 | 2 => if is_leap y then 29 else 28 | 3 => 31 | 4 => 30
  | 5 => 31 | 6 => 30 | 7 => 31 | 8 => 31 | 9 => 30 | 10 => 31
  | 11 => 30 | 12 => 31 | _ => 0
  end.

(** Number of days in the year [y] before the first day of month [m]. *)
Definition days_before_month (y m : Z) : Z :=
  match m with
  | 1 => 0 | 2 => 31 | 3 => 59 | 4 => 90 | 5 => 120 | 6 => 151 | 7 => 181
  | 8 => 212 | 9 => 243 | 10 => 273 | 11 => 304 | 12 => 334 | _ => 0
  end + (if (2 <? m) && is_leap y then 1 else 0).

(** Number of days before January 1st of year [y]. *)
Definition days_before_year (y : Z) : Z :=
  let y1 := y - 1 in y1 * 365 + y1 / 4 - y1 / 100 + y1 / 400.

(** [date.toordinal()]: 0001-01-01 is day 1. *)
Definition toordinal (d : datetime) : Z :=
  days_before_year (year d) + days_before_month (year d) (month d) + day d.

(** The checks of the [datetime(...)] constructor; it raises [ValueError]
    when one fails. *)
Definition valid_date (y m d : Z) : bool :=
  (MINYEAR <=? y) && (y <=? MAXYEAR) && (1 <=? m) && (m <=? 12)
  && (1 <=? d) && (d <=? days_in_month y m).

Definition valid_time (h mi s us : Z) : bool :=
  (0 <=? h) && (h <=? 23) && (0 <=? mi) && (mi <=? 59)
  && (0 <=? s) && (s <=? 59) && (0 <=? us) && (us <=? 999999).

Definition valid (d : datetime) : bool :=
  valid_date (year d) (month d) (day d)
  && valid_time (hour d) (minute d) (second d) (microsecond d).

(** [datetime(y, m, d, h, mi, s)] *)
Definition new (y m d h mi s : Z) : option datetime :=
  if valid_date y m d && valid_time h mi s 0
  then Some (mk_datetime y m d h mi s 0) else None.

(** Comparison of two naive datetimes: lexicographic on the fields. *)
Definition compare (a b : datetime) : comparison :=
  match year a ?= year b with Eq =>
  match month a ?= month b with Eq =>
  match day a ?= day b with Eq =>
  match hour a ?= hour b with Eq =>
  match minute a ?= minute b with Eq =>
  match second a ?= second b with Eq =>
    microsecond a ?= microsecond b
  | c => c end | c => c end | c => c end | c => c end | c => c end | c => c end.

(** [a > b] *)
Definition gt (a b : datetime) : bool :=
  match compare a b with Gt => true | _ => false end.

(** [a <= b] *)
Definition le (a b : datetime) : bool := negb (gt a b).

(** [datetime.timedelta], normalized: [0 <= td_seconds < 86400] and
    [0 <= td_microseconds < 1000000]. *)
Record timedelta : Type := mk_timedelta {
  td_days : Z; td_seconds : Z; td_microseconds : Z
}.

Definition timedelta_new (days seconds microseconds : Z) : timedelta :=
  let s := seconds + microseconds / 1000000 in
  mk_timedelta (days + s / 86400) (s mod 86400) (microseconds mod 1000000).

(** Seconds since midnight. *)
Definition seconds_of_day (d : datetime) : Z :=
  second d + minute d * 60 + hour d * 3600.

(** [a - b] *)
Definition sub (a b : datetime) : timedelta :=
  timedelta_new (toordinal a - toordinal b)
                (seconds_of_day a - seconds_of_day b)
                (microsecond a - microsecond b).

(** [dt + timedelta(days=1)]: the same time of day on the next calendar
    day; [OverflowError] past 9999-12-31. *)
Definition add_one_day (d : datetime) : result datetime :=
  let '(y, m, dd) :=
    if day d + 1 <=? days_in_month (year d) (month d)
    then (year d, month d, day d + 1)
    else if month d + 1 <=? 12 then (year d, month d + 1, 1)
    else (year d + 1, 1, 1) in
  if (MINYEAR <=? y) && (y <=? MAXYEAR)
  then Ok (mk_datetime y m dd (hour d) (minute d) (second d) (microsecond d))
  else Raise (OverflowError "date value out of range").

(** [dt.replace(hour=h, minute=mi, second=s)] *)
Definition replace_hms (d : datetime) (h mi s : Z) : datetime :=
  mk_datetime (year d) (month d) (day d) h mi s (microsecond d).

(** [dt.time() != datetime.min.time()]: the time of day is not midnight. *)
Definition time_is_not_midnight (d : datetime) : bool :=
  negb ((hour d =? 0) && (minute d =? 0) && (second d =? 0)
        && (microsecond d =? 0)).

(** *** [strftime]

    [%Y] is the year in four digits, [%m %d %H %M %S] are two digits, all
    padded with zeros, as the Python documentation states them. (The C
    library of some platforms leaves the year unpadded below 1000; nothing
    below depends on the padding of the year.) *)
Definition pad (w : nat) (n : Z) : string := PyStr.zfill w (PyStr.of_Z n).

(** [dt.strftime('%Y%m%d %H:%M:%S')] *)
Definition strftime_ibkr (d : datetime) : string :=
  pad 4 (year d) ++ pad 2 (month d) ++ pad 2 (day d) ++ " "
  ++ pad 2 (hour d) ++ ":" ++ pad 2 (minute d) ++ ":" ++ pad 2 (second d).

(** [dt.strftime("%Y%m%d_%H%M%S")] *)
Definition strftime_suffix (d : datetime) : string :=
  pad 4 (year d) ++ pad 2 (month d) ++ pad 2 (day d) ++ "_"
  ++ pad 2 (hour d) ++ pad 2 (minute d) ++ pad 2 (second d).

(** [dt.strftime('%Y-%m-%d %H:%M:%S')] *)
Definition strftime_datetime (d : datetime) : string :=
  pad 4 (year d) ++ "-" ++ pad 2 (month d) ++ "-" ++ pad 2 (day d) ++ " "
  ++ pad 2 (hour d) ++ ":" ++ pad 2 (minute d) ++ ":" ++ pad 2 (second d).

(** [dt.strftime('%Y-%m-%d')] *)
Definition strftime_date (d : datetime) : string :=
  pad 4 (year d) ++ "-" ++ pad 2 (month d) ++ "-" ++ pad 2 (day d).

End PyDatetime.

(** ** [datetime.strptime]

    [strptime] turns the format into a regular expression, matches it at the
    start of the input with [re.match] (backtracking, alternatives in the
    order written), raises [ValueError] when nothing matches or when input
    is left over after the first match, and passes the fields to the
    [datetime] constructor. A matcher returns its successes in the order in
    which backtracking finds them. *)

Module Strptime.

Import PyStr PyDatetime.

Definition re (A : Type) : Type := string -> list (A * string).

Definition re_ret {A : Type} (a : A) : re A := fun s => [(a, s)].

Definition re_bind {A B : Type} (p : re A) (f : A -> re B) : re B :=
  fun s => flat_map (fun '(a, r) => f a r) (p s).

Definition re_alt {A : Type} (p q : re A) : re A :=
  fun s => (p s ++ q s)%list.

(** [p1|p2|...]: the alternatives are tried from left to right. *)
Definition alts {A : Type} (ps : list (re A)) : re A :=
  fold_right re_alt (fun _ => []) ps.

Notation "'then' x '<-' p ';' k" := (re_bind p (fun x => k))
  (at level 10, x pattern, p at level 100, k at level 200).

(** One character of the class [P]. *)
Definition class (P : ascii -> bool) : re ascii :=
  fun s => match s with
           | String c r => if P c then [(c, r)] else []
           | EmptyString => []
           end.

Definition lit (c : ascii) : re ascii := class (Ascii.eqb c).
Definition digit : re ascii := class is_digit.
Definition range (lo hi : ascii) : re ascii := class (in_range lo hi).

(** [\s+], greedy: the longest run of spaces first. *)
Fixpoint spaces1 (s : string) : list (unit * string) :=
  match s with
  | String c r => if is_space c then (spaces1 r ++ [(tt, r)])%list else []
  | EmptyString => []
  end.

(** Two characters read as a decimal number, and one. *)
Definition two (p1 p2 : re ascii) : re Z :=
  then a <- p1 ; then b <- p2 ; re_ret (10 * digit_val a + digit_val b).
Definition one (p : re ascii) : re Z :=
  then a <- p ; re_ret (digit_val a).

(** [%Y]: [\d\d\d\d] *)
Definition re_Y : re Z :=
  then a <- digit ; then b <- digit ; then c <- digit ; then d <- digit ;
  re_ret (1000 * digit_val a + 100 * digit_val b + 10 * digit_val c + digit_val d).

(** [%m]: [1[0-2]|0[1-9]|[1-9]] *)
Definition re_m : re Z :=
  alts [two (lit "1") (range "0" "2"); two (lit "0") (range "1" "9");
        one (range "1" "9")].

(** [%d]: [3[01]|[12]\d|0[1-9]|[1-9]| [1-9]] *)
Definition re_d : re Z :=
  alts [two (lit "3") (range "0" "1"); two (range "1" "2") digit;
        two (lit "0") (range "1" "9"); one (range "1" "9");
        (then _ <- lit " " ; one (range "1" "9"))].

(** [%H]: [2[0-3]|[0-1]\d|\d] *)
Definition re_H : re Z :=
  alts [two (lit "2") (range "0" "3"); two (range "0" "1") digit; one digit].

(** [%M]: [[0-5]\d|\d] *)
Definition re_M : re Z :=
  alts [two (range "0" "5") digit; one digit].

(** [%S]: [6[0-1]|[0-5]\d|\d] *)
Definition re_S : re Z :=
  alts [two (lit "6") (range "0" "1"); two (range "0" "5") digit; one digit].

(** The fields of a match: year, month, day, hour, minute, second. *)
Definition fields : Type := (Z * Z * Z * Z * Z * Z)%type.

(** ['%Y-%m-%d'] *)
Definition re_date : re (Z * Z * Z) :=
  then y <- re_Y ; then _ <- lit "-" ; then m <- re_m ; then _ <- lit "-" ; then d <- re_d ;
  re_ret (y, m, d).

Inductive format : Type :=
| Fmt_Ymd_HMS   (* '%Y-%m-%d %H:%M:%S' *)
| Fmt_Ymd_HM    (* '%Y-%m-%d %H:%M' *)
| Fmt_Ymd.      (* '%Y-%m-%d' *)

Definition regex (f : format) : re fields :=
  match f with
  | Fmt_Ymd_HMS =>
      then (y, m, d) <- re_date ; then _ <- spaces1 ; then h <- re_H ; then _ <- lit ":" ;
      then mi <- re_M ; then _ <- lit ":" ; then s <- re_S ; re_ret (y, m, d, h, mi, s)
  | Fmt_Ymd_HM =>
      then (y, m, d) <- re_date ; then _ <- spaces1 ; then h <- re_H ; then _ <- lit ":" ;
      then mi <- re_M ; re_ret (y, m, d, h, mi, 0)
  | Fmt_Ymd =>
      then (y, m, d) <- re_date ; re_ret (y, m, d, 0, 0, 0)
  end.

(** [datetime.strptime(s, f)]; [None] stands for [ValueError]. *)
Definition strptime (s : string) (f : format) : option datetime :=
  match regex f s with
  | ((y, m, d, h, mi, sec), rest) :: _ =>
      match rest with
      | EmptyString => PyDatetime.new y m d h mi sec
      | _ => None    (* unconverted data remains *)
      end
  | [] => None       (* does not match format *)
  end.

End Strptime.

(** ** [process_date_arguments]: the request-window resolver *)

Module Resolver.

Import PyDatetime Strptime.

(** The dictionary [processed_info]; its ['mode'] entry is the tag. *)
Inductive processed_info : Type :=
| date_range (start_date end_date calculated_duration : string)
| single_day (target_date duration : string)
| duration_with_end (end_date duration : string)
| duration_only (duration : string).

Definition formats : list format := [Fmt_Ymd_HMS; Fmt_Ymd_HM; Fmt_Ymd].

(** The loop [for fmt in formats] of [parse_date_string] and the [raise]
    after it. *)
Fixpoint try_formats (date_str : string) (fmts : list format) : result datetime :=
  match fmts with
  | fmt :: rest =>
      match strptime date_str fmt with
      | Some d => Ok d
      | None => try_formats date_str rest
      end
  | [] =>
      Raise (ValueError ("Invalid date format: " ++ date_str
                         ++ ". Use YYYY-MM-DD or YYYY-MM-DD HH:MM:SS"))
  end.

Definition parse_date_string (date_str : string) : result (option datetime) :=
  if String.eqb date_str "" then Ok None
  else let* d := try_formats date_str formats in Ok (Some d).

Definition format_ibkr_datetime (include_extended_hours : bool)
    (dt : datetime) (has_time_component : bool) : result string :=
  if has_time_component then Ok (strftime_ibkr dt)
  else if include_extended_hours then
    let* next_day := add_one_day dt in
    let end_time := replace_hms next_day 2 0 0 in
    Ok (strftime_ibkr end_time)
  else
    let end_time := replace_hms dt 16 0 0 in
    Ok (strftime_ibkr end_time).

(** [parse_date_string(x) if x else None]: [None] and the empty string are
    both false. *)
Definition parse_if_given (date_str : option string) : result (option datetime) :=
  match date_str with
  | Some s => if String.eqb s "" then Ok None else parse_date_string s
  | None => Ok None
  end.

(** The text of an optional argument as the dictionary stores it. *)
Definition arg_text (date_str : option string) : string :=
  match date_str with Some s => s | None => "" end.

(** [now] is what [datetime.now()] returns. *)
Definition process_date_arguments (start_date_str end_date_str : option string)
    (default_duration : string) (include_extended_hours : bool)
    (now : datetime) : result (string * string * processed_info) :=
  let* start_date := parse_if_given start_date_str in
  let* end_date := parse_if_given end_date_str in
  let* _ :=
    match start_date, end_date with
    | Some sd, Some ed =>
        if gt sd ed then Raise (ValueError "Start date cannot be after end date")
        else Ok tt
    | _, _ => Ok tt
    end in
  match start_date, end_date with
  | Some start_date, Some end_date =>
      (* Case 1: both dates provided *)
      let duration_days := td_days (sub end_date start_date) + 1 in
      let duration_str :=
        if duration_days =? 1 then "1 D"
        else if duration_days <=? 365 then PyStr.of_Z duration_days ++ " D"
        else
          let duration_years := duration_days / 365 in
          PyStr.of_Z duration_years ++ " Y" in
      let has_time := time_is_not_midnight end_date in
      let* end_datetime_str :=
        format_ibkr_datetime include_extended_hours end_date has_time in
      Ok (end_datetime_str, duration_str,
          date_range (arg_text start_date_str) (arg_text end_date_str) duration_str)
  | Some start_date, None =>
      (* Case 2: only start date provided *)
      let duration_str := "1 D" in
      let end_datetime := start_date in
      let has_time := time_is_not_midnight start_date in
      let '(end_datetime, has_time) :=
        if negb has_time && negb include_extended_hours
        then (replace_hms end_datetime 16 0 0, true)
        else (end_datetime, has_time) in
      let* end_datetime_str :=
        format_ibkr_datetime include_extended_hours end_datetime has_time in
      Ok (end_datetime_str, duration_str,
          single_day (arg_text start_date_str) duration_str)
  | None, Some end_date =>
      (* Case 3: only end date provided *)
      let duration_str := default_duration in
      let has_time := time_is_not_midnight end_date in
      let* end_datetime_str :=
        format_ibkr_datetime include_extended_hours end_date has_time in
      Ok (end_datetime_str, duration_str,
          duration_with_end (arg_text end_date_str) duration_str)
  | None, None =>
      (* Case 4: neither date provided *)
      let duration_str := default_duration in
      let* end_datetime_str :=
        if include_extended_hours then
          let today := now in
          format_ibkr_datetime include_extended_hours today false
        else
          let today := now in
          format_ibkr_datetime include_extended_hours today false in
      Ok (end_datetime_str, duration_str, duration_only duration_str)
  end.

End Resolver.

(** ** Configuration constants of the script *)

Module Config.
Definition TARGET_SYMBOL : string := "SPY".
Definition SECURITY_TYPE : string := "STK".
Definition STOCK_EXCHANGE : string := "SMART".
Definition STOCK_CURRENCY : string := "USD".
Definition FUTURE_LAST_TRADE_DATE_OR_CONTRACT_MONTH : string := "".
Definition FUTURE_EXCHANGE : string := "".
Definition FUTURE_CURRENCY : string := "USD".
Definition HISTORY_DURATION : string := "1 Y".
Definition WHAT_TO_SHOW : string := "TRADES".
Definition IB_HOST : string := "127.0.0.1".
Definition IB_PORT : Z := 4001.
Definition CLIENT_ID : Z := 77.

Definition VALID_BAR_SIZES : list string :=
  ["1 secs"; "5 secs"; "10 secs"; "15 secs"; "30 secs";
   "1 min"; "2 mins"; "3 mins"; "5 mins"; "10 mins"; "15 mins"; "20 mins";
   "30 mins"; "1 hour"; "2 hours"; "3 hours"; "4 hours"; "8 hours";
   "1 day"; "1 week"; "1 month"].
End Config.

(** ** Timeframes, time zones and file names *)

Module Pipeline.

Import PyDatetime.

(** [any(x in duration.upper() for x in ['Y', 'YEAR'])]: [x in s] is the
    substring test. *)
Fixpoint contains (x s : string) : bool :=
  String.prefix x s
  || match s with
     | EmptyString => false
     | String _ r => contains x r
     end.

Definition validate_timeframe_duration (timeframe duration : string) : list string :=
  let warnings : list string := [] in
  let small_bars := ["1 secs"; "5 secs"; "10 secs"; "15 secs"; "30 secs"] in
  let warnings :=
    if PyStr.str_in timeframe small_bars then
      app warnings
        ["WARNING: Timeframe '" ++ timeframe ++ "' with duration '" ++ duration
           ++ "' may hit IBKR pacing limits";
         "WARNING: Bars 30 seconds or smaller older than 6 months are not available from IBKR"]
    else warnings in
  let warnings :=
    if PyStr.str_in timeframe small_bars
       && existsb (fun x => contains x (PyStr.upper duration)) ["Y"; "YEAR"]
    then app warnings ["WARNING: Small timeframes with yearly durations may result in very large datasets"]
    else warnings in
  warnings.

(** A time zone object: [pytz.UTC], [pytz.timezone(name)], or the
    [tzinfo] of the system's local zone. *)
Inductive tzinfo : Type :=
| pytz_UTC
| pytz_timezone (name : string)
| system_tzinfo.

Definition get_target_timezone (timezone_choice symbol : string) : tzinfo :=
  if String.eqb timezone_choice "UTC" then pytz_UTC
  else if String.eqb timezone_choice "local" then system_tzinfo
  else if String.eqb timezone_choice "market" then
    let symbol_upper := PyStr.upper symbol in
    if PyStr.str_in symbol_upper ["SPY"; "QQQ"; "IWM"]
       || (String.length symbol_upper <=? 5)%nat
    then pytz_timezone "US/Eastern"
    else pytz_timezone "US/Eastern"
  else pytz_UTC.

Definition is_intraday_timeframe (timeframe : string) : bool :=
  let intraday_timeframes :=
    ["1 secs"; "5 secs"; "10 secs"; "15 secs"; "30 secs";
     "1 min"; "2 mins"; "3 mins"; "5 mins"; "10 mins"; "15 mins"; "20 mins";
     "30 mins"; "1 hour"; "2 hours"; "3 hours"; "4 hours"; "8 hours"] in
  PyStr.str_in timeframe intraday_timeframes.

(** The truth value of an optional string: [None] and [''] are false. *)
Definition truthy (o : option string) : bool :=
  match o with
  | Some s => negb (String.eqb s "")
  | None => false
  end.

Definition timeframe_clean (timeframe : string) : string :=
  let t := PyStr.replace "min" "m" (PyStr.replace "mins" "m"
             (PyStr.replace "secs" "s" (PyStr.replace " " "" timeframe))) in
  PyStr.replace "month" "M" (PyStr.replace "week" "w"
    (PyStr.replace "day" "d" (PyStr.replace "hour" "h" t))).

Definition duration_clean (duration : string) : string :=
  PyStr.replace " " "" duration.

Definition filename_parts (symbol security_type duration timeframe : string)
    (future_contract_month : option string) (include_extended_hours : bool)
    : list string :=
  let parts := [PyStr.upper symbol; security_type] in
  let parts :=
    if String.eqb security_type "FUT" && truthy future_contract_month
    then (parts ++ [default "" future_contract_month])%list else parts in
  let parts := (parts ++ [duration_clean duration; timeframe_clean timeframe])%list in
  let parts := if include_extended_hours then (parts ++ ["ETH"])%list else parts in
  (parts ++ ["OHLCV"])%list.

Definition generate_filename (symbol security_type duration timeframe : string)
    (future_contract_month : option string) (include_extended_hours : bool)
    : string :=
  PyStr.join "_" (filename_parts symbol security_type duration timeframe
                    future_contract_month include_extended_hours) ++ ".csv".

(** *** [os.path.splitext] (POSIX) *)

(** [p.rfind(c)] counted from [i], the index of the first character of [p];
    [-1] when [c] does not occur. *)
Fixpoint rfind_from (c : ascii) (i : Z) (p : string) : Z :=
  match p with
  | EmptyString => -1
  | String a r =>
      let j := rfind_from c (i + 1) r in
      if 0 <=? j then j else if Ascii.eqb a c then i else -1
  end.

Definition rfind (c : ascii) (p : string) : Z := rfind_from c 0 p.

(** Some character of [s] is not a dot. *)
Fixpoint has_non_dot (s : string) : bool :=
  match s with
  | EmptyString => false
  | String a r => negb (Ascii.eqb a ".") || has_non_dot r
  end.

Definition splitext (p : string) : string * string :=
  let sepIndex := rfind "/" p in
  let dotIndex := rfind "." p in
  if sepIndex <? dotIndex then
    let filenameIndex := sepIndex + 1 in
    if has_non_dot (PyStr.take (Z.to_nat (dotIndex - filenameIndex))
                      (PyStr.drop (Z.to_nat filenameIndex) p))
    then (PyStr.take (Z.to_nat dotIndex) p, PyStr.drop (Z.to_nat dotIndex) p)
    else (p, "")
  else (p, "").

(** *** The file system: the set of the paths that exist *)

Definition path_exists (files : gset string) (p : string) : bool :=
  bool_decide (p ∈ files).

(** The candidate of the [counter]-th round of the loop. *)
Definition numbered (name_part timestamp ext : string) (counter : nat) : string :=
  name_part ++ "_" ++ timestamp ++ "_" ++ PyStr.fmt_02d counter ++ ext.

(** The loop [while os.path.exists(unique_filename)] with its two
    variables; [None] when [fuel] rounds were not enough. *)
Fixpoint unique_loop (fuel : nat) (files : gset string)
    (name_part timestamp ext : string)
    (unique_filename : string) (counter : nat) : option string :=
  if path_exists files unique_filename then
    match fuel with
    | O => None
    | S fuel' =>
        unique_loop fuel' files name_part timestamp ext
          (numbered name_part timestamp ext counter) (S counter)
    end
  else Some unique_filename.

(** [now] is what [datetime.now()] returns. *)
Definition generate_unique_filename (fuel : nat) (files : gset string)
    (now : datetime) (base_filename : string) : option string :=
  if negb (path_exists files base_filename) then Some base_filename
  else
    let '(name_part, ext) := splitext base_filename in
    let timestamp := strftime_suffix now in
    let unique_filename := name_part ++ "_" ++ timestamp ++ ext in
    let counter := 1%nat in
    unique_loop fuel files name_part timestamp ext unique_filename counter.

End Pipeline.

(** ** The run: what the script prints, reads and asks of its environment *)

Module Run.

Import PyDatetime Resolver Pipeline Config.

Definition nl : string := String (ascii_of_nat 10) EmptyString.

(** The contract object handed to the broker, and a qualified contract. *)
Inductive contract_spec : Type :=
| Stock (symbol exchange currency : string)
| Forex (pair : string)
| Future (symbol lastTradeDateOrContractMonth exchange currency : string).

Record contract : Type := {
  localSymbol : string; exchange : string; conId : Z; symbol : string
}.

(** A value of the provider, a float or an int, as its decimal text. *)
Definition number : Type := string.

(** A value of the [date] column. *)
Inductive cell : Type :=
| cell_str (s : string)
| cell_timestamp (t : datetime)
| cell_object (repr : string).

Inductive column : Type :=
| datetime64 (values : list datetime)   (* dtype datetime64, UTC *)
| object (values : list cell)           (* dtype object *)
| other_dtype (values : list cell).

Record ohlcv : Type := {
  open : number; high : number; low : number; close : number; volume : number
}.

(** The columns [date, open, high, low, close, volume] of a data frame. *)
Record dataframe : Type := { df_date : column; df_rows : list ohlcv }.

Definition df_empty (df : dataframe) : bool :=
  match df_rows df with [] => true | _ => false end.

(** A bar of the provider. *)
Record bar : Type := {
  bar_date : cell; bar_ohlcv : ohlcv; average : number; barCount : number
}.

(** The table written by [to_csv]. *)
Record table : Type := {
  date_column_name : string; date_values : column; rows : list ohlcv
}.

Inductive event : Type :=
| Print (line : string)
| PrintTraceback
| Input (prompt : string)
| Connect (host : string) (port clientId timeout : Z)
| QualifyContracts (c : contract_spec)
| ReqHistoricalData (c : contract)
    (endDateTime durationStr barSizeSetting whatToShow : string)
    (useRTH : bool) (formatDate : Z)
| ToCsv (path : string) (t : table)
| Disconnect.

(** The environment of one run. The fields up to [to_csv] are what the
    run reads from the machine and the broker; the last four are the
    library functions of pandas, pytz and ib_async that the script calls. *)
Record world : Type := {
  clock : datetime;                          (* datetime.now() *)
  files : gset string;                       (* os.path.exists *)
  creation_time : string -> option datetime; (* os.path.getctime; None: OSError *)
  abspath : string -> string;
  connect : result unit;
  qualifyContracts : contract_spec -> list contract;
  reqHistoricalData : result (list bar);
  to_csv : string -> result unit;
  util_df : list bar -> option dataframe;      (* util.df(bars); None: None *)
  to_datetime : cell -> option datetime;       (* pd.to_datetime of one value;
                                                  None: ValueError or TypeError *)
  tz_convert : tzinfo -> datetime -> datetime; (* a UTC time in a zone *)
  tzname : tzinfo -> string                    (* tz.tzname(datetime.now()) *)
}.

(** The state of a run: what happened so far (oldest first), the lines
    still to be read from the keyboard, and whether [ib] is connected. *)
Record state : Type := {
  trace : list event; stdin : list string; connected : bool
}.

Inductive outcome (A : Type) : Type :=
| Returned (a : A)
| Raised (e : exn)
| Diverged.
Arguments Returned {A}. Arguments Raised {A}. Arguments Diverged {A}.

Definition M (A : Type) : Type := state -> outcome A * state.

#[export] Instance M_ret : MRet M := fun A a st => (Returned a, st).
#[export] Instance M_bind : MBind M := fun A B f m st =>
  match m st with
  | (Returned a, st') => f a st'
  | (Raised e, st') => (Raised e, st')
  | (Diverged, st') => (Diverged, st')
  end.

Definition raise {A : Type} (e : exn) : M A := fun st => (Raised e, st).
Definition diverge {A : Type} : M A := fun st => (Diverged, st).

Definition emit (e : event) : M unit := fun st =>
  (Returned tt,
   {| trace := (trace st ++ [e])%list; stdin := stdin st;
      connected := connected st |}).

Definition print (line : string) : M unit := emit (Print line).

Definition print_all (lines : list string) : M unit :=
  foldr (fun l k => print l;; k) (mret tt) lines.

(** A result of the environment, raised when it is an exception. *)
Definition lift {A : Type} (r : result A) : M A :=
  match r with inl e => raise e | inr a => mret a end.

Definition set_connected (b : bool) : M unit := fun st =>
  (Returned tt, {| trace := trace st; stdin := stdin st; connected := b |}).

Definition is_connected : M bool := fun st => (Returned (connected st), st).

(** [input(prompt)]: [EOFError] at the end of the input. *)
Definition input (prompt : string) : M string := fun st =>
  let st' := {| trace := (trace st ++ [Input prompt])%list;
                stdin := tl (stdin st); connected := connected st |} in
  match stdin st with
  | line :: _ => (Returned line, st')
  | [] => (Raised EOFError, st')
  end.

(** [try: body except: handler], the handler deciding by the exception;
    and [try: body finally: final]. *)
Definition try_except {A : Type} (body : M A) (handler : exn -> M A) : M A :=
  fun st =>
    match body st with
    | (Raised e, st') => handler e st'
    | r => r
    end.

Definition try_finally {A : Type} (body : M A) (final : M unit) : M A :=
  fun st =>
    match body st with
    | (Diverged, st') => (Diverged, st')
    | (r, st') =>
        match final st' with
        | (Returned _, st'') => (r, st'')
        | (Raised e, st'') => (Raised e, st'')
        | (Diverged, st'') => (Diverged, st'')
        end
    end.

(** [str(e)] *)
Definition exn_str (e : exn) : string :=
  match e with
  | ValueError msg | OverflowError msg | LookupError msg
  | OtherException msg => msg
  | EOFError => "EOF when reading a line"
  | ConnectionRefusedError => "Connection refused"
  | TimeoutError => "timed out"
  | PermissionError => "Permission denied"
  end.

Definition bool_str (b : bool) : string := if b then "True" else "False".

(** *** [handle_file_conflict] *)

(** The loop [while True] around [input]: a round reads one line, and
    [rounds] bounds the rounds. *)
Fixpoint choice_loop (rounds : nat) (w : world) (filename : string)
    : M (string * bool) :=
  line ← input "Enter choice [O/R/C]: ";
  let choice := PyStr.upper (PyStr.strip line) in
  if PyStr.str_in choice ["O"; "OVERWRITE"] then
    print ("Overwriting: " ++ filename);;
    mret (filename, true)
  else if PyStr.str_in choice ["R"; "RENAME"] then
    match generate_unique_filename (S (size (files w))) (files w) (clock w)
            filename with
    | Some new_filename =>
        print ("Creating new file: " ++ new_filename);;
        mret (new_filename, true)
    | None => diverge
    end
  else if PyStr.str_in choice ["C"; "CANCEL"] then
    print "Operation cancelled by user.";;
    mret (filename, false)
  else
    print "Invalid choice. Please enter O, R, or C.";;
    match rounds with
    | S rounds' => choice_loop rounds' w filename
    | O => diverge
    end.

(** The loop started with as many rounds as there are lines to read: the
    round after the last line ends in [EOFError]. *)
Definition ask_choice (w : world) (filename : string) : M (string * bool) :=
  fun st => choice_loop (length (stdin st)) w filename st.

Definition handle_file_conflict (w : world) (filename : string)
    (overwrite_flag : bool) : M (string * bool) :=
  if negb (path_exists (files w) filename) then mret (filename, true)
  else if overwrite_flag then
    print ("Overwriting existing file: " ++ filename);;
    mret (filename, true)
  else
    let formatted_time :=
      match creation_time w filename with
      | Some t => strftime_datetime t
      | None => "unknown"
      end in
    print (nl ++ "File conflict detected!");;
    print ("Output file '" ++ filename ++ "' already exists (created: "
           ++ formatted_time ++ ")");;
    print ("Full path: " ++ abspath w filename);;
    print "";;
    print "Choose action:";;
    print "  [O]verwrite - Replace the existing file";;
    print "  [R]ename    - Create new file with timestamp suffix";;
    print "  [C]ancel    - Abort the operation";;
    print "";;
    ask_choice w filename.

(** *** [create_contract] *)

Definition create_contract (symbol security_type : option string)
    : M contract_spec :=
  let target_symbol := default TARGET_SYMBOL symbol in
  let sec_type := default SECURITY_TYPE security_type in
  print ("Creating contract for " ++ target_symbol ++ " (" ++ sec_type ++ ")...");;
  if String.eqb sec_type "STK" then
    mret (Stock target_symbol STOCK_EXCHANGE STOCK_CURRENCY)
  else if String.eqb sec_type "CASH" then
    mret (Forex target_symbol)
  else if String.eqb sec_type "FUT" then
    if String.eqb FUTURE_LAST_TRADE_DATE_OR_CONTRACT_MONTH ""
       || String.eqb FUTURE_EXCHANGE ""
    then raise (ValueError "For Futures (FUT), FUTURE_LAST_TRADE_DATE_OR_CONTRACT_MONTH and FUTURE_EXCHANGE must be specified.")
    else mret (Future target_symbol FUTURE_LAST_TRADE_DATE_OR_CONTRACT_MONTH
                 FUTURE_EXCHANGE FUTURE_CURRENCY)
  else
    raise (ValueError ("Unsupported SECURITY_TYPE: " ++ sec_type
                       ++ ". Please use 'STK', 'CASH', or 'FUT'.")).

(** *** The time zone conversion of the date column *)

(** [convert_datetime_column]: the series holds UTC times. *)
Definition convert_datetime_column (w : world) (datetime_series : list datetime)
    (target_timezone : tzinfo) : list datetime :=
  map (tz_convert w target_timezone) datetime_series.

Definition format_timezone_aware_datetime (w : world)
    (datetime_series : list datetime) (target_timezone : tzinfo)
    (is_intraday : bool) : list string :=
  let converted_series :=
    convert_datetime_column w datetime_series target_timezone in
  if is_intraday then map strftime_datetime converted_series
  else map strftime_date converted_series.

(** [pd.to_datetime(series)]: every value is converted, or the call
    raises; [None] stands for the [ValueError] or [TypeError]. *)
Definition pd_to_datetime (w : world) (series : list cell) : option (list datetime) :=
  mapM (to_datetime w) series.

(** The branch on the dtype of the date column in
    [fetch_and_save_historical_data]. *)
Definition format_date_column (w : world) (date_column_name : string)
    (col : column) (target_timezone : tzinfo) (is_intraday : bool) : M column :=
  match col with
  | datetime64 values =>
      mret (object (map cell_str
        (format_timezone_aware_datetime w values target_timezone is_intraday)))
  | object values =>
      match pd_to_datetime w values with
      | Some datetime_series =>
          mret (object (map cell_str
            (format_timezone_aware_datetime w datetime_series target_timezone
               is_intraday)))
      | None =>
          print ("Warning: " ++ date_column_name
                 ++ " column could not be parsed. Leaving as is.");;
          mret (object values)
      end
  | other_dtype values => mret (other_dtype values)
  end.

(** *** [fetch_and_save_historical_data] *)

Definition print_date_info (date_info : processed_info) : M unit :=
  match date_info with
  | date_range start_date end_date calculated_duration =>
      print ("Date range mode: " ++ start_date ++ " to " ++ end_date);;
      print ("Calculated duration: " ++ calculated_duration)
  | single_day target_date _ =>
      print ("Single day mode: " ++ target_date)
  | duration_with_end end_date duration =>
      print ("Duration with end date: " ++ duration ++ " ending at " ++ end_date)
  | duration_only _ => mret tt
  end.

Definition small_bar_sizes : list string :=
  ["1 secs"; "5 secs"; "10 secs"; "15 secs"; "30 secs"].

(** The part after [df = util.df(bars)] for a data frame that is neither
    [None] nor empty. *)
Definition save_dataframe (w : world) (df : dataframe)
    (target_symbol bar_size output_filename timezone_choice : string)
    (overwrite : bool) : M unit :=
  let is_intraday := is_intraday_timeframe bar_size in
  let target_timezone := get_target_timezone timezone_choice target_symbol in
  let date_column_name :=
    if is_intraday then
      let tz_abbrev :=
        if negb (String.eqb timezone_choice "UTC")
        then tzname w target_timezone else "UTC" in
      "DateTime_" ++ tz_abbrev
    else "Date" in
  date_col ← format_date_column w date_column_name (df_date df)
               target_timezone is_intraday;
  let df_output :=
    {| date_column_name := date_column_name; date_values := date_col;
       rows := df_rows df |} in
  '(final_filename, should_proceed) ←
    handle_file_conflict w output_filename overwrite;
  if negb should_proceed then
    print "Data download was successful but file was not saved due to user cancellation."
  else
    try_except
      (emit (ToCsv final_filename df_output);;
       lift (to_csv w final_filename);;
       print ("SUCCESS: Historical OHLCV data saved to: " ++ final_filename))
      (fun e =>
         match e with
         | PermissionError =>
             print_all
               [nl ++ "ERROR: Permission denied while saving file: " ++ final_filename;
                "Possible causes:";
                "  - File is currently open in Excel or another application";
                "  - Insufficient write permissions in the directory";
                "  - File is marked as read-only";
                nl ++ "Solutions:";
                "  - Close the file in any applications and try again";
                "  - Run the script as administrator";
                "  - Choose a different output directory"];;
             raise e
         | _ => raise e
         end).

(** The body of the [try] statement. *)
Definition fetch_body (w : world)
    (target_symbol bar_size hist_duration end_datetime_str output_filename
       timezone_choice : string)
    (overwrite include_extended_hours use_rth : bool) : M unit :=
  print ("Attempting to connect to IBKR at " ++ IB_HOST ++ ":"
         ++ PyStr.of_Z IB_PORT ++ " with Client ID " ++ PyStr.of_Z CLIENT_ID
         ++ "...");;
  emit (Connect IB_HOST IB_PORT CLIENT_ID 15);;
  lift (connect w);;
  set_connected true;;
  print "Successfully connected to IBKR.";;
  contract ← create_contract (Some target_symbol) (Some SECURITY_TYPE);
  print "Qualifying contract...";;
  emit (QualifyContracts contract);;
  match qualifyContracts w contract with
  | [] =>
      raise (LookupError ("Contract for " ++ TARGET_SYMBOL ++ " ("
        ++ SECURITY_TYPE ++ ") could not be qualified. "
        ++ "Please check symbol, security type, exchange, and other parameters."))
  | qualified_contract :: _ =>
      print ("Contract qualified: " ++ localSymbol qualified_contract ++ " on "
             ++ exchange qualified_contract ++ " (conId: "
             ++ PyStr.of_Z (conId qualified_contract) ++ ")");;
      print (nl ++ "Requesting historical data for "
             ++ symbol qualified_contract ++ ":");;
      print ("  Duration: " ++ hist_duration);;
      print ("  Bar size: " ++ bar_size);;
      print ("  Data type: " ++ WHAT_TO_SHOW);;
      print ("  Regular Trading Hours: " ++ bool_str use_rth);;
      (if include_extended_hours
       then print "  Extended Hours: Included (pre-market and after-hours data)"
       else mret tt);;
      (if negb (String.eqb end_datetime_str "")
       then print ("  End DateTime: " ++ end_datetime_str)
       else mret tt);;
      (if is_intraday_timeframe bar_size then
         let target_timezone := get_target_timezone timezone_choice target_symbol in
         let tz_name :=
           if negb (String.eqb timezone_choice "UTC")
           then tzname w target_timezone else "UTC" in
         print ("  Output timezone: " ++ timezone_choice ++ " (" ++ tz_name ++ ")")
       else mret tt);;
      emit (ReqHistoricalData qualified_contract end_datetime_str hist_duration
              bar_size WHAT_TO_SHOW use_rth 2);;
      bars ← lift (reqHistoricalData w);
      match bars with
      | [] =>
          print_all
            [nl ++ "No historical data received. This could be due to several reasons:";
             "  - No data available for the requested contract or period.";
             "  - Market data subscriptions might be required for this specific data.";
             "  - Incorrect contract details or parameters.";
             "  - " ++ bar_size ++ " data may not be available if the duration is too short or data restrictions apply."];;
          (if PyStr.str_in bar_size small_bar_sizes
           then print "  - Remember: Bars 30 seconds or smaller older than 6 months are not available from IBKR."
           else mret tt)
      | _ :: _ =>
          print (nl ++ "Successfully received "
                 ++ PyStr.of_nat (length bars) ++ " bars of data.");;
          match util_df w bars with
          | Some df =>
              if negb (df_empty df) then
                save_dataframe w df target_symbol bar_size output_filename
                  timezone_choice overwrite
              else
                print "Data was received, but the resulting DataFrame is empty or None after processing."
          | None =>
              print "Data was received, but the resulting DataFrame is empty or None after processing."
          end
      end
  end.

(** The [except] clauses, in their order. *)
Definition fetch_handler (e : exn) : M unit :=
  match e with
  | ConnectionRefusedError =>
      print (nl ++ "ERROR: Connection refused. Ensure IB Gateway or TWS is running on "
             ++ IB_HOST ++ ":" ++ PyStr.of_Z IB_PORT ++ " and API access is enabled.")
  | TimeoutError =>
      print (nl ++ "ERROR: Connection to IBKR timed out. Check network or if TWS/Gateway is responsive.")
  | LookupError _ | ValueError _ =>
      print (nl ++ "ERROR: " ++ exn_str e)
  | _ =>
      print (nl ++ "An unexpected error occurred: " ++ exn_str e);;
      emit PrintTraceback
  end.

(** The [finally] clause. *)
Definition fetch_finally : M unit :=
  c ← is_connected;
  if (c : bool) then
    print (nl ++ "Disconnecting from IBKR...");;
    emit Disconnect;;
    set_connected false;;
    print "Disconnected."
  else
    print (nl ++ "No active connection to disconnect or connection was not established.").

Definition fetch_and_save_historical_data (w : world)
    (symbol timeframe duration output_filename : option string)
    (overwrite : bool) (timezone_choice : string)
    (start_date end_date : option string) (include_extended_hours : bool)
    : M unit :=
  let target_symbol := default TARGET_SYMBOL symbol in
  let bar_size := default "1 day" timeframe in
  let default_duration := default HISTORY_DURATION duration in
  match process_date_arguments start_date end_date default_duration
          include_extended_hours (clock w) with
  | inl (ValueError e) =>
      print ("ERROR: " ++ e)
  | inl e => raise e
  | inr (end_datetime_str, hist_duration, date_info) =>
      print_date_info date_info;;
      let use_rth := negb include_extended_hours in
      let warnings := validate_timeframe_duration bar_size hist_duration in
      print_all warnings;;
      let output_filename :=
        match output_filename with
        | Some f => f
        | None =>
            let future_month :=
              if String.eqb SECURITY_TYPE "FUT"
              then Some FUTURE_LAST_TRADE_DATE_OR_CONTRACT_MONTH else None in
            generate_filename target_symbol SECURITY_TYPE hist_duration bar_size
              future_month include_extended_hours
        end in
      try_finally
        (try_except
           (fetch_body w target_symbol bar_size hist_duration end_datetime_str
              output_filename timezone_choice overwrite include_extended_hours
              use_rth)
           fetch_handler)
        fetch_finally
  end.

(** *** [main] *)

(** The parsed command line. *)
Record args : Type := {
  arg_symbol : string; arg_timeframe : string; arg_duration : string;
  arg_output : option string; arg_overwrite : bool; arg_timezone : string;
  arg_start_date : option string; arg_end_date : option string;
  arg_eth : bool
}.

(** [main] after [parse_arguments]; the value is the exit status. *)
Definition main (w : world) (a : args) : M Z :=
  print "IBKR Historical Data Downloader";;
  print "================================";;
  print ("Symbol: " ++ arg_symbol a);;
  print ("Timeframe: " ++ arg_timeframe a);;
  print ("Duration: " ++ arg_duration a);;
  print ("Timezone: " ++ arg_timezone a);;
  (if truthy (arg_start_date a)
   then print ("Start date: " ++ default "" (arg_start_date a)) else mret tt);;
  (if truthy (arg_end_date a)
   then print ("End date: " ++ default "" (arg_end_date a)) else mret tt);;
  (if arg_eth a then print "Extended hours: Enabled" else mret tt);;
  (if truthy (arg_output a)
   then print ("Output file: " ++ default "" (arg_output a)) else mret tt);;
  print "";;
  try_except
    (fetch_and_save_historical_data w (Some (arg_symbol a))
       (Some (arg_timeframe a)) (Some (arg_duration a)) (arg_output a)
       (arg_overwrite a) (arg_timezone a) (arg_start_date a) (arg_end_date a)
       (arg_eth a);;
     (mret 0 : M Z))
    (fun e => print ("FATAL ERROR: " ++ exn_str e);; (mret 1 : M Z)).

(** A run from the initial state: nothing has happened, [keyboard] is
    what will be typed. *)
Definition initial (keyboard : list string) : state :=
  {| trace := []; stdin := keyboard; connected := false |}.

End Run.

(** ** The statements of the specification, in its own words *)

Module Spec.

Import PyDatetime Resolver.

(** "spanning N inclusive days": the calendar days from the day of [s] to
    the day of [e], both counted. *)
Definition inclusive_calendar_days (s e : datetime) : Z :=
  toordinal e - toordinal s + 1.

(** "[<N> D] when [N <= 365], else [<floor(N/365)> Y]" *)
Definition duration_string (N : Z) : string :=
  if N <=? 365 then PyStr.of_Z N ++ " D" else PyStr.of_Z (N / 365) ++ " Y".

(** The time of day in microseconds. *)
Definition time_of_day (d : datetime) : Z :=
  seconds_of_day d * 1000000 + microsecond d.

(** The inclusive calendar days, less one when the time of day of [e] is
    earlier than that of [s]: the whole days elapsed from [s] to [e], plus
    one. *)
Definition counted_days (s e : datetime) : Z :=
  inclusive_calendar_days s e
  - (if time_of_day e <? time_of_day s then 1 else 0).

(** The date of [d] at the time [h:mi:s]. *)
Definition at_time (d : datetime) (h mi s : Z) : datetime :=
  mk_datetime (year d) (month d) (day d) h mi s 0.

(** [n] is on the calendar day that follows the day of [d]. *)
Definition following_day (d n : datetime) : Prop :=
  valid_date (year n) (month n) (day n) = true /\ toordinal n = toordinal d + 1.

Definition is_last_day (d : datetime) : bool :=
  (year d =? MAXYEAR) && (month d =? 12) && (day d =? 31).

(** The rule for a date without a time of day: 16:00:00 on the same day
    for the regular session, 02:00:00 on the following day for the extended
    one. *)
Definition session_close (extended : bool) (d : datetime) (ts : string) : Prop :=
  if extended
  then exists n, following_day d n /\ ts = strftime_ibkr (at_time n 2 0 0)
  else ts = strftime_ibkr (at_time d 16 0 0).

(** The date that anchors the end timestamp in each of the four cases, and
    whether it comes from the command line ([false]: from the clock). *)
Definition anchor (now : datetime) (start_date end_date : option datetime)
    : datetime * bool :=
  match start_date, end_date with
  | _, Some e => (e, true)
  | Some s, None => (s, true)
  | None, None => (now, false)
  end.

(** The dates are not in the wrong order. *)
Definition in_order (start_date end_date : option datetime) : Prop :=
  match start_date, end_date with
  | Some s, Some e => gt s e = false
  | _, _ => True
  end.

(** The instant used in the closed examples below for the clock. *)
Definition sample_now : datetime := mk_datetime 2026 11 3 14 25 7 123456.

(** The future month that enters the file name: the one given, when the
    security type is ["FUT"] and the month is neither [None] nor empty. *)
Definition effective_month (security_type : string)
    (future_contract_month : option string) : option string :=
  if String.eqb security_type "FUT" && Pipeline.truthy future_contract_month
  then future_contract_month else None.

(** The piece of the file name for the future month. *)
Definition month_token (o : option string) : string :=
  match o with Some m => m ++ "_" | None => "" end.

(** The number that a string of decimal digits denotes. *)
Definition decimal_value (s : string) : option nat :=
  option_map Nat.of_uint (NilEmpty.uint_of_string s).

(** The end timestamp and the duration of a result, without the
    dictionary. *)
Definition resolved (r : result (string * string * processed_info))
    : result (string * string) :=
  let* x := r in Ok (fst (fst x), snd (fst x)).

(** *** Runs *)

Import Run.

(** The state after the events [evs]. *)
Definition log (evs : list event) (st : state) : state :=
  {| trace := (trace st ++ evs)%list; stdin := stdin st;
     connected := connected st |}.

(** [m] produces events that all satisfy [P], changes nothing else, and
    goes on as [k]. *)
Definition leads_to (P : event -> bool) {A : Type} (m k : M A) : Prop :=
  exists evs, forallb P evs = true /\ forall st, m st = k (log evs st).

(** An interaction with the broker over the network. *)
Definition is_network (e : event) : bool :=
  match e with
  | Connect _ _ _ _ | QualifyContracts _ | ReqHistoricalData _ _ _ _ _ _ _
  | Disconnect => true
  | _ => false
  end.

Definition is_print (e : event) : bool :=
  match e with Print _ => true | _ => false end.

(** A write of the output file. *)
Definition is_write (e : event) : bool :=
  match e with ToCsv _ _ => true | _ => false end.

(** The answer typed at the prompt, as the loop reads it. *)
Definition choice_of (line : string) : string := PyStr.upper (PyStr.strip line).

Definition is_cancel (line : string) : bool :=
  PyStr.str_in (choice_of line) ["C"; "CANCEL"].

Definition is_invalid (line : string) : bool :=
  negb (PyStr.str_in (choice_of line)
          ["O"; "OVERWRITE"; "R"; "RENAME"; "C"; "CANCEL"]).

Definition prompt : string := "Enter choice [O/R/C]: ".
Definition invalid_message : string := "Invalid choice. Please enter O, R, or C.".
Definition column_warning (date_column_name : string) : string :=
  "Warning: " ++ date_column_name ++ " column could not be parsed. Leaving as is.".
Definition success_message (path : string) : string :=
  "SUCCESS: Historical OHLCV data saved to: " ++ path.

(** The name of the date column of the output. *)
Definition output_date_column (w : world) (timezone_choice target_symbol
    bar_size : string) : string :=
  if Pipeline.is_intraday_timeframe bar_size then
    "DateTime_" ++ (if negb (String.eqb timezone_choice "UTC")
                    then tzname w (Pipeline.get_target_timezone timezone_choice
                                     target_symbol)
                    else "UTC")
  else "Date".

(** The path of the output file: the one given, else the generated one
    (the security type of the configuration is not ["FUT"], so there is no
    future month). *)
Definition output_path (a : args) (hist_duration : string) : string :=
  match arg_output a with
  | Some f => f
  | None =>
      Pipeline.generate_filename (arg_symbol a) Config.SECURITY_TYPE
        hist_duration (arg_timeframe a) None (arg_eth a)
  end.

(** The run gets as far as the data frame [df]: the dates resolve, the
    broker accepts the connection, qualifies the contract and returns bars,
    and the bars make a data frame that is not empty. *)
Record reaches_save (w : world) (a : args) (end_datetime_str hist_duration : string)
    (info : processed_info) (df : dataframe) : Prop := {
  dates_resolve :
    process_date_arguments (arg_start_date a) (arg_end_date a) (arg_duration a)
      (arg_eth a) (clock w) = Ok (end_datetime_str, hist_duration, info);
  connection_accepted : connect w = Ok tt;
  contract_qualified :
    qualifyContracts w
      (Stock (arg_symbol a) Config.STOCK_EXCHANGE Config.STOCK_CURRENCY) <> [];
  bars_returned :
    exists b bars,
      reqHistoricalData w = Ok (b :: bars) /\ util_df w (b :: bars) = Some df;
  dataframe_not_empty : df_empty df = false
}.

(** The events that end a run whose connection was made. *)
Definition closing : list event :=
  [Print (nl ++ "Disconnecting from IBKR..."); Disconnect;
   Print "Disconnected."].

Definition cancelled_message : string :=
  "Data download was successful but file was not saved due to user cancellation.".
Definition range_error_message : string := "Start date cannot be after end date".

(** What the prompt loop does until a cancel: a rejected answer after each
    invalid line, then the cancellation. *)
Definition cancel_dialogue (invalid : list string) : list event :=
  (concat (map (fun _ => [Input prompt; Print invalid_message]) invalid)
   ++ [Input prompt; Print "Operation cancelled by user."])%list.

(** *** A sample environment for the closed examples

    The file [SPY_STK_1Y_1d_OHLCV.csv] exists; the broker answers with one
    contract and two bars, the date of the second being unreadable;
    [to_datetime] reads the formats of [parse_date_string]; the zones
    all keep the UTC time. *)

Definition sample_bar (date : cell) : bar :=
  {| bar_date := date;
     bar_ohlcv := {| open := "470.1"; high := "472.5"; low := "469.8";
                     close := "471.9"; volume := "1200" |};
     average := "471.2"; barCount := "35" |}.

Definition sample_to_datetime (c : cell) : option datetime :=
  match c with
  | cell_str s =>
      match parse_date_string s with
      | inr (Some d) => Some d
      | _ => None
      end
  | cell_timestamp t => Some t
  | cell_object _ => None
  end.

Definition sample_util_df (bars : list bar) : option dataframe :=
  match bars with
  | [] => None
  | _ => Some {| df_date := object (map bar_date bars);
                 df_rows := map bar_ohlcv bars |}
  end.

Definition sample_world : world :=
  {| clock := sample_now;
     files := {[ "SPY_STK_1Y_1d_OHLCV.csv" ]};
     creation_time := fun _ => None;
     abspath := fun p => "/data/" ++ p;
     connect := Ok tt;
     qualifyContracts := fun _ =>
       [ {| localSymbol := "SPY"; exchange := "SMART"; conId := 756733;
            symbol := "SPY" |} ];
     reqHistoricalData :=
       Ok [sample_bar (cell_str "2024-01-02 10:00:00");
           sample_bar (cell_str "garbage")];
     to_csv := fun _ => Ok tt;
     util_df := sample_util_df;
     to_datetime := sample_to_datetime;
     tz_convert := fun _ t => t;
     tzname := fun _ => "UTC" |}.

Definition sample_args (start_date end_date output : option string) : args :=
  {| arg_symbol := "SPY"; arg_timeframe := "1 day"; arg_duration := "1 Y";
     arg_output := output; arg_overwrite := false; arg_timezone := "UTC";
     arg_start_date := start_date; arg_end_date := end_date;
     arg_eth := false |}.

Definition sample_column : list cell :=
  [cell_str "2024-01-02 10:00:00"; cell_str "garbage"].


End Spec.

(** ** Further notions used in the properties *)

Module Notions.

Import PyDatetime Strptime Resolver Pipeline Run.

(** The message of the [ValueError] for a date string in no accepted
    format. *)
Definition format_error (date_str : string) : exn :=
  ValueError ("Invalid date format: " ++ date_str
              ++ ". Use YYYY-MM-DD or YYYY-MM-DD HH:MM:SS").

(** The shape [YYYYMMDD HH:MM:SS] of the end timestamp of the provider. *)
Definition ibkr_shape (ts : string) : bool :=
  match list_ascii_of_string ts with
  | [y1; y2; y3; y4; m1; m2; d1; d2; sp; h1; h2; c1; mi1; mi2; c2; s1; s2] =>
      forallb PyStr.is_digit
        [y1; y2; y3; y4; m1; m2; d1; d2; h1; h2; mi1; mi2; s1; s2]
      && Ascii.eqb sp " " && Ascii.eqb c1 ":" && Ascii.eqb c2 ":"
  | _ => false
  end%char.

(** [n] is written by [pad] as two, or four, decimal digits whose value is
    [n]. *)
Definition two_digits_ok (n : Z) : bool :=
  match pad 2 n with
  | String a (String b EmptyString) =>
      PyStr.is_digit a && PyStr.is_digit b
      && (10 * PyStr.digit_val a + PyStr.digit_val b =? n)
  | _ => false
  end.

Definition four_digits_ok (n : Z) : bool :=
  match pad 4 n with
  | String a (String b (String c (String d EmptyString))) =>
      PyStr.is_digit a && PyStr.is_digit b && PyStr.is_digit c
      && PyStr.is_digit d
      && (1000 * PyStr.digit_val a + 100 * PyStr.digit_val b
          + 10 * PyStr.digit_val c + PyStr.digit_val d =? n)
  | _ => false
  end.

(** The continuation [K] of a field of the regular expression fails on
    an input that starts with a digit (it starts with a literal or with
    white space). *)
Definition fails_on_digit {B : Type} (K : Z -> re B) : Prop :=
  forall x c r, PyStr.is_digit c = true -> K x (String c r) = [].

(** The three warnings of [validate_timeframe_duration]. *)
Definition pacing_warning (timeframe duration : string) : string :=
  "WARNING: Timeframe '" ++ timeframe ++ "' with duration '" ++ duration
  ++ "' may hit IBKR pacing limits".
Definition availability_warning : string :=
  "WARNING: Bars 30 seconds or smaller older than 6 months are not available from IBKR".
Definition volume_warning : string :=
  "WARNING: Small timeframes with yearly durations may result in very large datasets".

(** The characters of [s] are ASCII ones: there the upper case of the
    embedding is the one of Python. *)
Definition is_ascii (s : string) : bool :=
  forallb (fun c => (nat_of_ascii c <? 128)%nat) (list_ascii_of_string s).

(** The letter y, small or capital, occurs in [s]. *)
Definition has_letter_y (s : string) : bool :=
  existsb (fun c => Ascii.eqb c "y" || Ascii.eqb c "Y")%char
    (list_ascii_of_string s).

(** The character [c] occurs in [s]. *)
Fixpoint has_char (c : ascii) (s : string) : bool :=
  match s with
  | EmptyString => false
  | String a r => Ascii.eqb a c || has_char c r
  end.

Definition is_input (e : event) : bool :=
  match e with Input _ => true | _ => false end.

(** An event of the dialogue about an existing file: a line printed or a
    line read. *)
Definition is_dialogue (e : event) : bool := Spec.is_print e || is_input e.

(** The answers Overwrite and Rename at the prompt. *)
Definition is_overwrite (line : string) : bool :=
  PyStr.str_in (Spec.choice_of line) ["O"; "OVERWRITE"].

Definition is_rename (line : string) : bool :=
  PyStr.str_in (Spec.choice_of line) ["R"; "RENAME"].

(** The rejected answers of a dialogue. *)
Definition rejections (invalid : list string) : list event :=
  concat (map (fun _ => [Input Spec.prompt; Print Spec.invalid_message]) invalid).

(** What [handle_file_conflict] may end with, for the path [filename]
    and the existing paths [files]: the path itself, to be written or not;
    another path, to be written, that does not exist; or [EOFError], when
    the keyboard has no more lines. *)
Definition conflict_result (files : gset string) (filename : string)
    (o : outcome (string * bool)) : Prop :=
  match o with
  | Returned (f, proceed) =>
      f = filename \/ (proceed = true /\ f ∉ files)
  | Raised e => e = EOFError
  | Diverged => False
  end.

(** The number of values of a date column. *)
Definition column_size (col : column) : nat :=
  match col with
  | datetime64 values => length values
  | object values | other_dtype values => length values
  end.

(** An interaction with the broker or a write of the output file; and
    those of a trace, in their order. *)
Definition is_external (e : event) : bool := Spec.is_network e || Spec.is_write e.

Definition externals (tr : list event) : list event := List.filter is_external tr.

(** The state after the events [evs], the connection set to [c] if it is
    given. *)
Definition advance (evs : list event) (c : option bool) (st : state) : state :=
  {| trace := (trace st ++ evs)%list; stdin := stdin st;
     connected := match c with Some b => b | None => connected st end |}.

(** [m] goes on as [k] after events whose external ones are [xs], the
    connection set to [c] if it is given. *)
Definition leads_with (xs : list event) (c : option bool) {A : Type}
    (m k : M A) : Prop :=
  exists evs, externals evs = xs /\ forall st, m st = k (advance evs c st).

(** [m] ends with the outcome [o]. *)
Definition done {A : Type} (o : outcome A) : M A := fun st => (o, st).

(** The line of the [finally] clause when there is no connection. *)
Definition no_connection_message : string :=
  nl ++ "No active connection to disconnect or connection was not established.".

(** The request for the bars of the contract [q]. *)
Definition request (a : args) (ets hd : string) (q : contract) : event :=
  ReqHistoricalData q ets hd (arg_timeframe a) Config.WHAT_TO_SHOW
    (negb (arg_eth a)) 2.

Definition connection : event :=
  Connect Config.IB_HOST Config.IB_PORT Config.CLIENT_ID 15.

(** The contract that is qualified: a stock, whatever the symbol. *)
Definition stock (a : args) : contract_spec :=
  Stock (arg_symbol a) Config.STOCK_EXCHANGE Config.STOCK_CURRENCY.

(** The interactions of a run whose dates resolve to [ets] and [hd]: the
    connection; then, if it is made, the qualification of the contract,
    the request for the bars of the first qualified contract, one write
    to the path asked for or to a path that does not exist, each only
    after the one before; and the disconnection at the end. *)
Definition session (w : world) (a : args) (ets hd : string)
    (xs : list event) : Prop :=
  xs = [connection]
  \/ xs = [connection; QualifyContracts (stock a); Disconnect]
  \/ exists q,
       head (qualifyContracts w (stock a)) = Some q
       /\ (xs = [connection; QualifyContracts (stock a); request a ets hd q;
                 Disconnect]
           \/ exists path table,
                (path = Spec.output_path a hd \/ path ∉ files w)
                /\ xs = [connection; QualifyContracts (stock a);
                         request a ets hd q; ToCsv path table; Disconnect]).

(** The interactions of the body of the [try] statement, which ends with
    the connection open ([c]) or not. *)
Definition session_so_far (w : world) (a : args) (ets hd : string)
    (c : bool) (xs : list event) : Prop :=
  (c = false /\ xs = [connection])
  \/ (c = true
      /\ (xs = [connection; QualifyContracts (stock a)]
          \/ exists q,
               head (qualifyContracts w (stock a)) = Some q
               /\ (xs = [connection; QualifyContracts (stock a);
                         request a ets hd q]
                   \/ exists path table,
                        (path = Spec.output_path a hd \/ path ∉ files w)
                        /\ xs = [connection; QualifyContracts (stock a);
                                 request a ets hd q; ToCsv path table]))).

(** What the [except] clauses of [fetch_and_save_historical_data] put
    on the trace for the exception [e]. *)
Definition handler_lines (e : exn) : list event :=
  match e with
  | ConnectionRefusedError =>
      [Print (nl ++ "ERROR: Connection refused. Ensure IB Gateway or TWS is running on "
              ++ Config.IB_HOST ++ ":" ++ PyStr.of_Z Config.IB_PORT
              ++ " and API access is enabled.")]
  | TimeoutError =>
      [Print (nl ++ "ERROR: Connection to IBKR timed out. Check network or if TWS/Gateway is responsive.")]
  | LookupError _ | ValueError _ => [Print (nl ++ "ERROR: " ++ exn_str e)]
  | _ => [Print (nl ++ "An unexpected error occurred: " ++ exn_str e);
          PrintTraceback]
  end.

(** What follows the body of the [try] statement on the trace, for the
    outcome of the body. *)
Definition outcome_lines (o : outcome unit) : list event :=
  match o with
  | Raised e => handler_lines e
  | _ => []
  end.

(** The message of the [LookupError] for a contract that is not
    qualified: it names the symbol and the security type of the
    configuration. *)
Definition not_qualified_message : string :=
  "Contract for SPY (STK) could not be qualified. Please check symbol, security type, exchange, and other parameters.".

(** What is printed between a write that fails and the [except]
    clauses. *)
Definition write_failure_lines (path : string) (e : exn) : list event :=
  match e with
  | PermissionError =>
      map Print
        [nl ++ "ERROR: Permission denied while saving file: " ++ path;
         "Possible causes:";
         "  - File is currently open in Excel or another application";
         "  - Insufficient write permissions in the directory";
         "  - File is marked as read-only";
         nl ++ "Solutions:";
         "  - Close the file in any applications and try again";
         "  - Run the script as administrator";
         "  - Choose a different output directory"]
  | _ => []
  end.

(** The table that is written for a date column of dtype datetime64. *)
Definition written_table (w : world) (a : args) (df : dataframe)
    (values : list datetime) : table :=
  {| date_column_name :=
       Spec.output_date_column w (arg_timezone a) (arg_symbol a) (arg_timeframe a);
     date_values :=
       object (map cell_str
                 (format_timezone_aware_datetime w values
                    (Pipeline.get_target_timezone (arg_timezone a) (arg_symbol a))
                    (Pipeline.is_intraday_timeframe (arg_timeframe a))));
     rows := df_rows df |}.

(** How the write of [path] ends, and what is printed after it. *)
Definition write_outcome (w : world) (path : string) : outcome unit :=
  match to_csv w path with
  | inr _ => Returned tt
  | inl e => Raised e
  end.

Definition write_lines (w : world) (path : string) : list event :=
  match to_csv w path with
  | inr _ => [Print (Spec.success_message path)]
  | inl e => write_failure_lines path e
  end.



(** The sample environment with another answer to the connection, to the
    qualification, to the request, or to the write. *)
Definition with_connect (r : result unit) (w : world) : world :=
  {| clock := clock w; files := files w; creation_time := creation_time w;
     abspath := abspath w; connect := r;
     qualifyContracts := qualifyContracts w;
     reqHistoricalData := reqHistoricalData w; to_csv := to_csv w;
     util_df := util_df w; to_datetime := to_datetime w;
     tz_convert := tz_convert w; tzname := tzname w |}.

Definition with_contracts (l : list contract) (w : world) : world :=
  {| clock := clock w; files := files w; creation_time := creation_time w;
     abspath := abspath w; connect := connect w;
     qualifyContracts := fun _ => l;
     reqHistoricalData := reqHistoricalData w; to_csv := to_csv w;
     util_df := util_df w; to_datetime := to_datetime w;
     tz_convert := tz_convert w; tzname := tzname w |}.

Definition with_bars (r : result (list bar)) (w : world) : world :=
  {| clock := clock w; files := files w; creation_time := creation_time w;
     abspath := abspath w; connect := connect w;
     qualifyContracts := qualifyContracts w;
     reqHistoricalData := r; to_csv := to_csv w;
     util_df := util_df w; to_datetime := to_datetime w;
     tz_convert := tz_convert w; tzname := tzname w |}.

Definition with_to_csv (r : result unit) (w : world) : world :=
  {| clock := clock w; files := files w; creation_time := creation_time w;
     abspath := abspath w; connect := connect w;
     qualifyContracts := qualifyContracts w;
     reqHistoricalData := reqHistoricalData w; to_csv := fun _ => r;
     util_df := util_df w; to_datetime := to_datetime w;
     tz_convert := tz_convert w; tzname := tzname w |}.

(** The data frame of two bars with times of dtype datetime64. *)
Definition sample_times : list datetime :=
  [mk_datetime 2024 1 2 14 30 0 0; mk_datetime 2024 1 3 14 30 0 0].

Definition sample_dataframe : dataframe :=
  {| df_date := datetime64 sample_times;
     df_rows := map bar_ohlcv [Spec.sample_bar (cell_timestamp (mk_datetime 2024 1 2 14 30 0 0));
                               Spec.sample_bar (cell_timestamp (mk_datetime 2024 1 3 14 30 0 0))] |}.

Definition with_dataframe (df : dataframe) (w : world) : world :=
  {| clock := clock w; files := files w; creation_time := creation_time w;
     abspath := abspath w; connect := connect w;
     qualifyContracts := qualifyContracts w;
     reqHistoricalData := reqHistoricalData w; to_csv := to_csv w;
     util_df := fun _ => Some df; to_datetime := to_datetime w;
     tz_convert := tz_convert w; tzname := tzname w |}.

End Notions.

(** * Properties *)

(** ** Facts about strings *)

Module StrFacts.

Lemma app_nil_l (a : string) : "" ++ a = a.
Proof. reflexivity. Qed.

Lemma app_cons (x : ascii) (a b : string) : String x a ++ b = String x (a ++ b).
Proof. reflexivity. Qed.

Ltac string_induction a :=
  induction a as [|? a ?IH]; rewrite ?app_nil_l, ?app_cons; simpl.

Lemma app_assoc (a b c : string) : (a ++ b) ++ c = a ++ (b ++ c).
Proof. string_induction a; [reflexivity | now rewrite IH]. Qed.

Lemma length_app (a b : string) :
  String.length (a ++ b) = (String.length a + String.length b)%nat.
Proof. string_induction a; [reflexivity | now rewrite IH]. Qed.

Lemma app_inv_head (a b c : string) : a ++ b = a ++ c -> b = c.
Proof.
  string_induction a; intros H; [exact H | injection H; auto].
Qed.

Lemma to_list_app (a b : string) :
  list_ascii_of_string (a ++ b)
  = (list_ascii_of_string a ++ list_ascii_of_string b)%list.
Proof. string_induction a; [reflexivity | now rewrite IH]. Qed.

Lemma app_inv_tail (a b c : string) : a ++ c = b ++ c -> a = b.
Proof.
  intros H. apply (f_equal list_ascii_of_string) in H.
  rewrite !to_list_app in H. apply List.app_inv_tail in H.
  rewrite <- (string_of_list_ascii_of_string a),
          <- (string_of_list_ascii_of_string b).
  now rewrite H.
Qed.

Lemma app_nonempty_r (a b : string) : b <> "" -> a ++ b <> "".
Proof.
  intros Hb H. apply (f_equal String.length) in H. rewrite length_app in H.
  destruct b; [congruence | simpl in H; lia].
Qed.

End StrFacts.

(** ** The market time zone *)

Module TimezoneProps.

Import Pipeline.

(** C5. The selector ['market'] resolves to US/Eastern for every symbol:
    the zone of two symbols is the same. *)
Theorem market_timezone_ignores_symbol (s1 s2 : string) :
  get_target_timezone "market" s1 = pytz_timezone "US/Eastern"
  /\ get_target_timezone "market" s1 = get_target_timezone "market" s2.
Proof.
  assert (H : forall s, get_target_timezone "market" s = pytz_timezone "US/Eastern").
  { intros s. unfold get_target_timezone. simpl.
    destruct (_ || _); reflexivity. }
  now rewrite !H.
Qed.

End TimezoneProps.

(** ** Facts about dates *)

Module DateFacts.

Import PyDatetime Strptime Resolver Spec.

(** Boolean tests in hypotheses and goals, as propositions for [lia]. *)
Ltac to_prop :=
  repeat match goal with
  | H : _ && _ = true |- _ => apply andb_prop in H; destruct H
  | H : (_ <=? _) = true |- _ => apply Z.leb_le in H
  | H : (_ <=? _) = false |- _ => apply Z.leb_gt in H
  | H : (_ <? _) = true |- _ => apply Z.ltb_lt in H
  | H : (_ <? _) = false |- _ => apply Z.ltb_ge in H
  | H : (_ =? _) = true |- _ => apply Z.eqb_eq in H
  | H : (_ =? _) = false |- _ => apply Z.eqb_neq in H
  end.

Lemma days_before_next_year (y : Z) :
  days_before_year (y + 1)
  = days_before_year y + 365 + (if is_leap y then 1 else 0).
Proof.
  unfold days_before_year, is_leap.
  replace (y + 1 - 1) with y by lia.
  destruct (y mod 4 =? 0) eqn:H4; destruct (y mod 100 =? 0) eqn:H100;
    destruct (y mod 400 =? 0) eqn:H400; simpl; to_prop;
    Z.div_mod_to_equations; lia.
Qed.

Lemma days_before_next_month (y m : Z) :
  1 <= m <= 11 ->
  days_before_month y (m + 1) = days_before_month y m + days_in_month y m.
Proof.
  intros Hm.
  assert (Hc : m = 1 \/ m = 2 \/ m = 3 \/ m = 4 \/ m = 5 \/ m = 6 \/ m = 7
               \/ m = 8 \/ m = 9 \/ m = 10 \/ m = 11) by lia.
  unfold days_before_month, days_in_month.
  repeat (destruct Hc as [-> | Hc]); try subst m; simpl;
    destruct (is_leap y); reflexivity.
Qed.

(** The day after a valid date that is not 9999-12-31 exists, is valid,
    has the next ordinal and keeps the time of day. *)
Lemma add_one_day_following (d : datetime) :
  valid d = true -> is_last_day d = false ->
  exists n, add_one_day d = Ok n /\ following_day d n
            /\ hour n = hour d /\ minute n = minute d
            /\ second n = second d /\ microsecond n = microsecond d.
Proof.
  intros Hv Hl. destruct d as [y m dd h mi s us].
  unfold valid, valid_date, valid_time, is_last_day, MINYEAR, MAXYEAR in *.
  simpl in *. to_prop.
  unfold add_one_day, following_day, toordinal, valid_date, MINYEAR, MAXYEAR.
  simpl.
  destruct (dd + 1 <=? days_in_month y m) eqn:Hd; to_prop.
  - (* the same month *)
    assert (Hy : (1 <=? y) && (y <=? 9999) = true)
      by (apply andb_true_intro; split; apply Z.leb_le; lia).
    rewrite Hy. eexists; split; [reflexivity |]. simpl.
    repeat split; lia.
  - assert (dd = days_in_month y m) by lia. subst dd.
    destruct (m + 1 <=? 12) eqn:Hm; to_prop.
    + (* the next month *)
      assert (Hy : (1 <=? y) && (y <=? 9999) = true)
        by (apply andb_true_intro; split; apply Z.leb_le; lia).
      rewrite Hy. eexists; split; [reflexivity |]. simpl.
      assert (Hdim : 28 <= days_in_month y (m + 1)).
      { assert (Hc : m = 1 \/ m = 2 \/ m = 3 \/ m = 4 \/ m = 5 \/ m = 6
                     \/ m = 7 \/ m = 8 \/ m = 9 \/ m = 10 \/ m = 11) by lia.
        repeat (destruct Hc as [-> | Hc]); try subst m; simpl;
          destruct (is_leap y); lia. }
      rewrite days_before_next_month by lia.
      repeat split; lia.
    + (* the next year *)
      assert (m = 12) by lia. subst m.
      assert (Hdim : days_in_month y 12 = 31) by reflexivity.
      assert (y <> 9999).
      { intros ->. simpl in Hl. discriminate. }
      assert (Hy : (1 <=? y + 1) && (y + 1 <=? 9999) = true)
        by (apply andb_true_intro; split; apply Z.leb_le; lia).
      rewrite Hy. eexists; split; [reflexivity |]. simpl.
      rewrite days_before_next_year. unfold days_before_month. simpl.
      destruct (is_leap y), (is_leap (y + 1)); repeat split; lia.
Qed.

(** Past the last day the addition overflows. *)
Lemma add_one_day_overflow (d : datetime) :
  valid d = true -> is_last_day d = true ->
  add_one_day d = Raise (OverflowError "date value out of range").
Proof.
  intros Hv Hl. destruct d as [y m dd h mi s us].
  unfold is_last_day, MAXYEAR in Hl. simpl in Hl. to_prop. subst.
  reflexivity.
Qed.

Lemma strptime_valid (s : string) (f : format) (d : datetime) :
  strptime s f = Some d -> valid d = true /\ microsecond d = 0.
Proof.
  unfold strptime.
  destruct (regex f s) as [|[[[[[[y m] dd] h] mi] sec] rest] l]; [discriminate |].
  destruct rest; [| discriminate]. unfold new.
  destruct (valid_date y m dd && valid_time h mi sec 0) eqn:E; [| discriminate].
  intros [= <-]. unfold valid. simpl. auto.
Qed.

Lemma parse_date_string_valid (s : string) (d : datetime) :
  parse_date_string s = Ok (Some d) -> valid d = true /\ microsecond d = 0.
Proof.
  unfold parse_date_string. destruct (String.eqb s ""); [discriminate |].
  unfold formats, try_formats.
  destruct (strptime s Fmt_Ymd_HMS) eqn:E1;
    [| destruct (strptime s Fmt_Ymd_HM) eqn:E2;
       [| destruct (strptime s Fmt_Ymd) eqn:E3; [| discriminate]]];
    simpl; intros [= <-]; eauto using strptime_valid.
Qed.

Lemma parse_if_given_Some (s : string) :
  parse_if_given (Some s) = parse_date_string s.
Proof.
  unfold parse_if_given, parse_date_string.
  destruct (String.eqb s ""); reflexivity.
Qed.

(** What [parse_if_given] returns is valid. *)
Lemma parse_if_given_valid (o : option string) (d : datetime) :
  parse_if_given o = Ok (Some d) -> valid d = true /\ microsecond d = 0.
Proof.
  destruct o as [s|]; [| discriminate].
  rewrite parse_if_given_Some. apply parse_date_string_valid.
Qed.

(** The subtraction of the library counts the days of [counted_days]. *)
Lemma sub_days (s e : datetime) :
  valid s = true -> valid e = true ->
  td_days (sub e s) + 1 = counted_days s e.
Proof.
  intros Hs He. destruct s as [y m d h mi sec us], e as [y' m' d' h' mi' sec' us'].
  unfold valid, valid_time in *. simpl in *.
  apply andb_prop in Hs as [_ Hs]. apply andb_prop in He as [_ He].
  unfold counted_days, inclusive_calendar_days, time_of_day, sub, timedelta_new,
    seconds_of_day. simpl.
  set (o := toordinal _). set (o' := toordinal _).
  destruct (_ <? _) eqn:E; Z.div_mod_to_equations; lia.
Qed.

(** The three branches on [duration_days] are the rule of the
    specification. *)
Lemma duration_branches (n : Z) :
  (if n =? 1 then "1 D"
   else if n <=? 365 then PyStr.of_Z n ++ " D"
   else PyStr.of_Z (n / 365) ++ " Y") = duration_string n.
Proof.
  unfold duration_string. destruct (n =? 1) eqn:E; [| reflexivity].
  apply Z.eqb_eq in E. subst n. reflexivity.
Qed.

Lemma strftime_ibkr_nonempty (d : datetime) : strftime_ibkr d <> "".
Proof.
  unfold strftime_ibkr. do 3 apply StrFacts.app_nonempty_r.
  rewrite StrFacts.app_cons. discriminate.
Qed.

(** [format_ibkr_datetime] for a date with a time of day, and without. *)
Lemma format_with_time (ext : bool) (d : datetime) :
  format_ibkr_datetime ext d true = Ok (strftime_ibkr d).
Proof. reflexivity. Qed.

Lemma format_without_time (ext : bool) (d : datetime) :
  valid d = true -> (ext = true -> is_last_day d = false) ->
  exists ts, format_ibkr_datetime ext d false = Ok ts /\ session_close ext d ts.
Proof.
  intros Hv Hl. unfold format_ibkr_datetime, session_close.
  destruct ext.
  - destruct (add_one_day_following d Hv (Hl eq_refl))
      as (n & Hn & Hf & _). rewrite Hn. simpl.
    eexists; split; [reflexivity |]. exists n. split; [exact Hf | reflexivity].
  - eexists; split; reflexivity.
Qed.

Lemma format_overflow (d : datetime) :
  valid d = true -> is_last_day d = true ->
  format_ibkr_datetime true d false
  = Raise (OverflowError "date value out of range").
Proof.
  intros Hv Hl. unfold format_ibkr_datetime.
  now rewrite (add_one_day_overflow d Hv Hl).
Qed.

End DateFacts.


(** ** The request-window resolver *)

Module ResolverProps.

Import PyDatetime Strptime Resolver Spec DateFacts.

(** The resolver after both arguments have been parsed and found in
    order. *)
Lemma process_parsed (start_date_str end_date_str : option string)
    (dur : string) (ext : bool) (now : datetime) (sd ed : option datetime) :
  parse_if_given start_date_str = Ok sd ->
  parse_if_given end_date_str = Ok ed ->
  in_order sd ed ->
  process_date_arguments start_date_str end_date_str dur ext now =
  match sd, ed with
  | Some start_date, Some end_date =>
      let duration_str := duration_string (td_days (sub end_date start_date) + 1) in
      let* ts := format_ibkr_datetime ext end_date (time_is_not_midnight end_date) in
      Ok (ts, duration_str,
          date_range (arg_text start_date_str) (arg_text end_date_str) duration_str)
  | Some start_date, None =>
      let* ts :=
        (if negb (time_is_not_midnight start_date) && negb ext
         then format_ibkr_datetime ext (replace_hms start_date 16 0 0) true
         else format_ibkr_datetime ext start_date (time_is_not_midnight start_date)) in
      Ok (ts, "1 D", single_day (arg_text start_date_str) "1 D")
  | None, Some end_date =>
      let* ts := format_ibkr_datetime ext end_date (time_is_not_midnight end_date) in
      Ok (ts, dur, duration_with_end (arg_text end_date_str) dur)
  | None, None =>
      let* ts := format_ibkr_datetime ext now false in
      Ok (ts, dur, duration_only dur)
  end.
Proof.
  intros Hs He Ho. unfold process_date_arguments. rewrite Hs, He.
  unfold rbind, Ok, Raise. cbv beta iota zeta.
  destruct sd as [sd|], ed as [ed|]; simpl in Ho; try rewrite Ho;
    cbv beta iota zeta.
  - rewrite duration_branches. reflexivity.
  - destruct (negb (time_is_not_midnight sd) && negb ext); reflexivity.
  - reflexivity.
  - destruct ext; reflexivity.
Qed.

(** C1 (as amended). For two date strings that parse, the start not after
    the end, the resolver returns the duration ["<N> D"] when [N <= 365]
    and ["<floor(N/365)> Y"] otherwise, where [N] is the number of
    inclusive calendar days, less one when the time of day of the end is
    earlier than that of the start. The one exception is the extended
    session with the end at midnight of 9999-12-31, written with or
    without the time: the following day does not exist, and the resolver
    raises [OverflowError]. The dates 2024-01-15 and 2024-01-31 with the
    regular session give ["17 D"] and ["20240131 16:00:00"]. *)
Theorem date_range_duration (s e dur : string) (ext : bool)
    (now ds de : datetime) :
  parse_date_string s = Ok (Some ds) ->
  parse_date_string e = Ok (Some de) ->
  le ds de = true ->
  (if ext && negb (time_is_not_midnight de) && is_last_day de
   then process_date_arguments (Some s) (Some e) dur ext now
        = Raise (OverflowError "date value out of range")
   else exists ts,
     process_date_arguments (Some s) (Some e) dur ext now
     = Ok (ts, duration_string (counted_days ds de),
           date_range s e (duration_string (counted_days ds de))))
  /\ (time_of_day ds <= time_of_day de ->
      counted_days ds de = inclusive_calendar_days ds de)
  /\ process_date_arguments (Some "2024-01-15") (Some "2024-01-31") "1 Y"
       false now
     = Ok ("20240131 16:00:00", "17 D",
           date_range "2024-01-15" "2024-01-31" "17 D").
Proof.
  intros Hs He Hle. split; [| split].
  - destruct (parse_date_string_valid _ _ Hs) as [Hvs _].
    destruct (parse_date_string_valid _ _ He) as [Hve _].
    rewrite (process_parsed (Some s) (Some e) dur ext now (Some ds) (Some de));
      try (rewrite parse_if_given_Some; assumption).
    2:{ simpl. unfold le in Hle. now apply negb_true_iff in Hle. }
    cbv zeta. rewrite (sub_days ds de Hvs Hve). simpl arg_text.
    destruct (time_is_not_midnight de) eqn:Ht.
    + rewrite andb_false_r. simpl andb. cbv iota.
      rewrite format_with_time. eexists. reflexivity.
    + simpl negb. rewrite andb_true_r.
      destruct (ext && is_last_day de) eqn:Hover.
      * apply andb_prop in Hover as [-> Hl].
        now rewrite (format_overflow de Hve Hl).
      * destruct (format_without_time ext de Hve) as (ts & Hts & _).
        { intros ->. exact Hover. }
        rewrite Hts. eexists. reflexivity.
  - intros Ht. unfold counted_days.
    destruct (time_of_day de <? time_of_day ds) eqn:E; [| lia].
    apply Z.ltb_lt in E. lia.
  - reflexivity.
Qed.

(** The theorem at 2024-01-15 and 2024-01-31, regular session. *)
Lemma date_range_duration_witness :
  exists ts,
    process_date_arguments (Some "2024-01-15") (Some "2024-01-31") "1 Y"
      false sample_now
    = Ok (ts, "17 D", date_range "2024-01-15" "2024-01-31" "17 D").
Proof.
  exact (proj1 (date_range_duration "2024-01-15" "2024-01-31" "1 Y" false
    sample_now (mk_datetime 2024 1 15 0 0 0 0) (mk_datetime 2024 1 31 0 0 0 0)
    eq_refl eq_refl eq_refl)).
Defined.

(** C1 as stated fails when the end has an earlier time of day than the
    start: from 2024-01-15 12:00 to 2024-01-16 09:00 the inclusive calendar
    days are 2, and the resolver returns ["1 D"]. *)
Lemma date_range_duration_counterexample :
  exists ds de ts info,
    parse_date_string "2024-01-15 12:00" = Ok (Some ds)
    /\ parse_date_string "2024-01-16 09:00" = Ok (Some de)
    /\ le ds de = true
    /\ inclusive_calendar_days ds de = 2
    /\ duration_string (inclusive_calendar_days ds de) = "2 D"
    /\ process_date_arguments (Some "2024-01-15 12:00")
         (Some "2024-01-16 09:00") "1 Y" false sample_now
       = Ok (ts, "1 D", info).
Proof.
  do 4 eexists. repeat split; reflexivity.
Qed.

(** The exception of C1 with the midnight written out. *)
Example explicit_midnight_overflows :
  process_date_arguments (Some "9999-12-30") (Some "9999-12-31 00:00:00")
    "1 Y" true sample_now
  = Raise (OverflowError "date value out of range").
Proof. reflexivity. Qed.

Lemma format_nonempty (ext : bool) (d : datetime) (b : bool) (ts : string) :
  format_ibkr_datetime ext d b = Ok ts -> ts <> "".
Proof.
  unfold format_ibkr_datetime. destruct b; [| destruct ext].
  - intros [= <-]. apply strftime_ibkr_nonempty.
  - destruct (add_one_day d); simpl; [discriminate |].
    intros [= <-]. apply strftime_ibkr_nonempty.
  - intros [= <-]. apply strftime_ibkr_nonempty.
Qed.

(** The end timestamp in each of the four cases, from the anchor. *)
Lemma anchor_end_timestamp (start_date_str end_date_str : option string)
    (dur : string) (ext : bool) (now : datetime) (sd ed : option datetime)
    (a : datetime) (from_input : bool) :
  parse_if_given start_date_str = Ok sd ->
  parse_if_given end_date_str = Ok ed ->
  in_order sd ed ->
  valid now = true ->
  anchor now sd ed = (a, from_input) ->
  (ext = true -> from_input && time_is_not_midnight a = false ->
   is_last_day a = false) ->
  valid a = true
  /\ exists ts dur' info,
      process_date_arguments start_date_str end_date_str dur ext now
      = Ok (ts, dur', info)
      /\ format_ibkr_datetime ext a (from_input && time_is_not_midnight a)
         = Ok ts.
Proof.
  intros Hs He Ho Hnow Ha Hlast.
  assert (Hva : valid a = true).
  { destruct sd as [sd|], ed as [ed|]; simpl in Ha; injection Ha as -> <-;
      first [ exact Hnow
            | exact (proj1 (parse_if_given_valid _ _ He))
            | exact (proj1 (parse_if_given_valid _ _ Hs)) ]. }
  split; [exact Hva |].
  rewrite (process_parsed _ _ dur ext now sd ed Hs He Ho).
  destruct sd as [sd|], ed as [ed|]; simpl in Ha; injection Ha as -> <-;
    rewrite ?andb_true_l, ?andb_false_l in *.
  - destruct (time_is_not_midnight a) eqn:Ht.
    + rewrite format_with_time. simpl. eauto.
    + destruct (format_without_time ext a Hva) as (ts & Hts & _); [auto |].
      rewrite Hts. simpl. eauto.
  - destruct (time_is_not_midnight a) eqn:Ht; simpl negb; simpl andb.
    + rewrite format_with_time. simpl. eauto.
    + destruct ext; simpl negb; simpl andb.
      * destruct (format_without_time true a Hva) as (ts & Hts & _); [auto |].
        rewrite Hts. simpl. eauto.
      * simpl. eauto.
  - destruct (time_is_not_midnight a) eqn:Ht.
    + rewrite format_with_time. simpl. eauto.
    + destruct (format_without_time ext a Hva) as (ts & Hts & _); [auto |].
      rewrite Hts. simpl. eauto.
  - destruct (format_without_time ext a Hva) as (ts & Hts & _); [auto |].
    rewrite Hts. simpl. eauto.
Qed.

(** C2 (as amended). In every resolution case, the anchor being the end
    date, else the start date, else the current moment: when the anchor
    comes from the command line and its time of day is not midnight, the
    end timestamp is that date and time verbatim; otherwise (no time given,
    midnight given explicitly, or the anchor is the current moment) it is
    16:00:00 on the same calendar day for the regular session and 02:00:00
    on the following calendar day for the extended one, the following day
    existing. *)
Theorem end_timestamp_rule (start_date_str end_date_str : option string)
    (dur : string) (ext : bool) (now : datetime) (sd ed : option datetime)
    (a : datetime) (from_input : bool) :
  parse_if_given start_date_str = Ok sd ->
  parse_if_given end_date_str = Ok ed ->
  in_order sd ed ->
  valid now = true ->
  anchor now sd ed = (a, from_input) ->
  (ext = true -> from_input && time_is_not_midnight a = false ->
   is_last_day a = false) ->
  exists ts dur' info,
    process_date_arguments start_date_str end_date_str dur ext now
    = Ok (ts, dur', info)
    /\ if from_input && time_is_not_midnight a
       then ts = strftime_ibkr a
       else session_close ext a ts.
Proof.
  intros Hs He Ho Hnow Ha Hlast.
  destruct (anchor_end_timestamp _ _ dur ext now sd ed a from_input
              Hs He Ho Hnow Ha Hlast) as (Hva & ts & dur' & info & Hp & Hf).
  exists ts, dur', info. split; [exact Hp |].
  destruct (from_input && time_is_not_midnight a) eqn:E.
  - rewrite format_with_time in Hf. now injection Hf.
  - destruct (format_without_time ext a Hva) as (ts' & Hts & Hc); [auto |].
    rewrite Hts in Hf. injection Hf as <-. exact Hc.
Qed.

(** The theorem for a single day, extended session: the day after
    2024-01-15 at 02:00:00. *)
Lemma end_timestamp_rule_witness :
  exists ts dur' info,
    process_date_arguments (Some "2024-01-15") None "1 Y" true sample_now
    = Ok (ts, dur', info)
    /\ session_close true (mk_datetime 2024 1 15 0 0 0 0) ts.
Proof.
  exact (end_timestamp_rule (Some "2024-01-15") None "1 Y" true sample_now
    (Some (mk_datetime 2024 1 15 0 0 0 0)) None
    (mk_datetime 2024 1 15 0 0 0 0) true
    eq_refl eq_refl I eq_refl eq_refl (fun _ _ => eq_refl)).
Defined.

(** C2 as stated fails for a time given explicitly as midnight: the end
    date "2024-01-31 00:00:00" carries a time, and the end timestamp of the
    regular session is 16:00:00, not 00:00:00. *)
Lemma end_timestamp_rule_counterexample :
  exists d ts dur' info,
    strptime "2024-01-31 00:00:00" Fmt_Ymd_HMS = Some d
    /\ strftime_ibkr d = "20240131 00:00:00"
    /\ process_date_arguments None (Some "2024-01-31 00:00:00") "1 Y" false
         sample_now = Ok (ts, dur', info)
    /\ ts = "20240131 16:00:00"
    /\ ts <> strftime_ibkr d.
Proof.
  do 4 eexists. repeat split; try reflexivity. discriminate.
Qed.

(** The resolver raises [OverflowError] when the session is extended and
    the anchor, taken without a time of day, is the last day of the
    calendar. *)
Lemma anchor_overflow (start_date_str end_date_str : option string)
    (dur : string) (now : datetime) (sd ed : option datetime)
    (a : datetime) (from_input : bool) :
  parse_if_given start_date_str = Ok sd ->
  parse_if_given end_date_str = Ok ed ->
  in_order sd ed ->
  valid now = true ->
  anchor now sd ed = (a, from_input) ->
  from_input && time_is_not_midnight a = false ->
  is_last_day a = true ->
  process_date_arguments start_date_str end_date_str dur true now
  = Raise (OverflowError "date value out of range").
Proof.
  intros Hs He Ho Hnow Ha Ht Hl.
  assert (Hva : valid a = true).
  { destruct sd as [sd|], ed as [ed|]; simpl in Ha; injection Ha as -> <-;
      first [ exact Hnow
            | exact (proj1 (parse_if_given_valid _ _ He))
            | exact (proj1 (parse_if_given_valid _ _ Hs)) ]. }
  rewrite (process_parsed _ _ dur true now sd ed Hs He Ho).
  destruct sd as [sd|], ed as [ed|]; simpl in Ha; injection Ha as -> <-;
    rewrite ?andb_true_l in Ht; try rewrite Ht; simpl negb; simpl andb;
    cbv beta iota zeta; now rewrite (format_overflow a Hva Hl).
Qed.

(** C4 (as amended). The end timestamp that the resolver returns is never
    empty, whatever the arguments. When the dates given parse and are in
    order, the resolver returns, with one exception: the extended session
    when the date that anchors the end timestamp without a time of day (a
    date given at midnight, or the current day when no date is given) is
    9999-12-31; the following day does not exist, and the resolver raises
    [OverflowError]. With neither date given the end timestamp is the
    session close derived from the current moment: at 2026-11-03 14:25:07
    it is ["20261103 16:00:00"] for the regular session and
    ["20261104 02:00:00"] for the extended one. *)
Theorem end_timestamp_never_empty (start_date_str end_date_str : option string)
    (dur : string) (ext : bool) (now : datetime) :
  (forall ts d info,
     process_date_arguments start_date_str end_date_str dur ext now
     = Ok (ts, d, info) -> ts <> "")
  /\ (valid now = true ->
      if ext && is_last_day now
      then process_date_arguments None None dur ext now
           = Raise (OverflowError "date value out of range")
      else exists ts,
        process_date_arguments None None dur ext now
        = Ok (ts, dur, duration_only dur)
        /\ ts <> "" /\ session_close ext now ts)
  /\ (forall sd ed a from_input,
        parse_if_given start_date_str = Ok sd ->
        parse_if_given end_date_str = Ok ed ->
        in_order sd ed -> valid now = true ->
        anchor now sd ed = (a, from_input) ->
        if ext && negb (from_input && time_is_not_midnight a) && is_last_day a
        then process_date_arguments start_date_str end_date_str dur ext now
             = Raise (OverflowError "date value out of range")
        else exists ts d info,
          process_date_arguments start_date_str end_date_str dur ext now
          = Ok (ts, d, info) /\ ts <> "")
  /\ process_date_arguments None None dur false sample_now
     = Ok ("20261103 16:00:00", dur, duration_only dur)
  /\ process_date_arguments None None dur true sample_now
     = Ok ("20261104 02:00:00", dur, duration_only dur).
Proof.
  split; [| split; [| split; [| split]]].
  - intros ts d info H.
    destruct (parse_if_given start_date_str) as [e1|sd] eqn:Hs.
    { unfold process_date_arguments in H. rewrite Hs in H. discriminate. }
    destruct (parse_if_given end_date_str) as [e2|ed] eqn:He.
    { unfold process_date_arguments in H. rewrite Hs, He in H. discriminate. }
    assert (Ho : in_order sd ed).
    { destruct sd as [sd|], ed as [ed|]; simpl; auto.
      destruct (gt sd ed) eqn:Hgt; [| reflexivity].
      unfold process_date_arguments in H. rewrite Hs, He in H. simpl in H.
      rewrite Hgt in H. discriminate. }
    rewrite (process_parsed _ _ dur ext now sd ed Hs He Ho) in H.
    destruct sd as [sd|], ed as [ed|]; cbv zeta in H;
      match type of H with
      | rbind ?f _ = _ => destruct f as [x|ts'] eqn:Hf; [discriminate |]
      end;
      simpl in H; injection H as <- _ _.
    + eapply format_nonempty; eassumption.
    + destruct (negb (time_is_not_midnight sd) && negb ext);
        eapply format_nonempty; eassumption.
    + eapply format_nonempty; eassumption.
    + eapply format_nonempty; eassumption.
  - intros Hnow. destruct (ext && is_last_day now) eqn:Hover.
    + apply andb_prop in Hover as [-> Hl].
      exact (anchor_overflow None None dur now None None now false
               eq_refl eq_refl I Hnow eq_refl eq_refl Hl).
    + rewrite (process_parsed None None dur ext now None None eq_refl eq_refl I).
      destruct (format_without_time ext now Hnow) as (ts & Hts & Hc).
      { intros ->. exact Hover. }
      rewrite Hts. exists ts. repeat split; eauto using format_nonempty.
  - intros sd ed a from_input Hs He Ho Hnow Ha.
    destruct (from_input && time_is_not_midnight a) eqn:Ht; simpl negb;
      rewrite ?andb_false_r, ?andb_true_r; simpl andb; cbv iota.
    + destruct (anchor_end_timestamp _ _ dur ext now sd ed a from_input
                  Hs He Ho Hnow Ha) as (_ & ts & d & info & Hp & Hf).
      { intros _ H. rewrite Ht in H. discriminate. }
      exists ts, d, info. split; [exact Hp |]. eauto using format_nonempty.
    + destruct (ext && is_last_day a) eqn:Hover.
      * apply andb_prop in Hover as [-> Hl].
        exact (anchor_overflow _ _ dur now sd ed a from_input
                 Hs He Ho Hnow Ha Ht Hl).
      * destruct (anchor_end_timestamp _ _ dur ext now sd ed a from_input
                    Hs He Ho Hnow Ha) as (_ & ts & d & info & Hp & Hf).
        { intros -> _. exact Hover. }
        exists ts, d, info. split; [exact Hp |]. eauto using format_nonempty.
  - reflexivity.
  - reflexivity.
Qed.

(** The theorem with neither date given, extended session, at the sample
    instant: the timestamp is 02:00:00 on the following day. *)
Lemma end_timestamp_never_empty_witness :
  (exists ts,
     process_date_arguments None None "6 M" true sample_now
     = Ok (ts, "6 M", duration_only "6 M")
     /\ ts <> "" /\ session_close true sample_now ts)
  /\ process_date_arguments None None "6 M" true sample_now
     = Ok ("20261104 02:00:00", "6 M", duration_only "6 M").
Proof.
  split.
  - exact (proj1 (proj2 (end_timestamp_never_empty None None "6 M" true
      sample_now)) eq_refl).
  - exact (proj2 (proj2 (proj2 (proj2 (end_timestamp_never_empty None None
      "6 M" true sample_now))))).
Defined.

(** C4 as stated fails: the end date 9999-12-31 parses, there is no start
    date to be after it, and with the extended session the resolver
    returns no end timestamp at all: it raises [OverflowError], which is
    not a [ValueError], so that the run ends with the exit status 1. *)
Lemma end_timestamp_never_empty_counterexample :
  parse_date_string "9999-12-31" = Ok (Some (mk_datetime 9999 12 31 0 0 0 0))
  /\ process_date_arguments None (Some "9999-12-31") "1 Y" true sample_now
     = Raise (OverflowError "date value out of range")
  /\ (forall ts d info,
        process_date_arguments None (Some "9999-12-31") "1 Y" true sample_now
        <> Ok (ts, d, info))
  /\ exists trace,
       Run.main sample_world
         {| Run.arg_symbol := "SPY"; Run.arg_timeframe := "1 day";
            Run.arg_duration := "1 Y"; Run.arg_output := None;
            Run.arg_overwrite := false; Run.arg_timezone := "UTC";
            Run.arg_start_date := None;
            Run.arg_end_date := Some "9999-12-31"; Run.arg_eth := true |}
         (Run.initial [])
       = (Run.Returned 1,
          {| Run.trace := trace; Run.stdin := []; Run.connected := false |}).
Proof.
  split; [reflexivity |]. split; [reflexivity |]. split.
  - intros ts d info H. discriminate H.
  - eexists. vm_compute. reflexivity.
Qed.

(** Two datetimes with the same date, both at midnight, are the same. *)
Lemma midnight_unique (d d0 : datetime) :
  year d0 = year d -> month d0 = month d -> day d0 = day d ->
  hour d = 0 -> minute d = 0 -> second d = 0 -> microsecond d = 0 ->
  time_is_not_midnight d0 = false -> d0 = d.
Proof.
  destruct d, d0. simpl. intros -> -> -> -> -> -> -> H.
  unfold time_is_not_midnight in H. simpl in H.
  apply negb_false_iff in H. to_prop. now subst.
Qed.

(** The resolver sees a date string only through the datetime it parses
    to. *)
Lemma resolved_by_parsed_value (s s0 : string) (d : datetime)
    (other : option string) (dur : string) (ext : bool) (now : datetime) :
  parse_date_string s = Ok (Some d) ->
  parse_date_string s0 = Ok (Some d) ->
  resolved (process_date_arguments other (Some s) dur ext now)
  = resolved (process_date_arguments other (Some s0) dur ext now)
  /\ resolved (process_date_arguments (Some s) other dur ext now)
     = resolved (process_date_arguments (Some s0) other dur ext now).
Proof.
  intros Hs Hs0. unfold process_date_arguments.
  rewrite !parse_if_given_Some, Hs, Hs0.
  destruct (parse_if_given other) as [e|[x|]]; unfold rbind, Ok, Raise;
    cbv beta iota zeta; split; try reflexivity;
    repeat match goal with
    | |- context [if ?b then _ else _] => destruct b
    | |- context [match format_ibkr_datetime ?e ?x ?b with _ => _ end] =>
        destruct (format_ibkr_datetime e x b)
    end; reflexivity.
Qed.

(** C10. A date string whose time of day is midnight, as
    ["2024-01-31 00:00"] and ["2024-01-31 00:00:00"], is resolved exactly
    as the same date given without a time, as the end date and as the start
    date; as the anchor it gets the session close (16:00:00 on that day for
    the regular session, 02:00:00 on the following day for the extended
    one), not its own midnight. *)
Theorem midnight_is_no_time (s s0 : string) (d d0 : datetime)
    (other : option string) (dur : string) (ext : bool) (now : datetime) :
  parse_date_string s = Ok (Some d) ->
  hour d = 0 -> minute d = 0 -> second d = 0 ->
  parse_date_string s0 = Ok (Some d0) ->
  year d0 = year d -> month d0 = month d -> day d0 = day d ->
  time_is_not_midnight d0 = false ->
  resolved (process_date_arguments other (Some s) dur ext now)
  = resolved (process_date_arguments other (Some s0) dur ext now)
  /\ resolved (process_date_arguments (Some s) other dur ext now)
     = resolved (process_date_arguments (Some s0) other dur ext now)
  /\ ((ext = true -> is_last_day d = false) ->
      exists ts,
        session_close ext d ts
        /\ resolved (process_date_arguments None (Some s) dur ext now)
           = Ok (ts, dur)
        /\ resolved (process_date_arguments (Some s) None dur ext now)
           = Ok (ts, "1 D"))
  /\ map (fun x => resolved (process_date_arguments None (Some x) dur false now))
         ["2024-01-31 00:00"; "2024-01-31 00:00:00"; "2024-01-31"]
     = repeat (Ok ("20240131 16:00:00", dur)) 3
  /\ map (fun x => resolved (process_date_arguments None (Some x) dur true now))
         ["2024-01-31 00:00"; "2024-01-31 00:00:00"; "2024-01-31"]
     = repeat (Ok ("20240201 02:00:00", dur)) 3.
Proof.
  intros Hs Hh Hm Hsec Hs0 Hy Hmo Hd Ht0.
  destruct (parse_date_string_valid _ _ Hs) as [Hv Hus].
  assert (d0 = d) by (apply midnight_unique; assumption). subst d0.
  destruct (resolved_by_parsed_value s s0 d other dur ext now Hs Hs0)
    as [H1 H2].
  split; [exact H1 |]. split; [exact H2 |].
  split; [| split; reflexivity].
  intros Hlast.
  assert (Ht : time_is_not_midnight d = false) by exact Ht0.
  destruct (format_without_time ext d Hv Hlast) as (ts & Hts & Hc).
  exists ts. split; [exact Hc |]. split.
  - rewrite (process_parsed None (Some s) dur ext now None (Some d) eq_refl);
      [| now rewrite parse_if_given_Some | exact I].
    rewrite Ht, Hts. reflexivity.
  - rewrite (process_parsed (Some s) None dur ext now (Some d) None);
      [| now rewrite parse_if_given_Some | reflexivity | exact I].
    rewrite Ht. simpl negb. rewrite andb_true_l.
    destruct ext; simpl negb; cbv iota.
    + rewrite Hts. reflexivity.
    + rewrite format_with_time.
      unfold format_ibkr_datetime in Hts. injection Hts as <-. reflexivity.
Qed.

(** The theorem at "2024-01-31 00:00" and "2024-01-31", regular session. *)
Lemma midnight_is_no_time_witness :
  resolved (process_date_arguments None (Some "2024-01-31 00:00") "30 D"
              false sample_now)
  = resolved (process_date_arguments None (Some "2024-01-31") "30 D"
                false sample_now).
Proof.
  exact (proj1 (midnight_is_no_time "2024-01-31 00:00" "2024-01-31"
    (mk_datetime 2024 1 31 0 0 0 0) (mk_datetime 2024 1 31 0 0 0 0)
    None "30 D" false sample_now
    eq_refl eq_refl eq_refl eq_refl eq_refl eq_refl eq_refl eq_refl eq_refl)).
Defined.

(** Without a time of day and with the extended session, the last day of
    the calendar has no following day: the resolver raises
    [OverflowError]. *)
Lemma process_overflow (start_date_str : option string) (e dur : string)
    (now d : datetime) (sd : option datetime) :
  parse_if_given start_date_str = Ok sd ->
  parse_date_string e = Ok (Some d) ->
  in_order sd (Some d) ->
  time_is_not_midnight d = false -> is_last_day d = true ->
  process_date_arguments start_date_str (Some e) dur true now
  = Raise (OverflowError "date value out of range").
Proof.
  intros Hs He Ho Ht Hl.
  destruct (parse_date_string_valid _ _ He) as [Hv _].
  rewrite (process_parsed start_date_str (Some e) dur true now sd (Some d) Hs);
    [| now rewrite parse_if_given_Some | exact Ho].
  destruct sd; rewrite Ht, (format_overflow d Hv Hl); reflexivity.
Qed.

Example process_overflow_last_day :
  process_date_arguments None (Some "9999-12-31") "1 Y" true sample_now
  = Raise (OverflowError "date value out of range").
Proof. reflexivity. Qed.

(** Two dates that parse, the start after the end: [ValueError]. *)
Lemma process_invalid_range (s e dur : string) (ext : bool)
    (now ds de : datetime) :
  parse_date_string s = Ok (Some ds) ->
  parse_date_string e = Ok (Some de) ->
  gt ds de = true ->
  process_date_arguments (Some s) (Some e) dur ext now
  = Raise (ValueError "Start date cannot be after end date").
Proof.
  intros Hs He Hgt. unfold process_date_arguments.
  rewrite !parse_if_given_Some, Hs, He. simpl. now rewrite Hgt.
Qed.

End ResolverProps.



(** ** The file name generator *)

Module FilenameProps.

Import Pipeline Spec StrFacts.

(** The file name, piece by piece. *)
Lemma generate_filename_pieces (sym sec dur tf : string) (fm : option string)
    (ext : bool) :
  generate_filename sym sec dur tf fm ext
  = PyStr.upper sym ++ "_" ++ sec ++ "_" ++ month_token (effective_month sec fm)
    ++ duration_clean dur ++ "_" ++ timeframe_clean tf ++ "_"
    ++ (if ext then "ETH_" else "") ++ "OHLCV" ++ ".csv".
Proof.
  unfold generate_filename, filename_parts, effective_month.
  destruct (String.eqb sec "FUT" && truthy fm) eqn:E.
  - destruct fm as [m|]; [| now rewrite andb_false_r in E].
    destruct ext; simpl; now rewrite !app_assoc.
  - destruct ext; simpl; now rewrite !app_assoc.
Qed.

Lemma effective_month_nonempty (sec : string) (fm : option string) :
  effective_month sec fm <> Some "".
Proof.
  unfold effective_month.
  destruct (String.eqb sec "FUT" && truthy fm) eqn:E; [| discriminate].
  apply andb_prop in E as [_ E]. intros ->. discriminate.
Qed.

Lemma month_token_inj (o o' : option string) :
  o <> Some "" -> o' <> Some "" -> month_token o = month_token o' -> o = o'.
Proof.
  destruct o as [m|], o' as [m'|]; simpl; intros Ho Ho' H.
  - apply app_inv_tail in H. now subst.
  - exfalso. destruct m; [congruence | discriminate].
  - exfalso. destruct m'; [congruence | discriminate].
  - reflexivity.
Qed.

(** C6 (as amended). The file name is a function of its arguments, and
    when a single argument is varied the name changes exactly when this
    changes: the symbol in upper case; the duration without its spaces; the
    abbreviated timeframe; the extended-hours flag; the future month, as far
    as it enters the name (the security type is ["FUT"] and the month is
    given and not empty); the security type, when no future month is
    given. *)
Theorem filename_sensitivity (sym sec dur tf : string) (fm : option string)
    (ext : bool) :
  (forall sym',
     generate_filename sym sec dur tf fm ext
     = generate_filename sym' sec dur tf fm ext
     <-> PyStr.upper sym = PyStr.upper sym')
  /\ (forall dur',
        generate_filename sym sec dur tf fm ext
        = generate_filename sym sec dur' tf fm ext
        <-> duration_clean dur = duration_clean dur')
  /\ (forall tf',
        generate_filename sym sec dur tf fm ext
        = generate_filename sym sec dur tf' fm ext
        <-> timeframe_clean tf = timeframe_clean tf')
  /\ (forall ext',
        generate_filename sym sec dur tf fm ext
        = generate_filename sym sec dur tf fm ext'
        <-> ext = ext')
  /\ (forall fm',
        generate_filename sym sec dur tf fm ext
        = generate_filename sym sec dur tf fm' ext
        <-> effective_month sec fm = effective_month sec fm')
  /\ (forall sec',
        truthy fm = false ->
        (generate_filename sym sec dur tf fm ext
         = generate_filename sym sec' dur tf fm ext
         <-> sec = sec')).
Proof.
  repeat apply conj; intros x; [| | | | | intros Hfm]; split;
    rewrite !generate_filename_pieces;
    try (intros H; rewrite H; reflexivity).
  - (* symbol *)
    intros H. now apply app_inv_tail in H.
  - (* duration *)
    intros H. do 5 apply app_inv_head in H. now apply app_inv_tail in H.
  - (* timeframe *)
    intros H. do 7 apply app_inv_head in H. now apply app_inv_tail in H.
  - (* extended hours *)
    intros H. do 9 apply app_inv_head in H. apply app_inv_tail in H.
    destruct ext, x; try reflexivity; discriminate.
  - (* future month *)
    intros H. do 4 apply app_inv_head in H. apply app_inv_tail in H.
    apply month_token_inj; auto using effective_month_nonempty.
  - (* security type *)
    unfold effective_month. rewrite Hfm, !andb_false_r. simpl month_token.
    intros H1. do 2 apply app_inv_head in H1. now apply app_inv_tail in H1.
Qed.

(** The theorem for the security types STK and CASH, no future month. *)
Lemma filename_sensitivity_witness :
  generate_filename "SPY" "STK" "1 Y" "1 day" None false
  = generate_filename "SPY" "CASH" "1 Y" "1 day" None false
  <-> "STK" = "CASH".
Proof.
  exact (proj2 (proj2 (proj2 (proj2 (proj2
    (filename_sensitivity "SPY" "STK" "1 Y" "1 day" None false)))))
    "CASH" eq_refl).
Defined.

(** C6 as stated fails: the symbols "spy" and "SPY" differ and give the
    same file name, and so do the durations "1 Y" and "1Y". *)
Lemma filename_sensitivity_counterexample :
  "spy" <> "SPY"
  /\ generate_filename "spy" "STK" "1 Y" "1 day" None false
     = generate_filename "SPY" "STK" "1 Y" "1 day" None false
  /\ "1 Y" <> "1Y"
  /\ generate_filename "SPY" "STK" "1 Y" "1 day" None false
     = generate_filename "SPY" "STK" "1Y" "1 day" None false.
Proof.
  repeat split; try reflexivity; discriminate.
Qed.

(** With a future month the security type can also collide: ["FUT"] with
    the month 202409 and the security type ["FUT_202409"]. *)
Example filename_security_type_collision :
  generate_filename "ES" "FUT" "30 D" "1 day" (Some "202409") false
  = generate_filename "ES" "FUT_202409" "30 D" "1 day" (Some "202409") false.
Proof. reflexivity. Qed.

End FilenameProps.

(** ** The unique file name *)

Module UniqueProps.

Import PyDatetime Pipeline Spec StrFacts.

Lemma decimal_value_of_nat (n : nat) : decimal_value (PyStr.of_nat n) = Some n.
Proof.
  unfold decimal_value, PyStr.of_nat, NilZero.string_of_uint.
  rewrite <- (DecimalNat.Unsigned.of_to n) at 2.
  destruct (Nat.to_uint n) eqn:E; try (rewrite NilEmpty.usu; reflexivity).
  reflexivity.
Qed.

Lemma decimal_value_zeros (k : nat) (s : string) :
  decimal_value (PyStr.zeros k ++ s) = decimal_value s.
Proof.
  induction k as [|k IH]; [reflexivity |].
  simpl PyStr.zeros. rewrite app_cons. unfold decimal_value in *. simpl.
  destruct (NilEmpty.uint_of_string (PyStr.zeros k ++ s)) as [d|] eqn:E;
    simpl in *; [| exact IH].
  rewrite <- IH. reflexivity.
Qed.

Lemma fmt_02d_inj (j k : nat) : PyStr.fmt_02d j = PyStr.fmt_02d k -> j = k.
Proof.
  intros H. apply (f_equal decimal_value) in H. unfold PyStr.fmt_02d, PyStr.zfill in H.
  rewrite !decimal_value_zeros, !decimal_value_of_nat in H. congruence.
Qed.

#[local] Instance numbered_inj (name_part timestamp ext : string) :
  Inj (=) (=) (numbered name_part timestamp ext).
Proof.
  intros j k H. unfold numbered in H.
  do 4 apply app_inv_head in H. apply app_inv_tail in H.
  now apply fmt_02d_inj.
Qed.

Section Loop.

Variables (files : gset string) (name_part timestamp ext : string).

Abbreviation cand := (numbered name_part timestamp ext).

Lemma path_exists_true (p : string) : path_exists files p = true <-> p ∈ files.
Proof. unfold path_exists. apply bool_decide_eq_true. Qed.

Lemma path_exists_false (p : string) : path_exists files p = false <-> p ∉ files.
Proof. unfold path_exists. apply bool_decide_eq_false. Qed.

(** Among any [size files + 1] consecutive candidates one is free. *)
Lemma some_candidate_free (c : nat) :
  exists k, (c <= k < c + S (size files))%nat /\ cand k ∉ files.
Proof.
  set (l := cand <$> seq c (S (size files))).
  destruct (decide (Forall (fun x => x ∈ files) l)) as [Hall|Hnot].
  - exfalso.
    assert (Hsub : list_to_set (C:=gset string) l ⊆ files).
    { intros x Hx. apply elem_of_list_to_set in Hx.
      rewrite Forall_forall in Hall. auto. }
    assert (Hsz : (size (list_to_set (C:=gset string) l) <= size files)%nat)
      by (apply subseteq_size; exact Hsub).
    assert (Hnd : NoDup l)
      by (apply NoDup_fmap_2; [apply numbered_inj | apply NoDup_seq]).
    rewrite (size_list_to_set l Hnd) in Hsz.
    unfold l in Hsz. rewrite length_fmap, length_seq in Hsz. lia.
  - apply not_Forall_Exists in Hnot; [| intros x; apply _].
    apply Exists_exists in Hnot as (x & Hx & Hfree).
    apply list_elem_of_fmap in Hx as (k & -> & Hk).
    apply elem_of_seq in Hk. exists k. split; [lia | exact Hfree].
Qed.

(** The first free candidate from [c] on. *)
Lemma first_candidate_free (n c : nat) :
  (exists k, (c <= k < c + n)%nat /\ (cand k ∉ files)) ->
  exists k, (c <= k < c + n)%nat /\ (cand k ∉ files)
            /\ forall j, (c <= j < k)%nat -> cand j ∈ files.
Proof.
  revert c. induction n as [|n IH]; intros c (k & Hk & Hfree); [lia |].
  destruct (decide (cand c ∈ files)) as [Hin|Hout].
  - destruct (IH (S c)) as (k' & Hk' & Hfree' & Hbelow).
    { exists k. split; [| exact Hfree].
      destruct (decide (k = c)) as [-> | ?]; [contradiction | lia]. }
    exists k'. split; [lia |]. split; [exact Hfree' |].
    intros j Hj. destruct (decide (j = c)) as [-> | ?]; [exact Hin |].
    apply Hbelow. lia.
  - exists c. split; [lia |]. split; [exact Hout |]. intros j Hj. lia.
Qed.

(** The loop, entered with an existing name, returns the first free
    candidate when it has fuel to reach it. *)
Lemma unique_loop_finds (n c : nat) (u : string) (fuel : nat) :
  u ∈ files ->
  (forall j, (c <= j < c + n)%nat -> cand j ∈ files) ->
  cand (c + n) ∉ files ->
  (n < fuel)%nat ->
  unique_loop fuel files name_part timestamp ext u c = Some (cand (c + n)).
Proof.
  revert c u fuel. induction n as [|n IH]; intros c u fuel Hu Hbelow Hfree Hfuel.
  - destruct fuel as [|fuel]; [lia |]. simpl.
    apply path_exists_true in Hu. rewrite Hu.
    rewrite Nat.add_0_r in *. apply path_exists_false in Hfree.
    destruct fuel; simpl; now rewrite Hfree.
  - destruct fuel as [|fuel]; [lia |]. simpl.
    apply path_exists_true in Hu. rewrite Hu.
    replace (c + S n)%nat with (S c + n)%nat in * by lia.
    apply IH; try lia; [apply Hbelow; lia | | exact Hfree].
    intros j Hj. apply Hbelow. lia.
Qed.

End Loop.

(** C7. For every finite set of existing paths and every fuel above its
    size, [generate_unique_filename] returns, and what it returns does not
    exist. When the original path and the candidate with the timestamp both
    exist, the result carries a numeric suffix [_01], [_02], ...: it is the
    first numbered candidate that does not exist. *)
Theorem unique_filename_is_free (files : gset string) (now : datetime)
    (base_filename : string) :
  let name_part := fst (splitext base_filename) in
  let ext := snd (splitext base_filename) in
  let timestamp := strftime_suffix now in
  exists result,
    (forall fuel, (size files < fuel)%nat ->
       generate_unique_filename fuel files now base_filename = Some result)
    /\ (result ∉ files)
    /\ (base_filename ∈ files ->
        name_part ++ "_" ++ timestamp ++ ext ∈ files ->
        exists k, (1 <= k)%nat
          /\ result = numbered name_part timestamp ext k
          /\ forall j, (1 <= j < k)%nat ->
               numbered name_part timestamp ext j ∈ files).
Proof.
  intros name_part ext timestamp. unfold generate_unique_filename.
  destruct (splitext base_filename) as [np ex] eqn:Hsplit.
  simpl in name_part, ext. subst name_part ext. fold timestamp.
  destruct (path_exists files base_filename) eqn:Hbase; simpl negb; cbv iota.
  2:{ apply path_exists_false in Hbase. exists base_filename.
      repeat split; auto. intros Hin. contradiction. }
  destruct (path_exists files (np ++ "_" ++ timestamp ++ ex)) eqn:Hfirst.
  2:{ exists (np ++ "_" ++ timestamp ++ ex).
      apply path_exists_false in Hfirst as Hfree. repeat split; auto.
      - intros [|fuel] _; simpl; now rewrite Hfirst.
      - intros _ Hin. contradiction. }
  apply path_exists_true in Hfirst.
  destruct (first_candidate_free files np timestamp ex (S (size files)) 1
              (some_candidate_free files np timestamp ex 1))
    as (k & Hk & Hfree & Hbelow).
  exists (numbered np timestamp ex k). repeat split; auto.
  - intros fuel Hfuel.
    replace k with (1 + (k - 1))%nat by lia.
    apply unique_loop_finds; auto; try lia.
    + intros j Hj. apply Hbelow. lia.
    + now replace (1 + (k - 1))%nat with k by lia.
  - intros _ _. exists k. repeat split; auto; lia.
Qed.

(** The theorem on a directory where the original, the timestamped
    candidate and the candidate [_01] exist: the result is [_02]. *)
Lemma unique_filename_is_free_witness :
  generate_unique_filename 4
    {[ "a.csv"; "a_20261103_142507.csv"; "a_20261103_142507_01.csv" ]}
    sample_now "a.csv"
  = Some "a_20261103_142507_02.csv".
Proof.
  destruct (unique_filename_is_free
    {[ "a.csv"; "a_20261103_142507.csv"; "a_20261103_142507_01.csv" ]}
    sample_now "a.csv") as (result & Hret & _ & _).
  rewrite (Hret 4%nat); [| vm_compute; lia].
  assert (H := Hret 4%nat). vm_compute in H.
  specialize (H ltac:(lia)). injection H as <-. reflexivity.
Defined.

End UniqueProps.

(** ** Runs of the script *)

Module RunProps.

Import PyDatetime Resolver Pipeline Config Run Spec.

(** Unfolding of the monad and of the primitive actions. *)
Ltac run :=
  cbv beta iota zeta delta
    [mbind M_bind mret M_ret print emit lift raise diverge set_connected
     is_connected try_except try_finally print_all foldr log negb Ok Raise];
  cbn [trace stdin connected].

Lemma log_nil (st : state) : log [] st = st.
Proof. destruct st. unfold log. simpl. now rewrite List.app_nil_r. Qed.

Lemma log_log (a b : list event) (st : state) :
  log b (log a st) = log (a ++ b) st.
Proof. unfold log. simpl. now rewrite List.app_assoc. Qed.

Lemma print_all_log (lines : list string) (st : state) :
  print_all lines st = (Returned tt, log (map Print lines) st).
Proof.
  revert st. induction lines as [|l lines IH]; intros st.
  - simpl. now rewrite log_nil.
  - change (print_all (l :: lines) st) with (print_all lines (log [Print l] st)).
    rewrite IH, log_log. reflexivity.
Qed.

(** The lines that [print_date_info] prints. *)
Lemma print_date_info_log (info : processed_info) :
  exists lines, forall st,
    print_date_info info st = (Returned tt, log (map Print lines) st).
Proof.
  destruct info; simpl.
  - eexists [_; _]. intros st. run. now rewrite <- List.app_assoc.
  - eexists [_]. reflexivity.
  - eexists [_]. reflexivity.
  - exists []. intros st. now rewrite log_nil.
Qed.

(** The run of [fetch_and_save_historical_data] when the dates are in the
    wrong order. *)
Lemma fetch_invalid_range (w : world) (s e : string) (ds de : datetime)
    (symbol timeframe duration output_filename : option string)
    (overwrite : bool) (timezone_choice : string) (ext : bool) (st : state) :
  parse_date_string s = Ok (Some ds) ->
  parse_date_string e = Ok (Some de) ->
  gt ds de = true ->
  fetch_and_save_historical_data w symbol timeframe duration output_filename
    overwrite timezone_choice (Some s) (Some e) ext st
  = (Returned tt, log [Print ("ERROR: " ++ range_error_message)] st).
Proof.
  intros Hs He Hgt. unfold fetch_and_save_historical_data.
  rewrite (ResolverProps.process_invalid_range s e _ ext (clock w) ds de Hs He Hgt).
  reflexivity.
Qed.

(** *** Steps that only produce events *)

Section LeadsTo.

Variable P : event -> bool.

Lemma leads_refl {A : Type} (k : M A) : leads_to P k k.
Proof. exists []. split; [reflexivity |]. intros st. now rewrite log_nil. Qed.

Lemma leads_emit {A : Type} (e : event) (f : unit -> M A) (k : M A) :
  P e = true -> leads_to P (f tt) k -> leads_to P (emit e ≫= f) k.
Proof.
  intros He (evs & Hp & H). exists (e :: evs). split.
  - simpl. now rewrite He, Hp.
  - intros st. unfold mbind, M_bind, emit. rewrite H.
    change {| trace := (trace st ++ [e])%list; stdin := stdin st;
              connected := connected st |} with (log [e] st).
    now rewrite log_log.
Qed.

Lemma leads_print {A : Type} (x : string) (f : unit -> M A) (k : M A) :
  P (Print x) = true -> leads_to P (f tt) k -> leads_to P (print x ≫= f) k.
Proof. apply leads_emit. Qed.

Lemma leads_ret {A B : Type} (a : A) (f : A -> M B) (k : M B) :
  leads_to P (f a) k -> leads_to P (mret a ≫= f) k.
Proof. intros H. exact H. Qed.

(** A line that is printed under a condition. *)
Lemma leads_print_if {A : Type} (b : bool) (x : string) (f : unit -> M A)
    (k : M A) :
  P (Print x) = true -> leads_to P (f tt) k ->
  leads_to P ((if b then print x else mret tt) ≫= f) k.
Proof.
  intros Hx H. destruct b; [now apply leads_print | now apply leads_ret].
Qed.

Lemma leads_assoc {A B C : Type} (m : M A) (g : A -> M B) (f : B -> M C)
    (k : M C) :
  leads_to P (m ≫= fun x => g x ≫= f) k -> leads_to P ((m ≫= g) ≫= f) k.
Proof.
  intros (evs & Hp & H). exists evs. split; [exact Hp |].
  intros st. rewrite <- H. unfold mbind, M_bind.
  destruct (m st) as [[x| |] st']; reflexivity.
Qed.

(** Events, then [set_connected], then events again. *)
Lemma leads_connected {A : Type} (m : M A) (b : bool) (f : unit -> M A)
    (k : M A) :
  leads_to P m (set_connected b ≫= f) -> leads_to P (f tt) k ->
  exists evs,
    forallb P evs = true
    /\ forall st,
        m st = k {| trace := (trace st ++ evs)%list; stdin := stdin st;
                    connected := b |}.
Proof.
  intros (evs1 & Hp1 & H1) (evs2 & Hp2 & H2).
  exists (evs1 ++ evs2)%list. split; [now rewrite forallb_app, Hp1, Hp2 |].
  intros st. rewrite H1. unfold mbind, M_bind, set_connected. rewrite H2.
  unfold log. simpl. now rewrite List.app_assoc.
Qed.

End LeadsTo.

(** One step of a run that produces an event. *)
Ltac leads_step :=
  lazymatch goal with
  | |- leads_to _ (print _ ≫= _) _ => apply leads_print; [reflexivity |]
  | |- leads_to _ (emit _ ≫= _) _ => apply leads_emit; [reflexivity |]
  | |- leads_to _ ((if _ then print _ else mret tt) ≫= _) _ =>
      apply leads_print_if; [reflexivity |]
  | |- leads_to _ (mret _ ≫= _) _ => apply leads_ret
  end;
  cbv beta iota zeta.

(** What [main] prints before it calls
    [fetch_and_save_historical_data]. *)
Lemma main_header (w : world) (a : args) :
  leads_to is_print (main w a)
    (try_except
       (fetch_and_save_historical_data w (Some (arg_symbol a))
          (Some (arg_timeframe a)) (Some (arg_duration a)) (arg_output a)
          (arg_overwrite a) (arg_timezone a) (arg_start_date a)
          (arg_end_date a) (arg_eth a);;
        (mret 0 : M Z))
       (fun e => print ("FATAL ERROR: " ++ exn_str e);; (mret 1 : M Z))).
Proof. unfold main. repeat leads_step. apply leads_refl. Qed.

Lemma no_network_in_prints (evs : list event) :
  forallb is_print evs = true -> existsb is_network evs = false.
Proof.
  induction evs as [|e evs IH]; [reflexivity |]. simpl.
  destruct e; simpl; try discriminate. exact IH.
Qed.

(** C3. For two date strings that parse, the start after the end: the
    resolver raises the [ValueError] "Start date cannot be after end date";
    [fetch_and_save_historical_data] prints it as an error and returns
    without any other event; the whole run only prints, ends with that
    error line and has no interaction with the broker: no connection, no
    data request. *)
Theorem invalid_range_aborts_before_network (w : world) (a : args)
    (s e : string) (ds de : datetime) (keyboard : list string) :
  parse_date_string s = Ok (Some ds) ->
  parse_date_string e = Ok (Some de) ->
  gt ds de = true ->
  arg_start_date a = Some s ->
  arg_end_date a = Some e ->
  process_date_arguments (Some s) (Some e) (arg_duration a) (arg_eth a) (clock w)
  = Raise (ValueError range_error_message)
  /\ (forall st,
       fetch_and_save_historical_data w (Some (arg_symbol a))
         (Some (arg_timeframe a)) (Some (arg_duration a)) (arg_output a)
         (arg_overwrite a) (arg_timezone a) (Some s) (Some e) (arg_eth a) st
       = (Returned tt, log [Print ("ERROR: " ++ range_error_message)] st))
  /\ exists header,
       main w a (initial keyboard)
       = (Returned 0,
          log (header ++ [Print ("ERROR: " ++ range_error_message)])
            (initial keyboard))
       /\ forallb is_print header = true
       /\ existsb is_network
            (header ++ [Print ("ERROR: " ++ range_error_message)]) = false.
Proof.
  intros Hs He Hgt Has Hae. split; [| split].
  - exact (ResolverProps.process_invalid_range s e _ _ _ ds de Hs He Hgt).
  - intros st. now apply (fetch_invalid_range w s e ds de).
  - destruct (main_header w a) as (header & Hp & Hm).
    exists header. rewrite Hm, Has, Hae. split; [| split].
    + unfold try_except, mbind, M_bind.
      rewrite (fetch_invalid_range w s e ds de) by assumption.
      rewrite log_log. reflexivity.
    + exact Hp.
    + apply no_network_in_prints. rewrite forallb_app, Hp. reflexivity.
Qed.

(** The theorem for the dates 2024-02-15 and 2024-01-31. *)
Lemma invalid_range_aborts_before_network_witness :
  exists header,
    main sample_world
      (sample_args (Some "2024-02-15") (Some "2024-01-31") None) (initial [])
    = (Returned 0,
       log (header ++ [Print ("ERROR: " ++ range_error_message)]) (initial []))
    /\ forallb is_print header = true
    /\ existsb is_network
         (header ++ [Print ("ERROR: " ++ range_error_message)]) = false.
Proof.
  exact (proj2 (proj2 (invalid_range_aborts_before_network sample_world
    (sample_args (Some "2024-02-15") (Some "2024-01-31") None)
    "2024-02-15" "2024-01-31"
    (mk_datetime 2024 2 15 0 0 0 0) (mk_datetime 2024 1 31 0 0 0 0) []
    eq_refl eq_refl eq_refl eq_refl eq_refl))).
Defined.

Lemma no_write_in_prints (evs : list event) :
  forallb is_print evs = true -> existsb is_write evs = false.
Proof.
  induction evs as [|e evs IH]; [reflexivity |]. simpl.
  destruct e; simpl; try discriminate. exact IH.
Qed.

Lemma bind_returned {A B : Type} (m : M A) (f : A -> M B) (st st' : state)
    (a : A) :
  m st = (Returned a, st') -> (m ≫= f) st = f a st'.
Proof. intros H. unfold mbind, M_bind. now rewrite H. Qed.

(** *** The prompt *)

Lemma cancel_is_not_another_choice (line : string) :
  is_cancel line = true ->
  PyStr.str_in (choice_of line) ["O"; "OVERWRITE"] = false
  /\ PyStr.str_in (choice_of line) ["R"; "RENAME"] = false.
Proof.
  unfold is_cancel, PyStr.str_in. simpl. intros H.
  destruct (String.eqb_spec (choice_of line) "C") as [-> | _];
    [split; reflexivity |].
  destruct (String.eqb_spec (choice_of line) "CANCEL") as [-> | _];
    [split; reflexivity | discriminate].
Qed.

Lemma invalid_is_no_choice (line : string) :
  is_invalid line = true ->
  PyStr.str_in (choice_of line) ["O"; "OVERWRITE"] = false
  /\ PyStr.str_in (choice_of line) ["R"; "RENAME"] = false
  /\ PyStr.str_in (choice_of line) ["C"; "CANCEL"] = false.
Proof.
  unfold is_invalid, PyStr.str_in. simpl. intros H.
  apply negb_true_iff in H.
  repeat (apply orb_false_elim in H; destruct H as [?E H]).
  now rewrite E, E0, E1, E2, E3, E4.
Qed.

Lemma no_write_in_cancel_dialogue (invalid : list string) :
  existsb is_write (cancel_dialogue invalid) = false.
Proof.
  unfold cancel_dialogue. rewrite existsb_app. simpl. rewrite orb_false_r.
  induction invalid as [|x invalid IH]; [reflexivity | exact IH].
Qed.

(** One round of the loop. *)
Lemma choice_loop_round (rounds : nat) (w : world) (filename : string) :
  choice_loop rounds w filename
  = (line ← input "Enter choice [O/R/C]: ";
     let choice := choice_of line in
     if PyStr.str_in choice ["O"; "OVERWRITE"] then
       print ("Overwriting: " ++ filename);;
       mret (filename, true)
     else if PyStr.str_in choice ["R"; "RENAME"] then
       match generate_unique_filename (S (size (files w))) (files w) (clock w)
               filename with
       | Some new_filename =>
           print ("Creating new file: " ++ new_filename);;
           mret (new_filename, true)
       | None => diverge
       end
     else if PyStr.str_in choice ["C"; "CANCEL"] then
       print "Operation cancelled by user.";;
       mret (filename, false)
     else
       print "Invalid choice. Please enter O, R, or C.";;
       match rounds with
       | S rounds' => choice_loop rounds' w filename
       | O => diverge
       end).
Proof. destruct rounds; reflexivity. Qed.

(** The loop when the keyboard holds invalid answers and then a cancel. *)
Lemma choice_loop_cancel (w : world) (filename : string)
    (invalid : list string) (c : string) (rest : list string) :
  forallb is_invalid invalid = true ->
  is_cancel c = true ->
  forall (rounds : nat) (st : state),
    (length invalid <= rounds)%nat ->
    stdin st = (invalid ++ c :: rest)%list ->
    choice_loop rounds w filename st
    = (Returned (filename, false),
       {| trace := (trace st ++ cancel_dialogue invalid)%list;
          stdin := rest; connected := connected st |}).
Proof.
  intros Hinv Hc. induction invalid as [|x invalid IH]; intros rounds st Hr Hst;
    rewrite choice_loop_round; destruct st as [tr inp conn];
    simpl in Hst; subst inp; unfold input; run.
  - destruct (cancel_is_not_another_choice c Hc) as [Ho Hrn].
    unfold is_cancel in Hc. rewrite Ho, Hrn, Hc.
    unfold cancel_dialogue. simpl. now rewrite <- List.app_assoc.
  - simpl in Hinv. apply andb_prop in Hinv as [Hx Hinv].
    destruct (invalid_is_no_choice x Hx) as (Ho & Hrn & Hcn).
    rewrite Ho, Hrn, Hcn.
    destruct rounds as [|rounds]; [simpl in Hr; lia |].
    rewrite (IH Hinv rounds); [| simpl in Hr; lia | reflexivity].
    unfold cancel_dialogue. simpl. now rewrite <- !List.app_assoc.
Qed.

(** [handle_file_conflict] when the file exists, the overwrite flag is not
    set and the user cancels. *)
Lemma handle_file_conflict_cancel (w : world) (filename : string)
    (invalid : list string) (c : string) (rest : list string) (st : state) :
  path_exists (files w) filename = true ->
  forallb is_invalid invalid = true ->
  is_cancel c = true ->
  stdin st = (invalid ++ c :: rest)%list ->
  exists banner,
    forallb is_print banner = true
    /\ handle_file_conflict w filename false st
       = (Returned (filename, false),
          {| trace := (trace st ++ banner ++ cancel_dialogue invalid)%list;
             stdin := rest; connected := connected st |}).
Proof.
  intros Hex Hinv Hc Hst.
  assert (Hb : leads_to is_print (handle_file_conflict w filename false)
                 (ask_choice w filename)).
  { unfold handle_file_conflict. rewrite Hex. simpl negb. cbv iota.
    repeat leads_step. apply leads_refl. }
  destruct Hb as (banner & Hp & Hb). exists banner. split; [exact Hp |].
  rewrite Hb. unfold ask_choice.
  rewrite (choice_loop_cancel w filename invalid c rest Hinv Hc);
    [| simpl; rewrite Hst, length_app; simpl; lia | exact Hst].
  unfold log. simpl. now rewrite List.app_assoc.
Qed.

(** *** The date column *)


(** When a value of an object column cannot be parsed, the column is
    returned as it is, after one warning. *)
Lemma format_date_column_unparseable (w : world) (name : string)
    (values : list cell) (tz : tzinfo) (is_intraday : bool) (st : state) :
  pd_to_datetime w values = None ->
  format_date_column w name (object values) tz is_intraday st
  = (Returned (object values), log [Print (column_warning name)] st).
Proof. intros H. unfold format_date_column. rewrite H. reflexivity. Qed.

(** [format_date_column] returns, and only prints. *)
Lemma format_date_column_prints (w : world) (name : string) (col : column)
    (tz : tzinfo) (is_intraday : bool) (st : state) :
  exists col' evs,
    forallb is_print evs = true
    /\ format_date_column w name col tz is_intraday st
       = (Returned col', log evs st).
Proof.
  destruct col as [values|values|values]; simpl.
  - exists (object (map cell_str
      (format_timezone_aware_datetime w values tz is_intraday))), [].
    now rewrite log_nil.
  - destruct (pd_to_datetime w values) as [series|].
    + eexists _, []. now rewrite log_nil.
    + eexists _, [_]. split; cycle 1; reflexivity.
  - eexists _, []. now rewrite log_nil.
Qed.

(** *** From the data frame to the file *)

(** The user cancels at the prompt: nothing is written. *)
Lemma save_dataframe_cancel (w : world) (df : dataframe)
    (target_symbol bar_size output_filename timezone_choice : string)
    (invalid : list string) (c : string) (rest : list string) (st : state) :
  path_exists (files w) output_filename = true ->
  forallb is_invalid invalid = true ->
  is_cancel c = true ->
  stdin st = (invalid ++ c :: rest)%list ->
  exists evs,
    existsb is_write evs = false
    /\ save_dataframe w df target_symbol bar_size output_filename
         timezone_choice false st
       = (Returned tt,
          {| trace := (trace st ++ evs ++ [Print cancelled_message])%list;
             stdin := rest; connected := connected st |}).
Proof.
  intros Hex Hinv Hc Hst. unfold save_dataframe.
  match goal with
  | |- context [format_date_column w ?n ?col ?tz ?i] =>
      destruct (format_date_column_prints w n col tz i st)
        as (col' & evs1 & Hp1 & Hf)
  end.
  destruct (handle_file_conflict_cancel w output_filename invalid c rest
              (log evs1 st) Hex Hinv Hc Hst) as (banner & Hp2 & Hh).
  exists (evs1 ++ banner ++ cancel_dialogue invalid)%list. split.
  - rewrite !existsb_app, (no_write_in_prints _ Hp1),
      (no_write_in_prints _ Hp2), no_write_in_cancel_dialogue. reflexivity.
  - cbv zeta. erewrite bind_returned by exact Hf.
    erewrite bind_returned by exact Hh.
    run. simpl. now rewrite <- !List.app_assoc.
Qed.

(** A value of the date column cannot be parsed, and the file is free:
    one warning, then the table is written with the date column as it
    was. *)
Lemma save_dataframe_unparseable (w : world) (df : dataframe)
    (target_symbol bar_size output_filename timezone_choice : string)
    (overwrite : bool) (values : list cell) (st : state) :
  df_date df = object values ->
  pd_to_datetime w values = None ->
  path_exists (files w) output_filename = false ->
  to_csv w output_filename = Ok tt ->
  let name := output_date_column w timezone_choice target_symbol bar_size in
  save_dataframe w df target_symbol bar_size output_filename timezone_choice
    overwrite st
  = (Returned tt,
     log [Print (column_warning name);
          ToCsv output_filename
            {| date_column_name := name; date_values := object values;
               rows := df_rows df |};
          Print (success_message output_filename)] st).
Proof.
  intros Hcol Hpd Hfree Hcsv name. unfold save_dataframe. cbv zeta.
  fold (output_date_column w timezone_choice target_symbol bar_size).
  fold name. rewrite Hcol.
  erewrite bind_returned by (apply format_date_column_unparseable; exact Hpd).
  unfold handle_file_conflict. rewrite Hfree. run. rewrite Hcsv. run.
  rewrite <- !List.app_assoc. reflexivity.
Qed.

(** *** From the connection to the data frame *)

(** When the broker accepts the connection, qualifies the contract and
    returns bars that make a non-empty data frame, the body of the [try]
    reaches [save_dataframe], connected, and has written nothing. *)
Lemma fetch_body_reaches_save (w : world)
    (target_symbol bar_size hist_duration end_datetime_str output_filename
       timezone_choice : string)
    (overwrite ext use_rth : bool) (q : contract) (qs : list contract)
    (b : bar) (bars : list bar) (df : dataframe) :
  connect w = Ok tt ->
  qualifyContracts w (Stock target_symbol STOCK_EXCHANGE STOCK_CURRENCY) = q :: qs ->
  reqHistoricalData w = Ok (b :: bars) ->
  util_df w (b :: bars) = Some df ->
  df_empty df = false ->
  exists evs,
    existsb is_write evs = false
    /\ forall st,
        fetch_body w target_symbol bar_size hist_duration end_datetime_str
          output_filename timezone_choice overwrite ext use_rth st
        = save_dataframe w df target_symbol bar_size output_filename
            timezone_choice overwrite
            {| trace := (trace st ++ evs)%list; stdin := stdin st;
               connected := true |}.
Proof.
  intros Hconn Hqual Hreq Hdf Hempty.
  assert (H : exists evs,
    forallb (fun e => negb (is_write e)) evs = true
    /\ forall st,
        fetch_body w target_symbol bar_size hist_duration end_datetime_str
          output_filename timezone_choice overwrite ext use_rth st
        = save_dataframe w df target_symbol bar_size output_filename
            timezone_choice overwrite
            {| trace := (trace st ++ evs)%list; stdin := stdin st;
               connected := true |}).
  { unfold fetch_body. rewrite Hconn, Hreq. unfold lift, Ok. cbv iota.
    eapply leads_connected.
    - (* up to the connection *)
      do 3 leads_step. apply leads_refl.
    - (* from the connection to the data frame *)
      cbv beta. leads_step. unfold create_contract.
      cbv beta iota zeta delta [from_option id].
      change (String.eqb SECURITY_TYPE "STK") with true. cbv iota.
      apply leads_assoc. do 4 leads_step.
      rewrite Hqual. cbv iota. repeat leads_step.
      rewrite Hdf, Hempty. simpl negb. cbv iota. apply leads_refl. }
  destruct H as (evs & Hp & H). exists evs. split; [| exact H].
  clear H. induction evs as [|e evs IH]; [reflexivity |].
  simpl in *. apply andb_prop in Hp as [He Hp].
  apply negb_true_iff in He. now rewrite He, IH.
Qed.

(** *** The whole run *)

(** [fetch_and_save_historical_data] up to the [try] statement. *)
Lemma fetch_resolved (w : world) (a : args) (ets hd : string)
    (info : processed_info) :
  process_date_arguments (arg_start_date a) (arg_end_date a) (arg_duration a)
    (arg_eth a) (clock w) = Ok (ets, hd, info) ->
  exists evs,
    forallb is_print evs = true
    /\ forall st,
        fetch_and_save_historical_data w (Some (arg_symbol a))
          (Some (arg_timeframe a)) (Some (arg_duration a)) (arg_output a)
          (arg_overwrite a) (arg_timezone a) (arg_start_date a)
          (arg_end_date a) (arg_eth a) st
        = try_finally
            (try_except
               (fetch_body w (arg_symbol a) (arg_timeframe a) hd ets
                  (output_path a hd) (arg_timezone a) (arg_overwrite a)
                  (arg_eth a) (negb (arg_eth a)))
               fetch_handler)
            fetch_finally (log evs st).
Proof.
  intros Hp.
  destruct (print_date_info_log info) as (lines & Hlines).
  exists (map Print lines
          ++ map Print (validate_timeframe_duration (arg_timeframe a) hd))%list.
  split.
  - rewrite forallb_app.
    assert (Hm : forall l, forallb is_print (map Print l) = true)
      by (induction l; simpl; auto).
    now rewrite !Hm.
  - intros st. unfold fetch_and_save_historical_data.
    cbv beta iota zeta delta [from_option id]. rewrite Hp.
    unfold Ok. cbv beta iota.
    erewrite bind_returned by apply Hlines.
    erewrite bind_returned by apply print_all_log.
    rewrite log_log. unfold output_path.
    destruct (arg_output a); reflexivity.
Qed.

(** The [except] and [finally] clauses after a body that returns with the
    connection open. *)
Lemma finish_returned (body : M unit) (st st2 : state) :
  body st = (Returned tt, st2) ->
  connected st2 = true ->
  try_finally (try_except body fetch_handler) fetch_finally st
  = (Returned tt,
     {| trace := (trace st2 ++ closing)%list; stdin := stdin st2;
        connected := false |}).
Proof.
  intros Hb Hc. unfold try_finally, try_except. rewrite Hb.
  unfold fetch_finally. run. rewrite Hc. unfold closing.
  now rewrite <- !List.app_assoc.
Qed.

(** The run from [main] to [save_dataframe]. *)
Lemma main_reaches_save (w : world) (a : args) (ets hd : string)
    (info : processed_info) (df : dataframe) (keyboard : list string) :
  reaches_save w a ets hd info df ->
  exists evs,
    existsb is_write evs = false
    /\ forall st2,
        save_dataframe w df (arg_symbol a) (arg_timeframe a) (output_path a hd)
          (arg_timezone a) (arg_overwrite a)
          {| trace := evs; stdin := keyboard; connected := true |}
        = (Returned tt, st2) ->
        connected st2 = true ->
        main w a (initial keyboard)
        = (Returned 0,
           {| trace := (trace st2 ++ closing)%list; stdin := stdin st2;
              connected := false |}).
Proof.
  intros [Hp Hconn Hq (b & bars & Hreq & Hdf) Hne].
  destruct (qualifyContracts w _) as [|q qs] eqn:Hqual; [contradiction |].
  destruct (main_header w a) as (header & Hh & Hmain).
  destruct (fetch_resolved w a ets hd info Hp) as (evs0 & H0 & Hfetch).
  destruct (fetch_body_reaches_save w (arg_symbol a) (arg_timeframe a) hd ets
              (output_path a hd) (arg_timezone a) (arg_overwrite a) (arg_eth a)
              (negb (arg_eth a)) q qs b bars df Hconn Hqual Hreq Hdf Hne)
    as (evs1 & H1 & Hbody).
  exists (header ++ evs0 ++ evs1)%list. split.
  - rewrite !existsb_app, (no_write_in_prints _ Hh), (no_write_in_prints _ H0), H1.
    reflexivity.
  - intros st2 Hsave Hc. rewrite Hmain. unfold try_except at 1.
    erewrite bind_returned; [reflexivity |].
    rewrite Hfetch. apply finish_returned; [| exact Hc].
    rewrite Hbody. rewrite <- Hsave. unfold log, initial. simpl.
    now rewrite <- !List.app_assoc.
Qed.

(** C8. The file exists, the overwrite flag is not set, and the user
    answers Cancel at the prompt (after any number of invalid answers):
    [handle_file_conflict] returns the path and [False]; in a run that gets
    as far as the data frame nothing is written, the run prints that the
    file was not saved where a normal run prints its success line, closes
    the connection and ends with the exit status 0. *)
Theorem cancel_skips_the_write (w : world) (a : args) (ets hd : string)
    (info : processed_info) (df : dataframe)
    (invalid : list string) (c : string) (rest : list string) :
  reaches_save w a ets hd info df ->
  path_exists (files w) (output_path a hd) = true ->
  arg_overwrite a = false ->
  forallb is_invalid invalid = true ->
  is_cancel c = true ->
  (forall st,
     stdin st = (invalid ++ c :: rest)%list ->
     exists st',
       handle_file_conflict w (output_path a hd) false st
       = (Returned (output_path a hd, false), st')
       /\ stdin st' = rest)
  /\ (exists before,
        main w a (initial (invalid ++ c :: rest))
        = (Returned 0,
           {| trace := (before ++ Print cancelled_message :: closing)%list;
              stdin := rest; connected := false |})
        /\ existsb is_write (before ++ Print cancelled_message :: closing)
           = false)
  /\ (forall path, cancelled_message <> success_message path).
Proof.
  intros Hreach Hex How Hinv Hc. split; [| split].
  - intros st Hst.
    destruct (handle_file_conflict_cancel w _ invalid c rest st Hex Hinv Hc Hst)
      as (banner & _ & Hh).
    eexists. split; [exact Hh | reflexivity].
  - destruct (main_reaches_save w a ets hd info df (invalid ++ c :: rest) Hreach)
      as (evs & Hevs & Hmain).
    rewrite How in Hmain.
    destruct (save_dataframe_cancel w df (arg_symbol a) (arg_timeframe a)
                (output_path a hd) (arg_timezone a) invalid c rest
                {| trace := evs; stdin := (invalid ++ c :: rest)%list;
                   connected := true |} Hex Hinv Hc eq_refl)
      as (evs2 & Hevs2 & Hsave).
    exists (evs ++ evs2)%list. split.
    + rewrite (Hmain _ Hsave eq_refl). simpl.
      now rewrite <- !List.app_assoc.
    + rewrite !existsb_app, Hevs, Hevs2. reflexivity.
  - intros path H. discriminate.
Qed.

(** The theorem in the sample environment: the generated file
    [SPY_STK_1Y_1d_OHLCV.csv] exists, and the user types ["x"] and then
    [" c "]. *)
Lemma cancel_skips_the_write_witness :
  exists before,
    main sample_world (sample_args None None None) (initial ["x"; " c "])
    = (Returned 0,
       {| trace := (before ++ Print cancelled_message :: closing)%list;
          stdin := []; connected := false |})
    /\ existsb is_write (before ++ Print cancelled_message :: closing) = false.
Proof.
  refine (proj1 (proj2 (cancel_skips_the_write sample_world
    (sample_args None None None) "20261103 16:00:00" "1 Y" (duration_only "1 Y")
    {| df_date := object sample_column;
       df_rows := map bar_ohlcv
         [sample_bar (cell_str "2024-01-02 10:00:00");
          sample_bar (cell_str "garbage")] |}
    ["x"] " c " [] _ eq_refl eq_refl eq_refl eq_refl))).
  constructor; try reflexivity.
  - discriminate.
  - do 2 eexists. split; reflexivity.
Defined.

End RunProps.

(** ** More on the request-window resolver *)

Module ResolverMore.

Import PyDatetime Strptime Resolver Spec Notions DateFacts ResolverProps.

(** X1. An empty date string is an absent date: the resolver gives the
    same result, dictionary included, for [''] and for [None], as the start
    and as the end. *)
Theorem empty_date_is_absent (other : option string) (dur : string)
    (ext : bool) (now : datetime) :
  process_date_arguments (Some "") other dur ext now
  = process_date_arguments None other dur ext now
  /\ process_date_arguments other (Some "") dur ext now
     = process_date_arguments other None dur ext now.
Proof. split; reflexivity. Qed.

(** X2. With a start date given (a string that is not empty), the default
    duration has no influence on the result: the duration comes from the
    dates, or is ["1 D"]. *)
Theorem start_date_overrides_duration (s : string) (end_date_str : option string)
    (dur dur' : string) (ext : bool) (now : datetime) :
  s <> "" ->
  process_date_arguments (Some s) end_date_str dur ext now
  = process_date_arguments (Some s) end_date_str dur' ext now.
Proof.
  intros Hs. unfold process_date_arguments.
  rewrite parse_if_given_Some.
  destruct (parse_date_string s) as [e|[sd|]] eqn:Hp; [reflexivity | |].
  - destruct (parse_if_given end_date_str) as [e|[ed|]]; reflexivity.
  - exfalso. unfold parse_date_string in Hp.
    destruct (String.eqb_spec s ""); [contradiction |].
    destruct (try_formats s formats); discriminate.
Qed.

Lemma start_date_overrides_duration_witness :
  process_date_arguments (Some "2024-01-15") None "6 M" false sample_now
  = process_date_arguments (Some "2024-01-15") None "2 Y" false sample_now.
Proof.
  apply (start_date_overrides_duration "2024-01-15" None "6 M" "2 Y" false
           sample_now).
  discriminate.
Defined.

(** X3. The clock is read only when neither date is given: with a start or
    an end date (a string that is not empty) the result is the same at
    every instant. *)
Theorem clock_only_without_dates (start_date_str end_date_str : option string)
    (dur : string) (ext : bool) (now now' : datetime) :
  Pipeline.truthy start_date_str || Pipeline.truthy end_date_str = true ->
  process_date_arguments start_date_str end_date_str dur ext now
  = process_date_arguments start_date_str end_date_str dur ext now'.
Proof.
  intros H. unfold process_date_arguments.
  destruct (parse_if_given start_date_str) as [e|[sd|]] eqn:Hs; [reflexivity | |];
    destruct (parse_if_given end_date_str) as [e|[ed|]] eqn:He;
    try reflexivity.
  exfalso.
  assert (Hn : forall o, parse_if_given o = Ok None -> Pipeline.truthy o = false).
  { intros [x|] Ho; [| reflexivity]. simpl.
    unfold parse_if_given, parse_date_string in Ho.
    destruct (String.eqb x ""); [reflexivity |].
    destruct (try_formats x formats); discriminate. }
  rewrite (Hn _ Hs), (Hn _ He) in H. discriminate.
Qed.

Lemma clock_only_without_dates_witness :
  process_date_arguments None (Some "2024-12-31") "30 D" true sample_now
  = process_date_arguments None (Some "2024-12-31") "30 D" true
      (mk_datetime 2030 1 1 0 0 0 0).
Proof.
  apply (clock_only_without_dates None (Some "2024-12-31") "30 D" true).
  reflexivity.
Defined.

End ResolverMore.

Module ResolverErrors.

Import PyDatetime Strptime Resolver Pipeline Run Spec Notions DateFacts
  ResolverProps RunProps.

(** The only error of [parse_date_string] is the format error of its
    argument. *)
Lemma parse_error (s : string) (err : exn) :
  parse_date_string s = Raise err -> err = format_error s.
Proof.
  unfold parse_date_string, formats, try_formats.
  destruct (String.eqb s ""); [discriminate |].
  destruct (strptime s Fmt_Ymd_HMS); [discriminate |].
  destruct (strptime s Fmt_Ymd_HM); [discriminate |].
  destruct (strptime s Fmt_Ymd); [discriminate |].
  simpl. now intros [= <-].
Qed.

(** A [ValueError] of the resolver is printed, and nothing else happens. *)
Lemma fetch_value_error (w : world)
    (symbol timeframe duration output_filename : option string)
    (overwrite : bool) (timezone_choice : string)
    (start_date end_date : option string) (ext : bool) (msg : string)
    (st : state) :
  process_date_arguments start_date end_date
    (default Config.HISTORY_DURATION duration) ext (clock w)
  = Raise (ValueError msg) ->
  fetch_and_save_historical_data w symbol timeframe duration output_filename
    overwrite timezone_choice start_date end_date ext st
  = (Returned tt, log [Print ("ERROR: " ++ msg)] st).
Proof.
  intros H. unfold fetch_and_save_historical_data. rewrite H. reflexivity.
Qed.

(** X4. A date string that is not empty and matches none of the three
    formats makes the resolver raise [ValueError] with the message
    "Invalid date format: ...", for the start date whatever the end date
    is, and for the end date when the start date is absent or parses. The
    run then prints the error and ends with status 0 without any
    interaction with the broker. *)
Theorem malformed_date_aborts_before_network (w : world) (a : args)
    (s : string) (err : exn) (keyboard : list string) :
  parse_date_string s = Raise err ->
  arg_start_date a = Some s
  \/ (arg_end_date a = Some s
      /\ exists sd, parse_if_given (arg_start_date a) = Ok sd) ->
  err = format_error s
  /\ process_date_arguments (arg_start_date a) (arg_end_date a)
       (arg_duration a) (arg_eth a) (clock w) = Raise (format_error s)
  /\ exists header,
       main w a (initial keyboard)
       = (Returned 0,
          log (header ++ [Print ("ERROR: " ++ exn_str (format_error s))])
            (initial keyboard))
       /\ forallb is_print header = true
       /\ existsb is_network
            (header ++ [Print ("ERROR: " ++ exn_str (format_error s))])
          = false.
Proof.
  intros Hp Hwhere. pose proof (parse_error s err Hp) as ->.
  assert (Hproc : process_date_arguments (arg_start_date a) (arg_end_date a)
            (arg_duration a) (arg_eth a) (clock w) = Raise (format_error s)).
  { unfold process_date_arguments.
    destruct Hwhere as [-> | (-> & sd & ->)].
    - rewrite parse_if_given_Some, Hp. reflexivity.
    - rewrite parse_if_given_Some, Hp. reflexivity. }
  split; [reflexivity |]. split; [exact Hproc |].
  destruct (main_header w a) as (header & Hh & Hmain).
  exists header. rewrite Hmain. split; [| split].
  - unfold try_except, mbind, M_bind.
    rewrite (fetch_value_error w (Some (arg_symbol a)) (Some (arg_timeframe a))
               (Some (arg_duration a)) (arg_output a) (arg_overwrite a)
               (arg_timezone a) (arg_start_date a) (arg_end_date a) (arg_eth a)
               (exn_str (format_error s)) _ Hproc).
    rewrite log_log. reflexivity.
  - exact Hh.
  - apply no_network_in_prints. rewrite forallb_app, Hh. reflexivity.
Qed.

(** The theorem for the start date "01/15/2024". *)
Lemma malformed_date_aborts_before_network_witness :
  process_date_arguments (Some "01/15/2024") None "1 Y" false sample_now
  = Raise (format_error "01/15/2024").
Proof.
  exact (proj1 (proj2 (malformed_date_aborts_before_network sample_world
    (sample_args (Some "01/15/2024") None None) "01/15/2024"
    (format_error "01/15/2024") [] eq_refl (or_introl eq_refl)))).
Defined.

Lemma parse_if_given_error (o : option string) (err : exn) :
  parse_if_given o = Raise err -> exists s, o = Some s /\ err = format_error s.
Proof.
  destruct o as [s|]; [| discriminate]. rewrite parse_if_given_Some.
  intros H. exists s. split; [reflexivity | now apply parse_error].
Qed.

Lemma format_ibkr_datetime_error (ext : bool) (d : datetime) (b : bool)
    (err : exn) :
  format_ibkr_datetime ext d b = Raise err ->
  ext = true /\ err = OverflowError "date value out of range".
Proof.
  unfold format_ibkr_datetime, add_one_day.
  destruct b; [discriminate |]. destruct ext; [| discriminate].
  destruct (if day d + 1 <=? _ then _ else _) as [[y m] dd].
  destruct (_ && _); [discriminate |]. simpl. now intros [= <-].
Qed.

(** X5. The errors of the resolver are three: the format error of a
    date string that was given, the [ValueError] for a start after the
    end, and, only with extended hours, the [OverflowError] of the day
    after the last day of the calendar. *)
Theorem resolver_errors (start_date_str end_date_str : option string)
    (dur : string) (ext : bool) (now : datetime) (err : exn) :
  process_date_arguments start_date_str end_date_str dur ext now = Raise err ->
  (exists s, (start_date_str = Some s \/ end_date_str = Some s)
             /\ err = format_error s)
  \/ err = ValueError range_error_message
  \/ (ext = true /\ err = OverflowError "date value out of range").
Proof.
  unfold process_date_arguments.
  destruct (parse_if_given start_date_str) as [e1 | sd] eqn:Hs.
  { intros [= <-]. left. apply parse_if_given_error in Hs as (s & -> & ->).
    exists s. split; [now left | reflexivity]. }
  destruct (parse_if_given end_date_str) as [e2 | ed] eqn:He.
  { intros [= <-]. left. apply parse_if_given_error in He as (s & -> & ->).
    exists s. split; [now right | reflexivity]. }
  unfold rbind, Ok, Raise. cbv beta iota zeta.
  destruct sd as [sd|], ed as [ed|];
    try (destruct (gt sd ed); [intros [= <-]; right; now left |]);
    cbv beta iota zeta;
    repeat match goal with
    | |- context [if ?b then _ else _] => destruct b
    end; cbv beta iota zeta;
    match goal with
    | |- context [format_ibkr_datetime ?e ?x ?b] =>
        destruct (format_ibkr_datetime e x b) as [e3 | ts] eqn:Hf
    end; try discriminate;
    intros [= <-]; right; right;
    exact (format_ibkr_datetime_error _ _ _ _ Hf).
Qed.

(** The theorem for the last day of the calendar with extended hours. *)
Lemma resolver_errors_witness :
  (exists s, (None = Some s \/ Some "9999-12-31" = Some s)
             /\ OverflowError "date value out of range" = format_error s)
  \/ OverflowError "date value out of range" = ValueError range_error_message
  \/ (true = true
      /\ OverflowError "date value out of range"
         = OverflowError "date value out of range").
Proof.
  apply (resolver_errors None (Some "9999-12-31") "1 Y" true sample_now).
  reflexivity.
Defined.

End ResolverErrors.

(** ** The order of dates and the number of days *)

Module DateOrder.

Import PyDatetime Strptime Resolver Spec Notions DateFacts ResolverProps.

Lemma month_cases (m : Z) :
  1 <= m <= 12 ->
  m = 1 \/ m = 2 \/ m = 3 \/ m = 4 \/ m = 5 \/ m = 6 \/ m = 7 \/ m = 8
  \/ m = 9 \/ m = 10 \/ m = 11 \/ m = 12.
Proof. lia. Qed.

(** The day of the year of a valid date. *)
Lemma day_of_year_bound (y m d : Z) :
  valid_date y m d = true ->
  1 <= days_before_month y m + d <= 365 + (if is_leap y then 1 else 0).
Proof.
  unfold valid_date. intros H. to_prop.
  assert (Hm : 1 <= m <= 12) by lia. apply month_cases in Hm.
  unfold days_before_month, days_in_month in *.
  repeat (destruct Hm as [-> | Hm]); try subst m; simpl in *;
    destruct (is_leap y); lia.
Qed.

Lemma days_before_year_mono (y1 y2 : Z) :
  y1 <= y2 -> days_before_year y1 <= days_before_year y2.
Proof.
  intros H. unfold days_before_year. Z.div_mod_to_equations. lia.
Qed.

Lemma days_before_month_mono (y m1 m2 : Z) :
  1 <= m1 -> m1 < m2 -> m2 <= 12 ->
  days_before_month y m1 + days_in_month y m1 <= days_before_month y m2.
Proof.
  intros H1 H12 H2.
  assert (Hc1 : 1 <= m1 <= 12) by lia. assert (Hc2 : 1 <= m2 <= 12) by lia.
  apply month_cases in Hc1, Hc2.
  unfold days_before_month, days_in_month.
  repeat (destruct Hc1 as [-> | Hc1]); try subst m1;
    repeat (destruct Hc2 as [-> | Hc2]); try subst m2;
    try lia; simpl; destruct (is_leap y); lia.
Qed.

(** An earlier calendar date has a smaller ordinal. *)
Lemma toordinal_lt (a b : datetime) :
  valid a = true -> valid b = true ->
  year a < year b
  \/ (year a = year b /\ (month a < month b
                         \/ (month a = month b /\ day a < day b))) ->
  toordinal a < toordinal b.
Proof.
  intros Ha Hb H. unfold valid in *.
  apply andb_prop in Ha as [Ha _]. apply andb_prop in Hb as [Hb _].
  pose proof (day_of_year_bound _ _ _ Ha) as Ba.
  pose proof (day_of_year_bound _ _ _ Hb) as Bb.
  unfold toordinal. destruct H as [Hy | (Hy & [Hm | (Hm & Hd)])].
  - pose proof (days_before_next_year (year a)) as Hn.
    pose proof (days_before_year_mono (year a + 1) (year b)) as Hmono.
    lia.
  - rewrite Hy in *. unfold valid_date in Ha, Hb. to_prop.
    pose proof (days_before_month_mono (year b) (month a) (month b)) as Hmono.
    lia.
  - rewrite Hy, Hm. lia.
Qed.

(** The comparison of the library, by ordinal and time of day. *)
Lemma not_gt_order (a b : datetime) :
  valid a = true -> valid b = true -> gt a b = false ->
  toordinal a < toordinal b
  \/ (toordinal a = toordinal b /\ time_of_day a <= time_of_day b).
Proof.
  intros Ha Hb Hgt.
  assert (Hta : valid_time (hour a) (minute a) (second a) (microsecond a) = true)
    by (unfold valid in Ha; now apply andb_prop in Ha as [_ ?]).
  assert (Htb : valid_time (hour b) (minute b) (second b) (microsecond b) = true)
    by (unfold valid in Hb; now apply andb_prop in Hb as [_ ?]).
  unfold valid_time in Hta, Htb. to_prop.
  unfold gt, compare in Hgt.
  destruct (Z.compare_spec (year a) (year b)) as [Hy|Hy|Hy];
    [| left; apply toordinal_lt; auto | discriminate].
  destruct (Z.compare_spec (month a) (month b)) as [Hm|Hm|Hm];
    [| left; apply toordinal_lt; auto | discriminate].
  destruct (Z.compare_spec (day a) (day b)) as [Hd|Hd|Hd];
    [| left; apply toordinal_lt; auto | discriminate].
  right. split; [unfold toordinal; now rewrite Hy, Hm, Hd |].
  unfold time_of_day, seconds_of_day.
  destruct (Z.compare_spec (hour a) (hour b)) as [Hh|Hh|Hh];
    [| lia | discriminate].
  destruct (Z.compare_spec (minute a) (minute b)) as [Hmi|Hmi|Hmi];
    [| lia | discriminate].
  destruct (Z.compare_spec (second a) (second b)) as [Hs|Hs|Hs];
    [| lia | discriminate].
  destruct (Z.compare_spec (microsecond a) (microsecond b)) as [Hu|Hu|Hu];
    [lia | lia | discriminate].
Qed.

Lemma counted_days_positive (s e : datetime) :
  valid s = true -> valid e = true -> gt s e = false ->
  1 <= counted_days s e.
Proof.
  intros Hs He Hgt. unfold counted_days, inclusive_calendar_days.
  destruct (not_gt_order s e Hs He Hgt) as [Hlt | [Heq Ht]].
  - destruct (time_of_day e <? time_of_day s); lia.
  - destruct (time_of_day e <? time_of_day s) eqn:E; [| lia].
    apply Z.ltb_lt in E. lia.
Qed.

(** X6. For two dates that parse, the start not after the end, the
    duration that the resolver returns is a positive number of days, at most
    365, followed by [" D"], or a positive number of years followed by
    [" Y"]: never zero or negative. *)
Theorem date_range_duration_positive (s e dur : string) (ext : bool)
    (now ds de : datetime) :
  parse_date_string s = Ok (Some ds) ->
  parse_date_string e = Ok (Some de) ->
  le ds de = true ->
  (ext = true -> time_is_not_midnight de = false -> is_last_day de = false) ->
  exists ts d info n,
    process_date_arguments (Some s) (Some e) dur ext now = Ok (ts, d, info)
    /\ 1 <= n
    /\ ((n <= 365 /\ d = PyStr.of_Z n ++ " D") \/ d = PyStr.of_Z n ++ " Y").
Proof.
  intros Hs He Hle Hlast.
  destruct (parse_date_string_valid _ _ Hs) as [Hvs _].
  destruct (parse_date_string_valid _ _ He) as [Hve _].
  assert (Hgt : gt ds de = false) by (unfold le in Hle; now apply negb_true_iff).
  pose proof (counted_days_positive ds de Hvs Hve Hgt) as Hpos.
  rewrite (process_parsed (Some s) (Some e) dur ext now (Some ds) (Some de));
    try (rewrite parse_if_given_Some; assumption); [| exact Hgt].
  cbv zeta. rewrite (sub_days ds de Hvs Hve).
  assert (Hts : exists ts,
            format_ibkr_datetime ext de (time_is_not_midnight de) = Ok ts).
  { destruct (time_is_not_midnight de) eqn:Ht; [eexists; reflexivity |].
    destruct (format_without_time ext de Hve) as (ts & Hts & _); eauto. }
  destruct Hts as (ts & ->). simpl rbind.
  unfold duration_string.
  destruct (counted_days ds de <=? 365) eqn:E.
  - apply Z.leb_le in E. do 3 eexists. exists (counted_days ds de).
    split; [reflexivity |]. split; [exact Hpos |]. left. split; [exact E | reflexivity].
  - apply Z.leb_gt in E. do 3 eexists. exists (counted_days ds de / 365).
    split; [reflexivity |]. split; [| right; reflexivity].
    apply Z.div_le_lower_bound; lia.
Qed.

(** The theorem for a range within one day. *)
Lemma date_range_duration_positive_witness :
  exists ts d info n,
    process_date_arguments (Some "2024-01-15 09:30") (Some "2024-01-15 16:00")
      "1 Y" false sample_now = Ok (ts, d, info)
    /\ 1 <= n
    /\ ((n <= 365 /\ d = PyStr.of_Z n ++ " D") \/ d = PyStr.of_Z n ++ " Y").
Proof.
  apply (date_range_duration_positive "2024-01-15 09:30" "2024-01-15 16:00"
    "1 Y" false sample_now
    (mk_datetime 2024 1 15 9 30 0 0) (mk_datetime 2024 1 15 16 0 0 0));
    [reflexivity | reflexivity | reflexivity | intros H; discriminate H].
Defined.

End DateOrder.

(** ** The shape of the end timestamp *)

Module TimestampShape.

Import PyDatetime Strptime Resolver Spec Notions DateFacts ResolverProps.

Lemma forallb_seqZ (f : Z -> bool) (lo len n : Z) :
  forallb f (seqZ lo len) = true -> lo <= n < lo + len -> f n = true.
Proof.
  intros H Hn. rewrite forallb_forall in H. apply H.
  apply list_elem_of_In, elem_of_seqZ. exact Hn.
Qed.

Lemma two_digits (n : Z) : 0 <= n <= 99 -> two_digits_ok n = true.
Proof.
  intros H. apply (forallb_seqZ two_digits_ok 0 100); [| lia].
  vm_compute. reflexivity.
Qed.

Lemma four_digits (n : Z) : 0 <= n <= 9999 -> four_digits_ok n = true.
Proof.
  intros H. apply (forallb_seqZ four_digits_ok 0 10000); [| lia].
  vm_compute. reflexivity.
Qed.

Lemma pad2_digits (n : Z) :
  0 <= n <= 99 ->
  exists a b,
    pad 2 n = String a (String b "")
    /\ PyStr.is_digit a = true /\ PyStr.is_digit b = true
    /\ 10 * PyStr.digit_val a + PyStr.digit_val b = n.
Proof.
  intros H. apply two_digits in H. unfold two_digits_ok in H.
  destruct (pad 2 n) as [|a [|b [|]]]; try discriminate.
  apply andb_prop in H as [H Hv]. apply andb_prop in H as [Ha Hb].
  apply Z.eqb_eq in Hv. eauto 6.
Qed.

Lemma pad4_digits (n : Z) :
  0 <= n <= 9999 ->
  exists a b c d,
    pad 4 n = String a (String b (String c (String d "")))
    /\ PyStr.is_digit a = true /\ PyStr.is_digit b = true
    /\ PyStr.is_digit c = true /\ PyStr.is_digit d = true
    /\ 1000 * PyStr.digit_val a + 100 * PyStr.digit_val b
       + 10 * PyStr.digit_val c + PyStr.digit_val d = n.
Proof.
  intros H. apply four_digits in H. unfold four_digits_ok in H.
  destruct (pad 4 n) as [|a [|b [|c [|d [|]]]]]; try discriminate.
  apply andb_prop in H as [H Hv]. apply andb_prop in H as [H Hd].
  apply andb_prop in H as [H Hc]. apply andb_prop in H as [Ha Hb].
  apply Z.eqb_eq in Hv. exists a, b, c, d. auto 7.
Qed.

(** The timestamp of a valid datetime has the shape of the provider. *)
Lemma strftime_ibkr_shape (d : datetime) :
  valid d = true -> ibkr_shape (strftime_ibkr d) = true.
Proof.
  intros Hv. unfold valid, valid_date, valid_time, MINYEAR, MAXYEAR in Hv.
  to_prop.
  assert (Hdim : days_in_month (year d) (month d) <= 31).
  { unfold days_in_month. destruct (month d) as [|[p|p|]|]; try lia;
      repeat (destruct p as [p|p|]; try lia); destruct (is_leap (year d)); lia. }
  unfold strftime_ibkr.
  destruct (pad4_digits (year d)) as (y1 & y2 & y3 & y4 & -> & ? & ? & ? & ? & _);
    [lia |].
  destruct (pad2_digits (month d)) as (m1 & m2 & -> & ? & ? & _); [lia |].
  destruct (pad2_digits (day d)) as (d1 & d2 & -> & ? & ? & _); [lia |].
  destruct (pad2_digits (hour d)) as (h1 & h2 & -> & ? & ? & _); [lia |].
  destruct (pad2_digits (minute d)) as (i1 & i2 & -> & ? & ? & _); [lia |].
  destruct (pad2_digits (second d)) as (s1 & s2 & -> & ? & ? & _); [lia |].
  cbv -[PyStr.is_digit].
  repeat match goal with H : PyStr.is_digit _ = true |- _ => rewrite H; clear H end.
  reflexivity.
Qed.

Lemma format_ibkr_datetime_shape (ext : bool) (d : datetime) (b : bool)
    (ts : string) :
  valid d = true -> format_ibkr_datetime ext d b = Ok ts ->
  ibkr_shape ts = true.
Proof.
  intros Hv. unfold format_ibkr_datetime. destruct b; [| destruct ext].
  - intros [= <-]. now apply strftime_ibkr_shape.
  - destruct (is_last_day d) eqn:Hl.
    + rewrite (add_one_day_overflow d Hv Hl). discriminate.
    + destruct (add_one_day_following d Hv Hl)
        as (n & -> & [Hn _] & _ & _ & _ & Hus).
      simpl. intros [= <-]. apply strftime_ibkr_shape.
      unfold valid, replace_hms. simpl. rewrite Hn, Hus.
      unfold valid in Hv. apply andb_prop in Hv as [_ Ht].
      unfold valid_time in *. to_prop. lia.
  - intros [= <-]. apply strftime_ibkr_shape.
    unfold valid in *. apply andb_prop in Hv as [Hd Ht].
    unfold replace_hms. simpl. rewrite Hd.
    unfold valid_time in *. to_prop. lia.
Qed.

(** X7. Every end timestamp that the resolver returns has the shape
    [YYYYMMDD HH:MM:SS] of the provider: seventeen characters, digits
    except for the space and the two colons. (The year of the anchor date
    is taken from 1000 on, where every platform writes it in four
    digits.) *)
Theorem end_timestamp_shape (start_date_str end_date_str : option string)
    (dur : string) (ext : bool) (now : datetime) (sd ed : option datetime)
    (a : datetime) (from_input : bool) (ts d : string) (info : processed_info) :
  parse_if_given start_date_str = Ok sd ->
  parse_if_given end_date_str = Ok ed ->
  valid now = true ->
  anchor now sd ed = (a, from_input) ->
  1000 <= year a ->
  process_date_arguments start_date_str end_date_str dur ext now
  = Ok (ts, d, info) ->
  ibkr_shape ts = true /\ String.length ts = 17%nat.
Proof.
  intros Hs He Hnow Ha _ Hp.
  assert (Hshape : ibkr_shape ts = true).
  { assert (Ho : in_order sd ed).
    { destruct sd as [x|], ed as [y|]; simpl; auto.
      destruct (gt x y) eqn:Hgt; [| reflexivity].
      unfold process_date_arguments in Hp. rewrite Hs, He in Hp.
      simpl in Hp. rewrite Hgt in Hp. discriminate. }
    rewrite (process_parsed _ _ dur ext now sd ed Hs He Ho) in Hp.
    assert (Hv : forall o x, parse_if_given o = Ok (Some x) -> valid x = true)
      by (intros o x H; exact (proj1 (parse_if_given_valid o x H))).
    destruct sd as [x|], ed as [y|]; cbv zeta in Hp;
      match type of Hp with
      | rbind ?f _ = _ => destruct f as [err|ts'] eqn:Hf; [discriminate |]
      end;
      simpl in Hp; injection Hp as <- _ _.
    - eapply format_ibkr_datetime_shape; [| exact Hf]. eauto.
    - destruct (negb (time_is_not_midnight x) && negb ext);
        (eapply format_ibkr_datetime_shape; [| exact Hf]).
      + pose proof (Hv _ _ Hs) as Hx. unfold valid in *.
        apply andb_prop in Hx as [Hd Ht]. unfold replace_hms. simpl.
        rewrite Hd. unfold valid_time in *. to_prop. lia.
      + eauto.
    - eapply format_ibkr_datetime_shape; [| exact Hf]. eauto.
    - eapply format_ibkr_datetime_shape; [| exact Hf]. exact Hnow. }
  split; [exact Hshape |].
  unfold ibkr_shape in Hshape.
  rewrite <- (string_of_list_ascii_of_string ts).
  destruct (list_ascii_of_string ts) as
    [|? [|? [|? [|? [|? [|? [|? [|? [|? [|? [|? [|? [|? [|? [|? [|? [|? [|]]]]]]]]]]]]]]]]]];
    try discriminate. reflexivity.
Qed.

(** The theorem for the single day 2024-01-15, extended session. *)
Lemma end_timestamp_shape_witness :
  ibkr_shape "20240116 02:00:00" = true
  /\ String.length "20240116 02:00:00" = 17%nat.
Proof.
  exact (end_timestamp_shape (Some "2024-01-15") None "1 Y" true sample_now
    (Some (mk_datetime 2024 1 15 0 0 0 0)) None (mk_datetime 2024 1 15 0 0 0 0)
    true "20240116 02:00:00" "1 D" (single_day "2024-01-15" "1 D")
    eq_refl eq_refl eq_refl eq_refl ltac:(simpl; lia) eq_refl).
Defined.

End TimestampShape.

(** ** Formatting and parsing back *)

Module RoundTrip.

Import PyDatetime Strptime Resolver Spec Notions DateFacts ResolverProps
  TimestampShape StrFacts.

(** One case of a two-digit field: the candidates of the field are
    computed, and those that leave a digit are dropped by the continuation. *)
Ltac field_case K Hf :=
  unfold re_bind;
  match goal with
  | |- flat_map ?f ?l = _ =>
      let l' := eval vm_compute in l in change l with l'
  end;
  cbn [flat_map]; cbv beta iota;
  repeat match goal with
         | |- context [K ?x (String ?c ?r)] => rewrite (Hf x c r eq_refl)
         end;
  rewrite ?List.app_nil_r; reflexivity.

(** Case analysis on a number below a bound, for a goal over [Z.of_nat k]. *)
Ltac below_cases k K Hf :=
  repeat (destruct k as [|k]; [first [lia | field_case K Hf] | try lia]).

(** The same for the last field of a format, whose continuation accepts
    every rest: the first candidate is the one of the two digits. *)
Ltac head_case :=
  unfold re_bind;
  match goal with
  | |- exists tl, flat_map ?f ?l = _ =>
      let l' := eval vm_compute in l in change l with l'
  end;
  cbn [flat_map]; cbv beta iota; eexists; reflexivity.

Ltac below_heads k :=
  repeat (destruct k as [|k]; [first [lia | head_case] | try lia]).

Ltac to_nat_cases n H k :=
  replace n with (Z.of_nat (Z.to_nat n)) by lia;
  generalize dependent (Z.to_nat n); clear H; intros k H.

Lemma app_nil_r (a : string) : a ++ "" = a.
Proof. string_induction a; [reflexivity | now rewrite IH]. Qed.

Lemma digit_not_space (c : ascii) :
  PyStr.is_digit c = true -> PyStr.is_space c = false.
Proof.
  unfold PyStr.is_digit, PyStr.is_space. cbv zeta. intros H.
  apply andb_prop in H as [H1 H2].
  apply Nat.leb_le in H1. apply Nat.leb_le in H2.
  apply orb_false_iff. split; apply andb_false_iff.
  - right. apply Nat.leb_gt. lia.
  - right. apply Nat.leb_gt. lia.
Qed.

Lemma digit_not_lit (l c : ascii) :
  PyStr.is_digit l = false -> PyStr.is_digit c = true -> Ascii.eqb l c = false.
Proof.
  intros Hl Hc. destruct (Ascii.eqb_spec l c) as [-> |]; [congruence | reflexivity].
Qed.

Lemma re_bind_assoc {A B C : Type} (p : re A) (f : A -> re B) (g : B -> re C)
    (s : string) :
  re_bind (re_bind p f) g s = re_bind p (fun x => re_bind (f x) g) s.
Proof.
  unfold re_bind. induction (p s) as [|[a r] l IH]; simpl; [reflexivity |].
  now rewrite flat_map_app, IH.
Qed.

Lemma re_bind_ext {A B : Type} (p : re A) (f g : A -> re B) (s : string) :
  (forall x r, f x r = g x r) -> re_bind p f s = re_bind p g s.
Proof.
  intros H. unfold re_bind. induction (p s) as [|[a r] l IH]; simpl;
    [reflexivity | now rewrite H, IH].
Qed.

Lemma re_bind_ret {A B : Type} (a : A) (g : A -> re B) (s : string) :
  re_bind (re_ret a) g s = g a s.
Proof. unfold re_bind, re_ret. simpl. apply List.app_nil_r. Qed.

Lemma lit_here {B : Type} (l : ascii) (K : ascii -> re B) (rest : string) :
  re_bind (lit l) K (String l "" ++ rest) = K l rest.
Proof.
  rewrite app_cons, app_nil_l. unfold re_bind, lit, class.
  rewrite Ascii.eqb_refl. simpl. apply List.app_nil_r.
Qed.

Lemma lit_fails {B : Type} (l c : ascii) (K : ascii -> re B) (r : string) :
  PyStr.is_digit l = false -> PyStr.is_digit c = true ->
  re_bind (lit l) K (String c r) = [].
Proof.
  intros Hl Hc. unfold re_bind, lit, class.
  now rewrite (digit_not_lit l c Hl Hc).
Qed.

Lemma spaces_fail {B : Type} (c : ascii) (K : unit -> re B) (r : string) :
  PyStr.is_digit c = true -> re_bind spaces1 K (String c r) = [].
Proof.
  intros Hc. unfold re_bind. simpl. now rewrite (digit_not_space c Hc).
Qed.

Lemma spaces_end {B : Type} (K : unit -> re B) : re_bind spaces1 K "" = [].
Proof. reflexivity. Qed.

(** One space before a two-digit number is the whole of [\s+]. *)
Lemma spaces_here {B : Type} (K : unit -> re B) (n : Z) (rest : string) :
  0 <= n <= 99 ->
  re_bind spaces1 K (" " ++ pad 2 n ++ rest) = K tt (pad 2 n ++ rest).
Proof.
  intros H. destruct (pad2_digits n H) as (a & b & -> & Ha & _).
  rewrite !app_cons, !app_nil_l. unfold re_bind. simpl.
  rewrite (digit_not_space a Ha). simpl. apply List.app_nil_r.
Qed.

Section Fields.

Context {B : Type} (K : Z -> re B).

Lemma field_Y (n : Z) (rest : string) :
  0 <= n <= 9999 -> re_bind re_Y K (pad 4 n ++ rest) = K n rest.
Proof.
  intros H.
  destruct (pad4_digits n H) as (a & b & c & d & -> & Ha & Hb & Hc & Hd & <-).
  rewrite !app_cons, app_nil_l.
  unfold re_Y, re_bind, digit, class, re_ret. simpl.
  rewrite Ha. simpl. rewrite Hb. simpl. rewrite Hc. simpl. rewrite Hd. simpl.
  now rewrite !List.app_nil_r.
Qed.

Lemma head_d (n : Z) :
  1 <= n <= 31 -> exists tl, re_bind re_d K (pad 2 n) = (K n "" ++ tl)%list.
Proof.
  intros H. assert (Hk : (1 <= Z.to_nat n < 32)%nat) by lia.
  to_nat_cases n H k. below_heads k.
Qed.

Lemma head_M (n : Z) :
  0 <= n <= 59 -> exists tl, re_bind re_M K (pad 2 n) = (K n "" ++ tl)%list.
Proof.
  intros H. assert (Hk : (Z.to_nat n < 60)%nat) by lia.
  to_nat_cases n H k. below_heads k.
Qed.

Lemma head_S (n : Z) :
  0 <= n <= 59 -> exists tl, re_bind re_S K (pad 2 n) = (K n "" ++ tl)%list.
Proof.
  intros H. assert (Hk : (Z.to_nat n < 60)%nat) by lia.
  to_nat_cases n H k. below_heads k.
Qed.

Hypothesis Hf : fails_on_digit K.

Lemma field_m (n : Z) (rest : string) :
  1 <= n <= 12 -> re_bind re_m K (pad 2 n ++ rest) = K n rest.
Proof using Hf.
  intros H. assert (Hk : (1 <= Z.to_nat n < 13)%nat) by lia.
  to_nat_cases n H k. below_cases k K Hf.
Qed.

Lemma field_d (n : Z) (rest : string) :
  1 <= n <= 31 -> re_bind re_d K (pad 2 n ++ rest) = K n rest.
Proof using Hf.
  intros H. assert (Hk : (1 <= Z.to_nat n < 32)%nat) by lia.
  to_nat_cases n H k. below_cases k K Hf.
Qed.

Lemma field_H (n : Z) (rest : string) :
  0 <= n <= 23 -> re_bind re_H K (pad 2 n ++ rest) = K n rest.
Proof using Hf.
  intros H. assert (Hk : (Z.to_nat n < 24)%nat) by lia.
  to_nat_cases n H k. below_cases k K Hf.
Qed.

Lemma field_M (n : Z) (rest : string) :
  0 <= n <= 59 -> re_bind re_M K (pad 2 n ++ rest) = K n rest.
Proof using Hf.
  intros H. assert (Hk : (Z.to_nat n < 60)%nat) by lia.
  to_nat_cases n H k. below_cases k K Hf.
Qed.

End Fields.

(** The date part of a format, on a date as [strftime] writes it. *)
Lemma date_prefix {B : Type} (G : Z * Z * Z -> re B) (y m : Z) (s : string) :
  0 <= y <= 9999 -> 1 <= m <= 12 ->
  re_bind re_date G (pad 4 y ++ "-" ++ pad 2 m ++ "-" ++ s)
  = re_bind re_d (fun d => G (y, m, d)) s.
Proof.
  intros Hy Hm. unfold re_date.
  rewrite re_bind_assoc, field_Y by exact Hy.
  rewrite re_bind_assoc, lit_here.
  rewrite re_bind_assoc, field_m; [| | exact Hm].
  - rewrite re_bind_assoc, lit_here. rewrite re_bind_assoc.
    apply re_bind_ext. intros d r. apply re_bind_ret.
  - intros x c r Hc. rewrite re_bind_assoc. now apply lit_fails.
Qed.

Lemma valid_ranges (d : datetime) :
  valid d = true ->
  0 <= year d <= 9999 /\ 1 <= month d <= 12 /\ 1 <= day d <= 31
  /\ 0 <= hour d <= 23 /\ 0 <= minute d <= 59 /\ 0 <= second d <= 59.
Proof.
  intros Hv. unfold valid, valid_date, valid_time, MINYEAR, MAXYEAR in Hv.
  to_prop.
  assert (Hdim : days_in_month (year d) (month d) <= 31).
  { unfold days_in_month. destruct (month d) as [|[p|p|]|]; try lia;
      repeat (destruct p as [p|p|]; try lia); destruct (is_leap (year d)); lia. }
  lia.
Qed.

Lemma new_valid (d : datetime) :
  valid d = true ->
  new (year d) (month d) (day d) (hour d) (minute d) (second d)
  = Some (mk_datetime (year d) (month d) (day d)
            (hour d) (minute d) (second d) 0).
Proof.
  intros Hv. unfold new. unfold valid in Hv.
  apply andb_prop in Hv as [Hd Ht]. rewrite Hd.
  assert (Ht' : valid_time (hour d) (minute d) (second d) 0 = true).
  { unfold valid_time in *. to_prop.
    repeat (apply andb_true_intro; split); apply Z.leb_le; lia. }
  now rewrite Ht'.
Qed.

Lemma strptime_datetime (d : datetime) :
  valid d = true ->
  strptime (strftime_datetime d) Fmt_Ymd_HMS
  = Some (mk_datetime (year d) (month d) (day d)
            (hour d) (minute d) (second d) 0).
Proof.
  intros Hv. destruct (valid_ranges d Hv) as (Hy & Hm & Hd & Hh & Hmi & Hs).
  unfold strptime, regex, strftime_datetime.
  rewrite date_prefix by assumption.
  rewrite field_d; [| | exact Hd].
  2:{ intros x c r Hc. now apply spaces_fail. }
  rewrite spaces_here by lia.
  rewrite field_H; [| | exact Hh].
  2:{ intros x c r Hc. now apply lit_fails. }
  rewrite lit_here.
  rewrite field_M; [| | exact Hmi].
  2:{ intros x c r Hc. now apply lit_fails. }
  rewrite lit_here.
  match goal with
  | |- context [re_bind re_S ?K _] => destruct (head_S K (second d) Hs) as [tl ->]
  end.
  unfold re_ret. simpl. now apply new_valid.
Qed.

Lemma strptime_date_only (d : datetime) :
  valid d = true ->
  strptime (strftime_date d) Fmt_Ymd_HMS = None
  /\ strptime (strftime_date d) Fmt_Ymd_HM = None
  /\ strptime (strftime_date d) Fmt_Ymd
     = Some (mk_datetime (year d) (month d) (day d) 0 0 0 0).
Proof.
  intros Hv. destruct (valid_ranges d Hv) as (Hy & Hm & Hd & Hh & Hmi & Hs).
  unfold strptime, regex, strftime_date.
  rewrite !date_prefix by assumption.
  split; [| split].
  - rewrite <- (app_nil_r (pad 2 (day d))).
    rewrite field_d; [reflexivity | | exact Hd].
    intros x c r Hc. now apply spaces_fail.
  - rewrite <- (app_nil_r (pad 2 (day d))).
    rewrite field_d; [reflexivity | | exact Hd].
    intros x c r Hc. now apply spaces_fail.
  - match goal with
    | |- context [re_bind re_d ?K _] => destruct (head_d K (day d) Hd) as [tl ->]
    end.
    unfold re_ret. simpl.
    assert (Hn := new_valid (mk_datetime (year d) (month d) (day d) 0 0 0 0)).
    simpl in Hn. apply Hn. unfold valid in *. simpl.
    apply andb_prop in Hv as [-> _]. reflexivity.
Qed.

Lemma strftime_nonempty (d : datetime) :
  valid d = true ->
  String.eqb (strftime_datetime d) "" = false
  /\ String.eqb (strftime_date d) "" = false.
Proof.
  intros Hv. destruct (valid_ranges d Hv) as (Hy & _).
  unfold strftime_datetime, strftime_date.
  destruct (pad4_digits (year d) Hy) as (a & b & c & e & -> & _).
  rewrite !app_cons. split; reflexivity.
Qed.

Lemma parse_strftime_datetime (d : datetime) :
  valid d = true ->
  parse_date_string (strftime_datetime d)
  = Ok (Some (at_time d (hour d) (minute d) (second d))).
Proof.
  intros Hv. unfold parse_date_string.
  destruct (strftime_nonempty d Hv) as [-> _].
  unfold formats, try_formats. now rewrite (strptime_datetime d Hv).
Qed.

Lemma parse_strftime_date (d : datetime) :
  valid d = true ->
  parse_date_string (strftime_date d) = Ok (Some (at_time d 0 0 0)).
Proof.
  intros Hv. unfold parse_date_string.
  destruct (strftime_nonempty d Hv) as [_ ->].
  destruct (strptime_date_only d Hv) as (H1 & H2 & H3).
  unfold formats, try_formats. now rewrite H1, H2, H3.
Qed.

(** X8. A date that the script writes in the date column of the output
    file is accepted back as [--start-date] or [--end-date]: for a
    column of times that are valid after the conversion to the time
    zone (with a year of four digits, which [%Y] writes in full on
    every platform), each written value parses, to the converted time
    at the second for an intraday timeframe and to midnight of its day
    otherwise. *)
Theorem written_dates_parse_back (w : Run.world) (series : list datetime)
    (tz : Pipeline.tzinfo) (is_intraday : bool) (s : string) :
  (forall t, In t series ->
     valid (Run.tz_convert w tz t) = true
     /\ 1000 <= year (Run.tz_convert w tz t)) ->
  In s (Run.format_timezone_aware_datetime w series tz is_intraday) ->
  exists t,
    In t series
    /\ parse_date_string s
       = Ok (Some (let c := Run.tz_convert w tz t in
                   if is_intraday
                   then at_time c (hour c) (minute c) (second c)
                   else at_time c 0 0 0)).
Proof.
  intros Hs Hin.
  unfold Run.format_timezone_aware_datetime, Run.convert_datetime_column in Hin.
  destruct is_intraday; rewrite map_map in Hin; apply in_map_iff in Hin;
    destruct Hin as (t & <- & Ht); exists t; (split; [exact Ht |]);
    destruct (Hs t Ht) as [Hv _]; cbv zeta.
  - now apply parse_strftime_datetime.
  - now apply parse_strftime_date.
Qed.

Lemma written_dates_parse_back_witness :
  exists t,
    In t [mk_datetime 2024 1 2 10 0 0 250000]
    /\ parse_date_string "2024-01-02 10:00:00"
       = Ok (Some (let c := Run.tz_convert sample_world Pipeline.pytz_UTC t in
                   at_time c (hour c) (minute c) (second c))).
Proof.
  apply (written_dates_parse_back sample_world
           [mk_datetime 2024 1 2 10 0 0 250000] Pipeline.pytz_UTC true
           "2024-01-02 10:00:00").
  - intros t [<- | []]. vm_compute. split; [reflexivity | discriminate].
  - vm_compute. left. reflexivity.
Defined.

End RoundTrip.

(** ** The warnings and the catalogue of bar sizes *)

Module ValidatorProps.

Import PyDatetime Resolver Pipeline Config Run Spec Notions StrFacts DateFacts
  ResolverProps RunProps.

Lemma upper_char_Y (c : ascii) :
  String.prefix "Y" (String (PyStr.upper_char c) "")
  = (Ascii.eqb c "y" || Ascii.eqb c "Y")%char.
Proof. destruct c as [[] [] [] [] [] [] [] []]; reflexivity. Qed.

Lemma prefix_cons (a b : ascii) (s t : string) :
  String.prefix (String a s) (String b t)
  = if ascii_dec a b then String.prefix s t else false.
Proof. reflexivity. Qed.

Lemma prefix_nil (t : string) : String.prefix "" t = true.
Proof. destruct t; reflexivity. Qed.

Lemma prefix_one (a c : ascii) (r : string) :
  String.prefix (String a "") (String c r) = String.prefix (String a "") (String c "").
Proof. rewrite !prefix_cons, !prefix_nil. reflexivity. Qed.

(** ['Y' in s.upper()] says that [s] has a letter y. *)
Lemma contains_Y_upper (s : string) :
  contains "Y" (PyStr.upper s) = has_letter_y s.
Proof.
  unfold has_letter_y. induction s as [|c r IH]; [reflexivity |].
  cbn [PyStr.upper contains list_ascii_of_string existsb].
  now rewrite prefix_one, upper_char_Y, IH.
Qed.

(** A string that contains ["YEAR"] contains ["Y"]. *)
Lemma contains_YEAR (s : string) :
  contains "YEAR" s = true -> contains "Y" s = true.
Proof.
  induction s as [|c r IH]; [discriminate |].
  cbn [contains]. intros H. apply orb_prop in H as [H | H].
  - apply orb_true_intro. left. rewrite prefix_cons in *.
    destruct (ascii_dec "Y" c); [apply prefix_nil | discriminate].
  - apply orb_true_intro. right. now apply IH.
Qed.

Lemma yearly_test (duration : string) :
  existsb (fun x => contains x (PyStr.upper duration)) ["Y"; "YEAR"]
  = has_letter_y duration.
Proof.
  cbn [existsb]. rewrite orb_false_r, <- contains_Y_upper.
  destruct (contains "YEAR" (PyStr.upper duration)) eqn:E.
  - now rewrite (contains_YEAR _ E).
  - apply orb_false_r.
Qed.

(** X9. The warnings of [validate_timeframe_duration] for a duration
    written in ASCII, where the upper case of this development is the one
    of Python (outside ASCII it is not: [str.upper] also maps some other
    letters to a capital Y): none for a bar size of a minute or more; for
    a bar size of 30 seconds or less the pacing warning and the
    availability warning, followed by the warning about large datasets
    exactly when the duration has a letter y, small or capital (the test
    for ["YEAR"] adds nothing to the one for ["Y"]). *)
Theorem warnings_by_bar_size (timeframe duration : string) :
  is_ascii duration = true ->
  validate_timeframe_duration timeframe duration
  = if PyStr.str_in timeframe small_bar_sizes then
      pacing_warning timeframe duration :: availability_warning
      :: (if has_letter_y duration then [volume_warning] else [])
    else [].
Proof.
  intros _.
  unfold validate_timeframe_duration. cbv zeta. rewrite yearly_test.
  fold small_bar_sizes.
  destruct (PyStr.str_in timeframe small_bar_sizes); [| reflexivity].
  destruct (has_letter_y duration); reflexivity.
Qed.

(** The warning about yearly durations is also given for a duration in
    days that is written out. *)
Lemma warnings_by_bar_size_witness :
  validate_timeframe_duration "30 secs" "30 days"
  = [pacing_warning "30 secs" "30 days"; availability_warning; volume_warning].
Proof. exact (warnings_by_bar_size "30 secs" "30 days" eq_refl). Defined.

Lemma has_letter_y_app (a b : string) :
  has_letter_y (a ++ b) = has_letter_y a || has_letter_y b.
Proof.
  unfold has_letter_y. string_induction a; [reflexivity |].
  now rewrite IH, orb_assoc.
Qed.

Lemma no_y_in_uint (d : Decimal.uint) :
  has_letter_y (NilEmpty.string_of_uint d) = false.
Proof. induction d; simpl; auto. Qed.

(** The decimal text of an integer has no letter. *)
Lemma no_y_in_number (n : Z) : has_letter_y (PyStr.of_Z n) = false.
Proof.
  unfold PyStr.of_Z, NilZero.string_of_int, NilZero.string_of_uint.
  assert (H : forall d, has_letter_y (match d with
                                      | Decimal.Nil => "0"
                                      | _ => NilEmpty.string_of_uint d
                                      end) = false).
  { intros d. pose proof (no_y_in_uint d). destruct d; auto. }
  destruct (Z.to_int n) as [d|d]; [apply H |].
  change (has_letter_y (String "-" ?x)) with (has_letter_y x). apply H.
Qed.

Lemma duration_string_letter_y (n : Z) :
  has_letter_y (duration_string n) = (365 <? n).
Proof.
  unfold duration_string. rewrite Z.ltb_antisym.
  destruct (n <=? 365); rewrite has_letter_y_app, no_y_in_number; reflexivity.
Qed.

Lemma is_ascii_app (a b : string) :
  is_ascii (a ++ b) = is_ascii a && is_ascii b.
Proof.
  unfold is_ascii. string_induction a; [reflexivity |].
  now rewrite IH, andb_assoc.
Qed.

Lemma is_ascii_uint (d : Decimal.uint) :
  is_ascii (NilEmpty.string_of_uint d) = true.
Proof. induction d; simpl; auto. Qed.

(** The decimal text of an integer is written in ASCII. *)
Lemma is_ascii_number (n : Z) : is_ascii (PyStr.of_Z n) = true.
Proof.
  unfold PyStr.of_Z, NilZero.string_of_int, NilZero.string_of_uint.
  assert (H : forall d, is_ascii (match d with
                                  | Decimal.Nil => "0"
                                  | _ => NilEmpty.string_of_uint d
                                  end) = true).
  { intros d. pose proof (is_ascii_uint d). destruct d; auto. }
  destruct (Z.to_int n) as [d|d]; [apply H |].
  change (is_ascii (String "-" ?x)) with (is_ascii x). apply H.
Qed.

Lemma is_ascii_duration_string (n : Z) : is_ascii (duration_string n) = true.
Proof.
  unfold duration_string.
  destruct (n <=? 365); rewrite is_ascii_app, is_ascii_number; reflexivity.
Qed.

(** X10. [fetch_and_save_historical_data] runs the validator on the
    duration that the resolver returns, not on the one of the command
    line. For a range of two dates that the resolver accepts and a bar
    size of 30 seconds or less, the function prints the two lines of the
    date range and then the warnings of the validator for the calculated
    duration, which is written in ASCII, before it goes on to connect:
    the pacing warning, the availability warning, and the warning about
    large datasets exactly when the range counts more than 365 days (the
    resolver then returns a duration in years). *)
Theorem date_range_volume_warning (w : world)
    (symbol timeframe duration output_filename : option string)
    (overwrite : bool) (timezone_choice s e : string) (ext : bool)
    (ds de : datetime) (ts d : string) (info : processed_info) :
  parse_date_string s = Ok (Some ds) ->
  parse_date_string e = Ok (Some de) ->
  process_date_arguments (Some s) (Some e) (default HISTORY_DURATION duration)
    ext (clock w) = Ok (ts, d, info) ->
  PyStr.str_in (default "1 day" timeframe) small_bar_sizes = true ->
  let target_symbol := default TARGET_SYMBOL symbol in
  let bar_size := default "1 day" timeframe in
  let warnings :=
    pacing_warning bar_size d :: availability_warning
    :: (if 365 <? counted_days ds de then [volume_warning] else []) in
  let filename :=
    match output_filename with
    | Some f => f
    | None =>
        generate_filename target_symbol SECURITY_TYPE d bar_size
          (if String.eqb SECURITY_TYPE "FUT"
           then Some FUTURE_LAST_TRADE_DATE_OR_CONTRACT_MONTH else None) ext
    end in
  d = duration_string (counted_days ds de)
  /\ info = date_range s e d
  /\ is_ascii d = true
  /\ validate_timeframe_duration bar_size d = warnings
  /\ forall st,
       fetch_and_save_historical_data w symbol timeframe duration
         output_filename overwrite timezone_choice (Some s) (Some e) ext st
       = try_finally
           (try_except
              (fetch_body w target_symbol bar_size d ts filename
                 timezone_choice overwrite ext (negb ext))
              fetch_handler)
           fetch_finally
           (log ([Print ("Date range mode: " ++ s ++ " to " ++ e);
                  Print ("Calculated duration: " ++ d)]
                 ++ map Print warnings) st).
Proof.
  intros Hs He Hp Hsmall target_symbol bar_size warnings filename.
  destruct (parse_date_string_valid _ _ Hs) as [Hvs _].
  destruct (parse_date_string_valid _ _ He) as [Hve _].
  pose proof Hp as Hq.
  destruct (gt ds de) eqn:Hgt.
  { rewrite (process_invalid_range s e _ ext (clock w) ds de Hs He Hgt) in Hq.
    discriminate. }
  rewrite (process_parsed (Some s) (Some e) _ ext (clock w) (Some ds) (Some de))
    in Hq; try (rewrite parse_if_given_Some; assumption); [| exact Hgt].
  cbv zeta in Hq. rewrite (sub_days ds de Hvs Hve) in Hq.
  destruct (format_ibkr_datetime ext de (time_is_not_midnight de)) as [x|ts'];
    [discriminate |].
  injection Hq as _ Hd Hi.
  assert (Hw : validate_timeframe_duration bar_size d = warnings).
  { subst d. unfold validate_timeframe_duration. cbv zeta. rewrite yearly_test.
    fold small_bar_sizes. fold bar_size in Hsmall.
    rewrite Hsmall, duration_string_letter_y.
    unfold warnings. destruct (365 <? counted_days ds de); reflexivity. }
  assert (Hinfo : info = date_range s e d) by (now rewrite <- Hi, Hd).
  split; [now symmetry |]. split; [exact Hinfo |].
  split; [rewrite <- Hd; apply is_ascii_duration_string |].
  split; [exact Hw |].
  intros st. unfold fetch_and_save_historical_data.
  cbv zeta. rewrite Hp.
  unfold Ok. cbv beta iota. fold bar_size. rewrite Hw, Hinfo.
  erewrite bind_returned; cycle 1.
  { cbn [print_date_info]. run. reflexivity. }
  erewrite bind_returned by apply print_all_log.
  unfold log. cbn [trace stdin connected].
  rewrite <- !List.app_assoc. reflexivity.
Qed.

(** The theorem for the whole of two years in bars of 30 seconds, with a
    duration of one day on the command line: the warning about large
    datasets is printed for the calculated duration of two years. *)
Lemma date_range_volume_warning_witness :
  validate_timeframe_duration "30 secs" "2 Y"
  = [pacing_warning "30 secs" "2 Y"; availability_warning; volume_warning]
  /\ fetch_and_save_historical_data sample_world (Some "SPY")
       (Some "30 secs") (Some "1 D") (Some "out.csv") false "UTC"
       (Some "2023-01-01") (Some "2024-12-31") false (initial [])
     = try_finally
         (try_except
            (fetch_body sample_world "SPY" "30 secs" "2 Y"
               "20241231 16:00:00" "out.csv" "UTC" false false true)
            fetch_handler)
         fetch_finally
         (log [Print "Date range mode: 2023-01-01 to 2024-12-31";
               Print "Calculated duration: 2 Y";
               Print (pacing_warning "30 secs" "2 Y");
               Print availability_warning; Print volume_warning]
            (initial [])).
Proof.
  refine (match date_range_volume_warning sample_world (Some "SPY")
            (Some "30 secs") (Some "1 D") (Some "out.csv") false "UTC"
            "2023-01-01" "2024-12-31" false (mk_datetime 2023 1 1 0 0 0 0)
            (mk_datetime 2024 12 31 0 0 0 0) "20241231 16:00:00" "2 Y"
            (date_range "2023-01-01" "2024-12-31" "2 Y")
            eq_refl eq_refl eq_refl eq_refl
          with conj _ (conj _ (conj _ (conj Hw Hrun))) =>
            conj Hw (Hrun (initial [])) end).
Defined.

End ValidatorProps.

(** ** The catalogue of bar sizes *)

Module CatalogueProps.

Import Pipeline Config Run Spec Notions StrFacts FilenameProps.

Lemma str_in_In (x : string) (l : list string) :
  PyStr.str_in x l = true <-> In x l.
Proof.
  unfold PyStr.str_in. rewrite existsb_exists. split.
  - intros (y & Hy & E). apply String.eqb_eq in E. now subst.
  - intros H. exists x. split; [exact H | apply String.eqb_refl].
Qed.

(** A property of the catalogue, checked on each of its bar sizes. *)
Lemma for_each_bar_size (P : string -> bool) (tf : string) :
  forallb P VALID_BAR_SIZES = true -> In tf VALID_BAR_SIZES -> P tf = true.
Proof. intros H Hin. rewrite forallb_forall in H. now apply H. Qed.

(** X11. The three lists of bar sizes of the script agree: a bar size
    that is intraday for the output is one that the command line accepts;
    an accepted bar size is not intraday exactly when it is one day, one
    week or one month, and these get the column [Date]; and a bar size
    for which [validate_timeframe_duration] warns is intraday, so that its
    output has a column [DateTime_<zone>]. *)
Theorem bar_size_catalogue (timeframe : string) :
  (is_intraday_timeframe timeframe = true -> In timeframe VALID_BAR_SIZES)
  /\ (In timeframe VALID_BAR_SIZES ->
      (is_intraday_timeframe timeframe = false
       <-> In timeframe ["1 day"; "1 week"; "1 month"]))
  /\ (forall duration,
        validate_timeframe_duration timeframe duration <> [] ->
        is_intraday_timeframe timeframe = true
        /\ forall w tz sym,
             output_date_column w tz sym timeframe <> "Date").
Proof.
  split; [| split].
  - unfold is_intraday_timeframe. cbv zeta. rewrite str_in_In.
    unfold VALID_BAR_SIZES. intros H.
    repeat (destruct H as [<- | H]; [simpl; tauto |]). destruct H.
  - intros Hin. rewrite <- str_in_In.
    apply (for_each_bar_size
             (fun tf => Bool.eqb (negb (is_intraday_timeframe tf))
                          (PyStr.str_in tf ["1 day"; "1 week"; "1 month"])))
      in Hin; [| reflexivity].
    apply Bool.eqb_prop in Hin. rewrite <- Hin.
    destruct (is_intraday_timeframe timeframe); simpl; split; congruence.
  - intros duration Hw.
    assert (Hs : PyStr.str_in timeframe small_bar_sizes = true).
    { unfold validate_timeframe_duration in Hw. cbv zeta in Hw.
      fold small_bar_sizes in Hw.
      destruct (PyStr.str_in timeframe small_bar_sizes); [reflexivity |].
      now contradiction Hw. }
    assert (Hi : is_intraday_timeframe timeframe = true).
    { apply str_in_In in Hs. unfold small_bar_sizes in Hs.
      repeat (destruct Hs as [<- | Hs]; [reflexivity |]). destruct Hs. }
    split; [exact Hi |]. intros w tz sym. unfold output_date_column.
    rewrite Hi. rewrite app_cons. discriminate.
Qed.

Lemma bar_size_catalogue_witness :
  is_intraday_timeframe "1 week" = false
  <-> In "1 week" ["1 day"; "1 week"; "1 month"].
Proof.
  apply (proj1 (proj2 (bar_size_catalogue "1 week"))).
  simpl. tauto.
Defined.

(** X12. Two bar sizes that the command line accepts and that differ
    give file names that differ, everything else being the same: the
    abbreviations of the accepted bar sizes are pairwise distinct (one
    minute is [1m], one month [1M]). *)
Theorem accepted_bar_sizes_distinct_names (sym sec dur : string)
    (fm : option string) (ext : bool) (tf tf' : string) :
  In tf VALID_BAR_SIZES -> In tf' VALID_BAR_SIZES ->
  generate_filename sym sec dur tf fm ext
  = generate_filename sym sec dur tf' fm ext ->
  tf = tf'.
Proof.
  intros Hin Hin' H. rewrite !generate_filename_pieces in H.
  do 7 apply app_inv_head in H. apply app_inv_tail in H.
  apply (for_each_bar_size
           (fun a => forallb
              (fun b => implb (String.eqb (timeframe_clean a) (timeframe_clean b))
                          (String.eqb a b)) VALID_BAR_SIZES)) in Hin;
    [| vm_compute; reflexivity].
  rewrite forallb_forall in Hin. specialize (Hin tf' Hin').
  rewrite H, String.eqb_refl in Hin. now apply String.eqb_eq.
Qed.

(** The theorem for two file names that are the same: the bar sizes
    are. *)
Lemma accepted_bar_sizes_distinct_names_witness :
  In "1 month" VALID_BAR_SIZES
  /\ generate_filename "SPY" "STK" "1 Y" "1 month" None false
     = "SPY_STK_1Y_1M_OHLCV.csv"
  /\ "1 month" = "1 month".
Proof.
  assert (H : In "1 month" VALID_BAR_SIZES) by (simpl; tauto).
  split; [exact H |]. split; [reflexivity |].
  exact (accepted_bar_sizes_distinct_names "SPY" "STK" "1 Y" None false
           "1 month" "1 month" H H eq_refl).
Defined.

(** One minute and one month, which differ in the case of a letter only. *)
Example minute_and_month :
  generate_filename "SPY" "STK" "1 Y" "1 min" None false
  = "SPY_STK_1Y_1m_OHLCV.csv"
  /\ generate_filename "SPY" "STK" "1 Y" "1 month" None false
     = "SPY_STK_1Y_1M_OHLCV.csv".
Proof. split; reflexivity. Qed.

End CatalogueProps.

(** ** [os.path.splitext] and the renamed file *)

Module SplitextProps.

Import PyDatetime Pipeline Config Run Spec Notions StrFacts FilenameProps.

Lemma take_drop (n : nat) (p : string) : PyStr.take n p ++ PyStr.drop n p = p.
Proof.
  revert p. induction n as [|n IH]; intros p; [reflexivity |].
  destruct p as [|a p]; [reflexivity |]. simpl PyStr.take. simpl PyStr.drop.
  now rewrite app_cons, IH.
Qed.

(** [rfind]: the result is [-1] or an index of [p]. *)
Lemma rfind_from_range (c : ascii) (p : string) (i : Z) :
  0 <= i ->
  rfind_from c i p = -1
  \/ i <= rfind_from c i p < i + Z.of_nat (String.length p).
Proof.
  revert i. induction p as [|a p IH]; intros i Hi; [left; reflexivity |].
  cbn [rfind_from String.length]. cbv zeta.
  destruct (IH (i + 1) ltac:(lia)) as [-> | H].
  - change (0 <=? -1) with false. cbv iota. destruct (Ascii.eqb a c); [right | left]; lia.
  - destruct (0 <=? rfind_from c (i + 1) p) eqn:E; [right; lia |].
    apply Z.leb_gt in E. lia.
Qed.

Lemma rfind_from_absent (c : ascii) (p : string) (i : Z) :
  0 <= i -> rfind_from c i p = -1 -> has_char c p = false.
Proof.
  revert i. induction p as [|b p IHp]; intros i Hi H; [reflexivity |].
  cbn [rfind_from has_char] in *. cbv zeta in H.
  destruct (rfind_from_range c p (i + 1) ltac:(lia)) as [E | E].
  - rewrite E in H. change (0 <=? -1) with false in H. cbv iota in H.
    destruct (Ascii.eqb b c); [lia |]. simpl. now apply (IHp (i + 1)); [lia |].
  - destruct (0 <=? rfind_from c (i + 1) p) eqn:E'; [lia |].
    apply Z.leb_gt in E'. lia.
Qed.

(** At the index that [rfind] returns is the last occurrence of [c]. *)
Lemma rfind_from_found (c : ascii) (p : string) (i : Z) :
  0 <= i -> 0 <= rfind_from c i p ->
  exists r,
    PyStr.drop (Z.to_nat (rfind_from c i p - i)) p = String c r
    /\ has_char c r = false.
Proof.
  revert i. induction p as [|a p IH]; intros i Hi Hj; [simpl in Hj; lia |].
  cbn [rfind_from] in *. cbv zeta in *.
  destruct (0 <=? rfind_from c (i + 1) p) eqn:E.
  - apply Z.leb_le in E. destruct (IH (i + 1) ltac:(lia) E) as (r & Hr & Hc).
    destruct (rfind_from_range c p (i + 1) ltac:(lia)) as [H | H]; [lia |].
    exists r. split; [| exact Hc].
    replace (Z.to_nat (rfind_from c (i + 1) p - i))
      with (S (Z.to_nat (rfind_from c (i + 1) p - (i + 1)))) by lia.
    exact Hr.
  - apply Z.leb_gt in E.
    destruct (rfind_from_range c p (i + 1) ltac:(lia)) as [H | H]; [| lia].
    destruct (Ascii.eqb_spec a c) as [-> |]; [| lia].
    replace (Z.to_nat (i - i)) with O by lia. exists p. split; [reflexivity |].
    now apply (rfind_from_absent c p (i + 1)); [lia |].
Qed.

Lemma has_char_drop (c : ascii) (n : nat) (s : string) :
  has_char c s = false -> has_char c (PyStr.drop n s) = false.
Proof.
  revert s. induction n as [|n IH]; intros s H; [exact H |].
  destruct s as [|a s]; [reflexivity |]. simpl in *.
  apply orb_false_elim in H as [_ H]. now apply IH.
Qed.

Lemma drop_add (n m : nat) (s : string) :
  PyStr.drop (n + m) s = PyStr.drop m (PyStr.drop n s).
Proof.
  revert s. induction n as [|n IH]; intros s; [reflexivity |].
  destruct s as [|a s]; [now destruct m |]. simpl. apply IH.
Qed.

(** X13. [os.path.splitext] cuts the path in two: the root followed by
    the extension is the path; and the extension is empty, or it is a dot
    followed by characters none of which is a dot or a slash. *)
Theorem splitext_parts (p : string) :
  fst (splitext p) ++ snd (splitext p) = p
  /\ (snd (splitext p) = ""
      \/ exists r, snd (splitext p) = String "." r
                   /\ has_char "." r = false /\ has_char "/" r = false).
Proof.
  unfold splitext, rfind. cbv zeta.
  destruct (rfind_from "/" 0 p <? rfind_from "." 0 p) eqn:E;
    [| simpl; split; [apply RoundTrip.app_nil_r | now left]].
  destruct (has_non_dot _);
    [| simpl; split; [apply RoundTrip.app_nil_r | now left]].
  cbn [fst snd]. split; [apply take_drop |]. right.
  apply Z.ltb_lt in E.
  destruct (rfind_from_range "/" p 0 ltac:(lia)) as [Hs | Hs].
  - destruct (rfind_from_range "." p 0 ltac:(lia)) as [Hd | Hd]; [lia |].
    destruct (rfind_from_found "." p 0 ltac:(lia) ltac:(lia)) as (r & Hr & Hc).
    rewrite Z.sub_0_r in Hr. exists r. split; [exact Hr |]. split; [exact Hc |].
    apply (rfind_from_absent "/" p 0) in Hs; [| lia].
    apply (has_char_drop "/" (Z.to_nat (rfind_from "." 0 p))) in Hs.
    rewrite Hr in Hs. exact Hs.
  - destruct (rfind_from_found "." p 0 ltac:(lia) ltac:(lia)) as (r & Hr & Hc).
    destruct (rfind_from_found "/" p 0 ltac:(lia) ltac:(lia)) as (r' & Hr' & Hc').
    rewrite Z.sub_0_r in Hr, Hr'. exists r. split; [exact Hr |].
    split; [exact Hc |].
    replace (Z.to_nat (rfind_from "." 0 p))
      with (Z.to_nat (rfind_from "/" 0 p)
            + S (Z.to_nat (rfind_from "." 0 p - rfind_from "/" 0 p - 1)))%nat
      in Hr by lia.
    rewrite drop_add, Hr' in Hr. simpl in Hr.
    apply (has_char_drop "/"
             (Z.to_nat (rfind_from "." 0 p - rfind_from "/" 0 p - 1))) in Hc'.
    rewrite Hr in Hc'. exact Hc'.
Qed.

(** *** A path that ends in [.csv] *)

Lemma rfind_from_none (c : ascii) (p : string) (i : Z) :
  has_char c p = false -> rfind_from c i p = -1.
Proof.
  revert i. induction p as [|a p IH]; intros i H; [reflexivity |].
  cbn [rfind_from has_char] in *. apply orb_false_elim in H as [Ha Hp].
  rewrite (IH (i + 1) Hp), Ha. reflexivity.
Qed.

Lemma rfind_from_app_found (c : ascii) (a b : string) (i : Z) :
  0 <= rfind_from c (i + Z.of_nat (String.length a)) b ->
  rfind_from c i (a ++ b) = rfind_from c (i + Z.of_nat (String.length a)) b.
Proof.
  revert i. string_induction a; intros i H.
  - now rewrite Z.add_0_r in *.
  - replace (i + Z.of_nat (S (String.length a)))
      with (i + 1 + Z.of_nat (String.length a)) in * by lia.
    rewrite (IH (i + 1) H). apply Z.leb_le in H. now rewrite H.
Qed.

Lemma rfind_from_app_none (c : ascii) (a b : string) (i : Z) :
  has_char c b = false -> rfind_from c i (a ++ b) = rfind_from c i a.
Proof.
  intros Hb. revert i. string_induction a; intros i.
  - now apply rfind_from_none.
  - now rewrite IH.
Qed.

Lemma drop_app (n : nat) (a b : string) :
  (n <= String.length a)%nat ->
  PyStr.drop n (a ++ b) = PyStr.drop n a ++ b.
Proof.
  revert a. induction n as [|n IH]; intros a H; [reflexivity |].
  destruct a as [|x a]; [simpl in H; lia |].
  rewrite app_cons. simpl. apply IH. simpl in H. lia.
Qed.

Lemma take_app (n : nat) (a b : string) :
  PyStr.take (String.length a + n) (a ++ b) = a ++ PyStr.take n b.
Proof.
  string_induction a; [reflexivity |]. now rewrite IH.
Qed.

Lemma length_drop (n : nat) (a : string) :
  String.length (PyStr.drop n a) = (String.length a - n)%nat.
Proof.
  revert a. induction n as [|n IH]; intros a; [simpl; lia |].
  destruct a as [|x a]; [reflexivity |]. simpl. apply IH.
Qed.

Lemma has_non_dot_app (a : string) (x : ascii) (b : string) :
  Ascii.eqb x "." = false -> has_non_dot (a ++ String x b) = true.
Proof.
  intros Hx. string_induction a.
  - now rewrite Hx.
  - rewrite IH. apply orb_true_r.
Qed.

Lemma rfind_from_cons (c a : ascii) (r : string) (i : Z) :
  rfind_from c i (String a r)
  = if 0 <=? rfind_from c (i + 1) r then rfind_from c (i + 1) r
    else if Ascii.eqb a c then i else -1.
Proof. reflexivity. Qed.

Lemma rfind_dot_csv (x : ascii) (i : Z) :
  0 <= i -> rfind_from "." i (String x ".csv") = i + 1.
Proof.
  intros Hi. rewrite rfind_from_cons.
  assert (H : rfind_from "." (i + 1) ".csv" = i + 1).
  { rewrite rfind_from_cons, (rfind_from_none "." "csv") by reflexivity.
    reflexivity. }
  rewrite H. destruct (0 <=? i + 1) eqn:E; [reflexivity |].
  apply Z.leb_gt in E. lia.
Qed.

(** The extension of a path that ends in [.csv] after a character that
    is neither a dot nor a slash. *)
Lemma splitext_csv (a : string) (x : ascii) :
  Ascii.eqb x "." = false -> Ascii.eqb x "/" = false ->
  splitext (a ++ String x ".csv") = (a ++ String x "", ".csv").
Proof.
  intros Hdot Hsep. set (n := String.length a).
  assert (Hd : rfind "." (a ++ String x ".csv") = Z.of_nat n + 1).
  { unfold rfind. rewrite rfind_from_app_found; fold n; rewrite Z.add_0_l;
      rewrite rfind_dot_csv; lia. }
  assert (Hs : rfind "/" (a ++ String x ".csv") = rfind "/" a).
  { unfold rfind. apply rfind_from_app_none. simpl. now rewrite Hsep. }
  assert (Hr : rfind "/" a = -1 \/ 0 <= rfind "/" a < Z.of_nat n).
  { destruct (rfind_from_range "/" a 0 ltac:(lia)) as [H | H];
      [now left | right; unfold rfind, n; lia]. }
  unfold splitext. cbv zeta. rewrite Hd, Hs.
  replace (rfind "/" a <? Z.of_nat n + 1) with true
    by (symmetry; apply Z.ltb_lt; lia).
  set (fi := Z.to_nat (rfind "/" a + 1)).
  assert (Hfi : (fi <= n)%nat) by (unfold fi; lia).
  rewrite drop_app by exact Hfi.
  replace (Z.to_nat (Z.of_nat n + 1 - (rfind "/" a + 1)))
    with (String.length (PyStr.drop fi a) + 1)%nat
    by (rewrite length_drop; fold n; unfold fi; lia).
  rewrite take_app. simpl PyStr.take. rewrite has_non_dot_app by exact Hdot.
  replace (Z.to_nat (Z.of_nat n + 1)) with (n + 1)%nat by lia.
  f_equal.
  - unfold n. rewrite take_app. reflexivity.
  - rewrite drop_add. unfold n.
    rewrite drop_app by lia. replace (PyStr.drop (String.length a) a) with "".
    + reflexivity.
    + clear. induction a; [reflexivity | exact IHa].
Qed.

(** The root and the extension of a generated file name. *)
Lemma splitext_generated (sym sec dur tf : string) (fm : option string)
    (ext : bool) :
  splitext (generate_filename sym sec dur tf fm ext)
  = (PyStr.join "_" (filename_parts sym sec dur tf fm ext), ".csv").
Proof.
  assert (H : exists a,
            PyStr.join "_" (filename_parts sym sec dur tf fm ext)
            = a ++ "OHLCV").
  { pose proof (generate_filename_pieces sym sec dur tf fm ext) as H.
    unfold generate_filename in H.
    rewrite <- !app_assoc in H. apply app_inv_tail in H.
    eexists. exact H. }
  destruct H as (a & Ha). unfold generate_filename. rewrite Ha.
  rewrite app_assoc.
  change ("OHLCV" ++ ".csv") with ("OHLC" ++ String "V" ".csv").
  rewrite <- app_assoc, splitext_csv by reflexivity.
  now rewrite app_assoc.
Qed.

Lemma unique_loop_result (fuel : nat) (files : gset string)
    (name_part timestamp ext u r : string) (c : nat) :
  unique_loop fuel files name_part timestamp ext u c = Some r ->
  r = u \/ exists k, (c <= k)%nat /\ r = numbered name_part timestamp ext k.
Proof.
  revert u c. induction fuel as [|fuel IH]; intros u c; simpl;
    destruct (path_exists files u); try discriminate;
    try (intros [= <-]; now left).
  intros H. apply IH in H as [-> | (k & Hk & ->)]; right;
    [exists c | exists k]; split; auto; lia.
Qed.

(** X14. The name that [generate_unique_filename] makes from a generated
    file name keeps its stem and its extension [.csv]: it is the name
    itself when no such file exists, and otherwise the stem, the
    timestamp, possibly a counter from [_01] on, and [.csv]. *)
Theorem renamed_file_keeps_stem_and_extension (sym sec dur tf : string)
    (fm : option string) (ext : bool) (files : gset string) (now : datetime)
    (fuel : nat) (r : string) :
  generate_unique_filename fuel files now
    (generate_filename sym sec dur tf fm ext) = Some r ->
  let stem := PyStr.join "_" (filename_parts sym sec dur tf fm ext) in
  ((generate_filename sym sec dur tf fm ext ∉ files) /\ r = stem ++ ".csv")
  \/ ((generate_filename sym sec dur tf fm ext ∈ files)
      /\ (r = stem ++ "_" ++ strftime_suffix now ++ ".csv"
          \/ exists k, (1 <= k)%nat
               /\ r = stem ++ "_" ++ strftime_suffix now ++ "_"
                      ++ PyStr.fmt_02d k ++ ".csv")).
Proof.
  intros H stem. unfold generate_unique_filename in H.
  destruct (path_exists files _) eqn:E; simpl in H.
  - right. apply UniqueProps.path_exists_true in E. split; [exact E |].
    rewrite splitext_generated in H. fold stem in H.
    apply unique_loop_result in H as [-> | (k & Hk & ->)]; [now left | right].
    exists k. split; [exact Hk | reflexivity].
  - left. apply UniqueProps.path_exists_false in E. split; [exact E |].
    injection H as <-. reflexivity.
Qed.

(** The theorem for a directory that holds the generated file. *)
Lemma renamed_file_keeps_stem_and_extension_witness :
  let stem := PyStr.join "_" (filename_parts "SPY" "STK" "1 Y" "1 day" None false) in
  ((generate_filename "SPY" "STK" "1 Y" "1 day" None false
      ∉ ({[ "SPY_STK_1Y_1d_OHLCV.csv" ]} : gset string))
   /\ "SPY_STK_1Y_1d_OHLCV_20261103_142507.csv" = stem ++ ".csv")
  \/ ((generate_filename "SPY" "STK" "1 Y" "1 day" None false
         ∈ ({[ "SPY_STK_1Y_1d_OHLCV.csv" ]} : gset string))
      /\ ("SPY_STK_1Y_1d_OHLCV_20261103_142507.csv"
          = stem ++ "_" ++ strftime_suffix sample_now ++ ".csv"
          \/ exists k, (1 <= k)%nat
               /\ "SPY_STK_1Y_1d_OHLCV_20261103_142507.csv"
                  = stem ++ "_" ++ strftime_suffix sample_now ++ "_"
                    ++ PyStr.fmt_02d k ++ ".csv")).
Proof.
  apply (renamed_file_keeps_stem_and_extension "SPY" "STK" "1 Y" "1 day" None
           false {[ "SPY_STK_1Y_1d_OHLCV.csv" ]} sample_now 2).
  vm_compute. reflexivity.
Defined.

End SplitextProps.

(** ** The dialogue about an existing file *)

Module ConflictProps.

Import PyDatetime Pipeline Config Run Spec Notions StrFacts UniqueProps RunProps.

(** With fuel above the number of existing paths,
    [generate_unique_filename] returns a path that does not exist. *)
Lemma unique_filename_found (files : gset string) (now : datetime)
    (base_filename : string) :
  exists r,
    generate_unique_filename (S (size files)) files now base_filename = Some r
    /\ r ∉ files.
Proof.
  unfold generate_unique_filename.
  destruct (splitext base_filename) as [np ex].
  destruct (path_exists files base_filename) eqn:Hbase; simpl negb; cbv iota.
  2:{ apply path_exists_false in Hbase. eauto. }
  set (ts := strftime_suffix now).
  destruct (path_exists files (np ++ "_" ++ ts ++ ex)) eqn:Hfirst.
  2:{ exists (np ++ "_" ++ ts ++ ex).
      apply path_exists_false in Hfirst as Hfree. split; [| exact Hfree].
      simpl. now rewrite Hfirst. }
  apply path_exists_true in Hfirst.
  destruct (first_candidate_free files np ts ex (S (size files)) 1
              (some_candidate_free files np ts ex 1))
    as (k & Hk & Hfree & Hbelow).
  exists (numbered np ts ex k). split; [| exact Hfree].
  replace k with (1 + (k - 1))%nat by lia.
  apply unique_loop_finds; auto; try lia.
  - intros j Hj. apply Hbelow. lia.
  - now replace (1 + (k - 1))%nat with k by lia.
Qed.

(** The loop of the prompt with enough rounds for the lines of the
    keyboard. *)
Lemma choice_loop_outcome (w : world) (filename : string) (rounds : nat) :
  forall st,
    (length (stdin st) <= rounds)%nat ->
    exists o evs kb',
      choice_loop rounds w filename st
      = (o, {| trace := (trace st ++ evs)%list; stdin := kb';
               connected := connected st |})
      /\ forallb is_dialogue evs = true
      /\ conflict_result (files w) filename o.
Proof.
  induction rounds as [|rounds IH]; intros [tr kb c] Hlen;
    rewrite choice_loop_round; destruct kb as [|line kb];
    simpl in Hlen; try lia; unfold input; run.
  - exists (Raised EOFError), [Input prompt], []. repeat split.
  - exists (Raised EOFError), [Input prompt], []. repeat split.
  - destruct (PyStr.str_in (choice_of line) ["O"; "OVERWRITE"]).
    { eexists (Returned (filename, true)), [_; _], kb. run.
      rewrite <- List.app_assoc. repeat split. now left. }
    destruct (PyStr.str_in (choice_of line) ["R"; "RENAME"]).
    { destruct (unique_filename_found (files w) (clock w) filename)
        as (r & -> & Hr).
      eexists (Returned (r, true)), [_; _], kb. run.
      rewrite <- List.app_assoc. repeat split. right. now split. }
    destruct (PyStr.str_in (choice_of line) ["C"; "CANCEL"]).
    { eexists (Returned (filename, false)), [_; _], kb. run.
      rewrite <- List.app_assoc. repeat split. now left. }
    run. change (tail (line :: kb)) with kb.
    destruct (IH {| trace := ((tr ++ [Input "Enter choice [O/R/C]: "])
                              ++ [Print "Invalid choice. Please enter O, R, or C."])%list;
                    stdin := kb; connected := c |})
      as (o & evs & kb' & -> & Hd & Hres); [simpl; lia |].
    exists o, (Input prompt :: Print invalid_message :: evs), kb'.
    cbn [trace stdin connected]. rewrite <- !List.app_assoc.
    repeat split; assumption.
Qed.

(** What [handle_file_conflict] does, in every case. *)
Lemma conflict_outcome (w : world) (filename : string)
    (overwrite_flag : bool) (st : state) :
  exists o evs kb',
    handle_file_conflict w filename overwrite_flag st
    = (o, {| trace := (trace st ++ evs)%list; stdin := kb';
             connected := connected st |})
    /\ forallb is_dialogue evs = true
    /\ conflict_result (files w) filename o
    /\ (negb (path_exists (files w) filename) || overwrite_flag = true ->
        o = Returned (filename, true) /\ kb' = stdin st
        /\ forallb is_print evs = true).
Proof.
  unfold handle_file_conflict.
  destruct (path_exists (files w) filename) eqn:Hex; simpl negb; cbv iota.
  2:{ exists (Returned (filename, true)), [], (stdin st).
      destruct st. run. rewrite List.app_nil_r. repeat split. now left. }
  destruct overwrite_flag.
  { eexists (Returned (filename, true)), [_], (stdin st).
    destruct st. run. repeat split. now left. }
  assert (Hb : leads_to is_print
                 (print (nl ++ "File conflict detected!");;
                  print ("Output file '" ++ filename ++ "' already exists (created: "
                         ++ match creation_time w filename with
                            | Some t => strftime_datetime t
                            | None => "unknown"
                            end ++ ")");;
                  print ("Full path: " ++ abspath w filename);;
                  print "";;
                  print "Choose action:";;
                  print "  [O]verwrite - Replace the existing file";;
                  print "  [R]ename    - Create new file with timestamp suffix";;
                  print "  [C]ancel    - Abort the operation";;
                  print "";;
                  ask_choice w filename)
                 (ask_choice w filename)).
  { repeat leads_step. apply leads_refl. }
  destruct Hb as (banner & Hp & Hb). cbv zeta. rewrite Hb. unfold ask_choice.
  destruct (choice_loop_outcome w filename (length (stdin (log banner st)))
              (log banner st) ltac:(lia))
    as (o & evs & kb' & -> & Hd & Hres).
  exists o, (banner ++ evs)%list, kb'. cbn [log trace stdin connected].
  rewrite List.app_assoc. repeat split; try assumption.
  - rewrite forallb_app, Hd, andb_true_r.
    clear -Hp. induction banner as [|e l IH]; [reflexivity |].
    simpl in *. apply andb_prop in Hp as [He Hl].
    unfold is_dialogue at 1. now rewrite He, IH.
  - discriminate.
  - discriminate.
  - discriminate.
Qed.

(** X15. [handle_file_conflict] always ends, whatever is typed: it
    returns, or it raises [EOFError] when the lines of the keyboard run
    out. Until then it only prints and reads. The path it returns is the
    one it was given, or else, to be written, a path that does not exist:
    no file other than the one asked for is ever overwritten. When the
    file does not exist, or the overwrite flag is set, it gives the path
    back to be written and reads nothing. *)
Theorem file_conflict_outcome (w : world) (filename : string)
    (overwrite_flag : bool) (st : state) :
  exists o evs kb',
    handle_file_conflict w filename overwrite_flag st
    = (o, {| trace := (trace st ++ evs)%list; stdin := kb';
             connected := connected st |})
    /\ forallb is_dialogue evs = true
    /\ conflict_result (files w) filename o
    /\ (negb (path_exists (files w) filename) || overwrite_flag = true ->
        o = Returned (filename, true) /\ kb' = stdin st
        /\ forallb is_print evs = true).
Proof. apply conflict_outcome. Qed.

(** The theorem for a file that does not exist. *)
Lemma file_conflict_outcome_witness :
  handle_file_conflict sample_world "out.csv" false (initial ["x"])
  = (Returned ("out.csv", true), initial ["x"]).
Proof.
  destruct (file_conflict_outcome sample_world "out.csv" false (initial ["x"]))
    as (o & evs & kb' & H & _ & _ & Hfree).
  destruct (Hfree eq_refl) as (-> & -> & _).
  rewrite H. vm_compute in H. injection H as H. now rewrite <- H.
Defined.

(** *** The answers at the prompt *)

(** The loop passes over the invalid answers. *)
Lemma choice_loop_skip (w : world) (filename : string) (invalid : list string) :
  forallb is_invalid invalid = true ->
  forall (rounds : nat) (st : state) (rest : list string),
    (length invalid <= rounds)%nat ->
    stdin st = (invalid ++ rest)%list ->
    choice_loop rounds w filename st
    = choice_loop (rounds - length invalid) w filename
        {| trace := (trace st ++ rejections invalid)%list; stdin := rest;
           connected := connected st |}.
Proof.
  induction invalid as [|x invalid IH]; intros Hinv rounds st rest Hr Hst;
    destruct st as [tr inp conn]; simpl in Hst; subst inp.
  - unfold rejections. simpl. now rewrite List.app_nil_r, Nat.sub_0_r.
  - simpl in Hinv. apply andb_prop in Hinv as [Hx Hinv].
    destruct (invalid_is_no_choice x Hx) as (Ho & Hrn & Hcn).
    destruct rounds as [|rounds]; [simpl in Hr; lia |].
    rewrite choice_loop_round. unfold input. run.
    rewrite Ho, Hrn, Hcn. run. change (tail (x :: invalid ++ rest)) with (invalid ++ rest)%list.
    rewrite (IH Hinv rounds _ rest); [| simpl in Hr; lia | reflexivity].
    cbn [trace connected length Nat.sub]. unfold rejections. simpl.
    now rewrite <- !List.app_assoc.
Qed.

(** The lines before the prompt. *)
Lemma conflict_banner (w : world) (filename : string) :
  path_exists (files w) filename = true ->
  leads_to is_print (handle_file_conflict w filename false)
    (ask_choice w filename).
Proof.
  intros Hex. unfold handle_file_conflict. rewrite Hex. simpl negb. cbv iota.
  repeat leads_step. apply leads_refl.
Qed.

Lemma overwrite_is_not_rename (line : string) :
  is_overwrite line = true -> is_rename line = false.
Proof.
  unfold is_overwrite, is_rename, PyStr.str_in. simpl. intros H.
  destruct (String.eqb_spec (choice_of line) "O") as [-> | _]; [reflexivity |].
  destruct (String.eqb_spec (choice_of line) "OVERWRITE") as [-> | _];
    [reflexivity | discriminate].
Qed.

(** X16. The file exists and the overwrite flag is not set. After any
    number of invalid answers, each of them rejected, the answer O or
    OVERWRITE (in any case, with spaces around it) gives the path back
    to be written; the answer R or RENAME gives, to be written, the path
    of [generate_unique_filename], which does not exist and so is not
    the path of the existing file. The lines of the keyboard after the
    answer are left unread. *)
Theorem prompt_answers (w : world) (filename : string)
    (invalid : list string) (answer : string) (rest : list string)
    (st : state) :
  path_exists (files w) filename = true ->
  forallb is_invalid invalid = true ->
  stdin st = (invalid ++ answer :: rest)%list ->
  exists banner,
    forallb is_print banner = true
    /\ (is_overwrite answer = true ->
        handle_file_conflict w filename false st
        = (Returned (filename, true),
           {| trace := (trace st ++ banner ++ rejections invalid
                        ++ [Input prompt; Print ("Overwriting: " ++ filename)])%list;
              stdin := rest; connected := connected st |}))
    /\ (is_rename answer = true ->
        exists new_filename,
          generate_unique_filename (S (size (files w))) (files w) (clock w)
            filename = Some new_filename
          /\ (new_filename ∉ files w)
          /\ new_filename <> filename
          /\ handle_file_conflict w filename false st
             = (Returned (new_filename, true),
                {| trace := (trace st ++ banner ++ rejections invalid
                             ++ [Input prompt;
                                 Print ("Creating new file: " ++ new_filename)])%list;
                   stdin := rest; connected := connected st |})).
Proof.
  intros Hex Hinv Hst.
  destruct (conflict_banner w filename Hex) as (banner & Hp & Hb).
  exists banner. split; [exact Hp |].
  assert (Hloop : handle_file_conflict w filename false st
                  = choice_loop (S (length rest)) w filename
                      {| trace := (trace st ++ banner ++ rejections invalid)%list;
                         stdin := answer :: rest; connected := connected st |}).
  { rewrite Hb. unfold ask_choice.
    rewrite (choice_loop_skip w filename invalid Hinv _ _ (answer :: rest));
      [| simpl; rewrite Hst, List.length_app; simpl; lia | exact Hst].
    cbn [log trace stdin connected]. rewrite Hst, List.length_app. simpl length.
    replace (length invalid + S (length rest) - length invalid)%nat
      with (S (length rest)) by lia.
    now rewrite <- List.app_assoc. }
  rewrite Hloop, choice_loop_round. unfold input. run.
  split.
  - intros Ho. unfold is_overwrite in Ho. rewrite Ho. run.
    now rewrite <- !List.app_assoc.
  - intros Hr. unfold is_rename in Hr.
    destruct (PyStr.str_in (choice_of answer) ["O"; "OVERWRITE"]) eqn:Ho.
    { apply overwrite_is_not_rename in Ho. unfold is_rename in Ho. congruence. }
    rewrite Hr.
    destruct (unique_filename_found (files w) (clock w) filename)
      as (new & Hnew & Hfree).
    exists new. rewrite Hnew. run. repeat split; try assumption.
    + intros ->. apply path_exists_true in Hex. contradiction.
    + now rewrite <- !List.app_assoc.
Qed.

(** The theorem in the sample directory, for the answers ["x"], [" r "]. *)
Lemma prompt_answers_witness :
  exists new_filename,
    (new_filename ∉ files sample_world)
    /\ fst (handle_file_conflict sample_world "SPY_STK_1Y_1d_OHLCV.csv" false
              (initial ["x"; " r "; "left"]))
       = Returned (new_filename, true).
Proof.
  destruct (prompt_answers sample_world "SPY_STK_1Y_1d_OHLCV.csv" ["x"] " r "
              ["left"] (initial ["x"; " r "; "left"]) eq_refl eq_refl eq_refl)
    as (banner & _ & _ & Hr).
  destruct (Hr eq_refl) as (new & _ & Hfree & _ & ->).
  exists new. split; [exact Hfree | reflexivity].
Defined.

End ConflictProps.

(** ** The shape of every run *)

Module RunShape.

Import PyDatetime Resolver Pipeline Config Run Spec Notions StrFacts RunProps
  ConflictProps.

Lemma externals_app (a b : list event) :
  externals (a ++ b) = (externals a ++ externals b)%list.
Proof. apply List.filter_app. Qed.

Lemma externals_prints (evs : list event) :
  forallb is_print evs = true -> externals evs = [].
Proof.
  induction evs as [|e evs IH]; [reflexivity |]. simpl.
  destruct e; simpl; try discriminate. exact IH.
Qed.

Lemma externals_dialogue (evs : list event) :
  forallb is_dialogue evs = true -> externals evs = [].
Proof.
  induction evs as [|e evs IH]; [reflexivity |]. simpl.
  destruct e; simpl; try discriminate; exact IH.
Qed.

Lemma advance_advance (a b : list event) (c d : option bool) (st : state) :
  advance b d (advance a c st)
  = advance (a ++ b) (match d with Some _ => d | None => c end) st.
Proof.
  unfold advance. simpl. rewrite List.app_assoc. destruct d; reflexivity.
Qed.

Lemma advance_nil (st : state) : advance [] None st = st.
Proof. destruct st. unfold advance. simpl. now rewrite List.app_nil_r. Qed.

Section Steps.

Context {A : Type}.

Lemma lw_refl (k : M A) : leads_with [] None k k.
Proof. exists []. split; [reflexivity |]. intros st. now rewrite advance_nil. Qed.

Lemma lw_emit (e : event) (f : unit -> M A) (k : M A) (xs : list event)
    (c : option bool) :
  leads_with xs c (f tt) k ->
  leads_with (if is_external e then e :: xs else xs) c (emit e ≫= f) k.
Proof.
  intros (evs & Hx & H). exists (e :: evs). split.
  - unfold externals in *. simpl. rewrite Hx. reflexivity.
  - intros st. unfold mbind, M_bind, emit. rewrite H.
    unfold advance. simpl. now rewrite <- List.app_assoc.
Qed.

Lemma lw_emit_ext (e : event) (f : unit -> M A) (k : M A) (xs : list event)
    (c : option bool) :
  is_external e = true ->
  leads_with xs c (f tt) k -> leads_with (e :: xs) c (emit e ≫= f) k.
Proof. intros He H. apply (lw_emit e) in H. now rewrite He in H. Qed.

Lemma lw_emit_quiet (e : event) (f : unit -> M A) (k : M A) (xs : list event)
    (c : option bool) :
  is_external e = false ->
  leads_with xs c (f tt) k -> leads_with xs c (emit e ≫= f) k.
Proof. intros He H. apply (lw_emit e) in H. now rewrite He in H. Qed.

Lemma lw_print (x : string) (f : unit -> M A) (k : M A) (xs : list event)
    (c : option bool) :
  leads_with xs c (f tt) k -> leads_with xs c (print x ≫= f) k.
Proof. now apply lw_emit_quiet. Qed.

Lemma lw_print_if (b : bool) (x : string) (f : unit -> M A) (k : M A)
    (xs : list event) (c : option bool) :
  leads_with xs c (f tt) k ->
  leads_with xs c ((if b then print x else mret tt) ≫= f) k.
Proof. intros H. destruct b; [now apply lw_print | exact H]. Qed.

Lemma lw_print_all (lines : list string) (f : unit -> M A) (k : M A)
    (xs : list event) (c : option bool) :
  leads_with xs c (f tt) k -> leads_with xs c (print_all lines ≫= f) k.
Proof.
  intros (evs & Hx & H). exists (map Print lines ++ evs)%list. split.
  - rewrite externals_app, Hx, externals_prints; [reflexivity |].
    clear. induction lines; simpl; auto.
  - intros st. unfold mbind, M_bind. rewrite print_all_log, H.
    unfold advance, log. simpl. now rewrite <- List.app_assoc.
Qed.

Lemma lw_ret {B : Type} (b : B) (f : B -> M A) (k : M A) (xs : list event)
    (c : option bool) :
  leads_with xs c (f b) k -> leads_with xs c (mret b ≫= f) k.
Proof. intros H. exact H. Qed.

Lemma lw_set_connected (b : bool) (f : unit -> M A) (k : M A)
    (xs : list event) :
  leads_with xs None (f tt) k ->
  leads_with xs (Some b) (set_connected b ≫= f) k.
Proof.
  intros (evs & Hx & H). exists evs. split; [exact Hx |].
  intros st. unfold mbind, M_bind, set_connected. now rewrite H.
Qed.

Lemma lw_assoc {B C : Type} (m : M B) (g : B -> M C) (f : C -> M A) (k : M A)
    (xs : list event) (c : option bool) :
  leads_with xs c (m ≫= fun x => g x ≫= f) k ->
  leads_with xs c ((m ≫= g) ≫= f) k.
Proof.
  intros (evs & Hx & H). exists evs. split; [exact Hx |].
  intros st. rewrite <- H. unfold mbind, M_bind.
  destruct (m st) as [[x| |] st']; reflexivity.
Qed.

(** The last step of a run. *)
Lemma lw_last_print (x : string) :
  leads_with [] None (print x) (done (Returned tt)).
Proof. exists [Print x]. split; reflexivity. Qed.

Lemma lw_last_ret (a : A) :
  leads_with [] None (mret a : M A) (done (Returned a)).
Proof. exists []. split; [reflexivity |]. intros st. unfold done. now rewrite advance_nil. Qed.

Lemma lw_last_raise (e : exn) :
  leads_with [] None (raise e : M A) (done (Raised e)).
Proof. exists []. split; [reflexivity |]. intros st. unfold done. now rewrite advance_nil. Qed.

Lemma lw_raise {B : Type} (e : exn) (f : B -> M A) :
  leads_with [] None (raise e ≫= f) (done (Raised e)).
Proof. exists []. split; [reflexivity |]. intros st. unfold done. now rewrite advance_nil. Qed.

End Steps.

Lemma lw_last_print_if (b : bool) (x : string) :
  leads_with [] None (if b then print x else mret tt) (done (Returned tt)).
Proof. destruct b; [apply lw_last_print | apply lw_last_ret]. Qed.

Lemma lw_trans {A : Type} (m k k' : M A) (xs ys : list event)
    (c d : option bool) :
  leads_with xs c m k -> leads_with ys d k k' ->
  leads_with (xs ++ ys) (match d with Some _ => d | None => c end) m k'.
Proof.
  intros (e1 & H1 & E1) (e2 & H2 & E2). exists (e1 ++ e2)%list. split.
  - now rewrite externals_app, H1, H2.
  - intros st. now rewrite E1, E2, advance_advance.
Qed.

(** One step of a run. *)
Ltac lw_step :=
  lazymatch goal with
  | |- leads_with _ _ (print _ ≫= _) _ => apply lw_print
  | |- leads_with _ _ (emit _ ≫= _) _ =>
      first [ apply lw_emit_ext; [reflexivity |]
            | apply lw_emit_quiet; [reflexivity |] ]
  | |- leads_with _ _ ((if _ then print _ else mret tt) ≫= _) _ =>
      apply lw_print_if
  | |- leads_with _ _ (print_all _ ≫= _) _ => apply lw_print_all
  | |- leads_with _ _ (set_connected _ ≫= _) _ => apply lw_set_connected
  | |- leads_with _ _ (mret _ ≫= _) _ => apply lw_ret
  | |- leads_with _ _ (raise _ ≫= _) _ => apply lw_raise
  | |- leads_with _ _ ((_ ≫= _) ≫= _) _ => apply lw_assoc
  end;
  cbv beta iota zeta.

Ltac lw_last :=
  lazymatch goal with
  | |- leads_with _ _ (print _) _ => apply lw_last_print
  | |- leads_with _ _ (if _ then _ else _) _ => apply lw_last_print_if
  | |- leads_with _ _ (mret _) _ => apply lw_last_ret
  | |- leads_with _ _ (raise _) _ => apply lw_last_raise
  end.

(** *** The body of the [try] statement, case by case *)

Section Body.

Variables (w : world) (a : args) (ets hd : string).

Abbreviation body :=
  (fetch_body w (arg_symbol a) (arg_timeframe a) hd ets (output_path a hd)
     (arg_timezone a) (arg_overwrite a) (arg_eth a) (negb (arg_eth a))).

Abbreviation not_qualified :=
  (LookupError ("Contract for " ++ TARGET_SYMBOL ++ " (" ++ SECURITY_TYPE
     ++ ") could not be qualified. "
     ++ "Please check symbol, security type, exchange, and other parameters.")).

Ltac to_the_contract :=
  unfold fetch_body; do 2 lw_step;
  match goal with H : connect w = _ |- _ => rewrite H end;
  unfold lift, Ok, Raise; cbv iota.

Ltac to_the_request :=
  to_the_contract; do 3 lw_step; unfold create_contract;
  cbv beta iota zeta delta [from_option id];
  change (String.eqb SECURITY_TYPE "STK") with true; cbv iota;
  do 5 lw_step;
  match goal with H : qualifyContracts w _ = _ |- _ =>
    unfold stock in H; rewrite H end;
  cbv iota.

Ltac to_the_bars :=
  to_the_request; do 9 lw_step; lw_step;
  match goal with H : reqHistoricalData w = _ |- _ => rewrite H end;
  unfold lift, Ok, Raise; cbv iota.

Lemma body_no_connection (e : exn) :
  connect w = Raise e ->
  leads_with [connection] None body (done (Raised e)).
Proof. intros H. to_the_contract. lw_step. Qed.

Lemma body_not_qualified (u : unit) :
  connect w = Ok u -> qualifyContracts w (stock a) = [] ->
  leads_with [connection; QualifyContracts (stock a)] (Some true) body
    (done (Raised not_qualified)).
Proof. intros H Hq. to_the_request. lw_last. Qed.

Lemma body_request_fails (u : unit) (q : contract) (qs : list contract)
    (e : exn) :
  connect w = Ok u -> qualifyContracts w (stock a) = q :: qs ->
  reqHistoricalData w = Raise e ->
  leads_with [connection; QualifyContracts (stock a); request a ets hd q]
    (Some true) body (done (Raised e)).
Proof. intros H Hq Hr. to_the_bars. lw_step. Qed.

Lemma body_no_bars (u : unit) (q : contract) (qs : list contract) :
  connect w = Ok u -> qualifyContracts w (stock a) = q :: qs ->
  reqHistoricalData w = Ok [] ->
  leads_with [connection; QualifyContracts (stock a); request a ets hd q]
    (Some true) body (done (Returned tt)).
Proof. intros H Hq Hr. to_the_bars. do 2 lw_step. lw_last. Qed.

Lemma body_no_dataframe (u : unit) (q : contract) (qs : list contract)
    (b : bar) (bars : list bar) :
  connect w = Ok u -> qualifyContracts w (stock a) = q :: qs ->
  reqHistoricalData w = Ok (b :: bars) ->
  match util_df w (b :: bars) with
  | Some df => df_empty df = true
  | None => True
  end ->
  leads_with [connection; QualifyContracts (stock a); request a ets hd q]
    (Some true) body (done (Returned tt)).
Proof.
  intros H Hq Hr Hdf. to_the_bars. do 2 lw_step.
  destruct (util_df w (b :: bars)) as [df|];
    [rewrite Hdf; simpl negb; cbv iota |]; lw_last.
Qed.

Lemma body_dataframe (u : unit) (q : contract) (qs : list contract)
    (b : bar) (bars : list bar) (df : dataframe) :
  connect w = Ok u -> qualifyContracts w (stock a) = q :: qs ->
  reqHistoricalData w = Ok (b :: bars) ->
  util_df w (b :: bars) = Some df -> df_empty df = false ->
  leads_with [connection; QualifyContracts (stock a); request a ets hd q]
    (Some true) body
    (save_dataframe w df (arg_symbol a) (arg_timeframe a) (output_path a hd)
       (arg_timezone a) (arg_overwrite a)).
Proof.
  intros H Hq Hr Hdf He. to_the_bars. do 2 lw_step. rewrite Hdf, He.
  simpl negb. cbv iota. apply lw_refl.
Qed.

End Body.

(** *** From the data frame to the file *)

Lemma save_dataframe_outcome (w : world) (df : dataframe)
    (target_symbol bar_size output_filename timezone_choice : string)
    (overwrite : bool) (st : state) :
  exists o evs kb',
    save_dataframe w df target_symbol bar_size output_filename timezone_choice
      overwrite st
    = (o, {| trace := (trace st ++ evs)%list; stdin := kb';
             connected := connected st |})
    /\ o <> Diverged
    /\ (externals evs = []
        \/ exists path table,
             (path = output_filename \/ path ∉ files w)
             /\ externals evs = [ToCsv path table]).
Proof.
  unfold save_dataframe. cbv zeta.
  match goal with
  | |- context [format_date_column w ?n ?col ?tz ?i] =>
      destruct (format_date_column_prints w n col tz i st)
        as (col' & evs1 & Hp1 & Hf)
  end.
  destruct (conflict_outcome w output_filename overwrite (log evs1 st))
    as (o & evs2 & kb' & Hh & Hd & Hres & _).
  apply externals_prints in Hp1. apply externals_dialogue in Hd.
  erewrite bind_returned by exact Hf.
  unfold mbind at 1, M_bind at 1. rewrite Hh. cbn [log trace stdin connected].
  destruct o as [[f p] | e |]; [| | destruct Hres].
  2:{ exists (Raised e), (evs1 ++ evs2)%list, kb'.
      rewrite List.app_assoc. split; [reflexivity |]. split; [discriminate |].
      left. now rewrite externals_app, Hp1, Hd. }
  destruct p; simpl negb; cbv iota.
  2:{ eexists (Returned tt), (evs1 ++ evs2 ++ [_])%list, kb'. run.
      rewrite !List.app_assoc. split; [reflexivity |]. split; [discriminate |].
      left. now rewrite !externals_app, Hp1, Hd. }
  assert (Hpath : f = output_filename \/ f ∉ files w).
  { destruct Hres as [-> | [_ Hfree]]; [now left | now right]. }
  assert (Hx : forall t lines,
            forallb is_print lines = true ->
            exists path table,
              (path = output_filename \/ path ∉ files w)
              /\ externals (evs1 ++ evs2 ++ ToCsv f t :: lines)
                 = [ToCsv path table]).
  { intros t lines Hl. exists f, t. split; [exact Hpath |].
    change (ToCsv f t :: lines) with ([ToCsv f t] ++ lines)%list.
    now rewrite !externals_app, Hp1, Hd, (externals_prints lines Hl). }
  destruct (to_csv w f) as [e | []] eqn:Hcsv; [destruct e |].
  7:{ eexists (Raised PermissionError),
        (evs1 ++ evs2 ++ ToCsv f _
           :: [Print _; Print _; Print _; Print _; Print _; Print _; Print _;
               Print _; Print _])%list, kb'.
      run. rewrite <- !List.app_assoc.
      split; [reflexivity |]. split; [discriminate |]. right. now apply Hx. }
  8:{ eexists (Returned tt), (evs1 ++ evs2 ++ ToCsv f _ :: [Print _])%list, kb'.
      run. rewrite <- !List.app_assoc.
      split; [reflexivity |]. split; [discriminate |]. right. now apply Hx. }
  all: eexists (Raised _), (evs1 ++ evs2 ++ ToCsv f _ :: [])%list, kb';
    run; rewrite <- !List.app_assoc;
    (split; [reflexivity |]); (split; [discriminate |]); right; now apply Hx.
Qed.

(** *** The clauses [except] and [finally] *)

Lemma fetch_handler_quiet (e : exn) (st : state) :
  exists evs,
    externals evs = []
    /\ fetch_handler e st = (Returned tt, log evs st).
Proof.
  destruct e; simpl; try (eexists [_]; split; cycle 1; reflexivity).
  all: eexists [_; _]; split; cycle 1;
    [run; unfold log; simpl; now rewrite <- List.app_assoc | reflexivity].
Qed.

(** The line or lines of the [finally] clause. *)
Lemma fetch_finally_closes (st : state) :
  fetch_finally st
  = (Returned tt,
     {| trace := (trace st ++ (if connected st then closing
                               else [Print no_connection_message]))%list;
        stdin := stdin st; connected := false |}).
Proof.
  destruct st as [tr kb c]. unfold fetch_finally. run.
  destruct c; [| reflexivity].
  unfold closing. now rewrite <- !List.app_assoc.
Qed.

(** The [try] statement around a body that ends. *)
Lemma try_statement (body : M unit) (o : outcome unit) (st st1 : state) :
  body st = (o, st1) -> o <> Diverged ->
  exists evs,
    externals evs = []
    /\ try_finally (try_except body fetch_handler) fetch_finally st
       = (Returned tt,
          {| trace := (trace st1 ++ evs
                       ++ (if connected st1 then closing
                           else [Print no_connection_message]))%list;
             stdin := stdin st1; connected := false |}).
Proof.
  intros Hb Ho. unfold try_finally, try_except. rewrite Hb.
  destruct o as [[] | e |]; [| | contradiction].
  - exists []. split; [reflexivity |]. now rewrite fetch_finally_closes.
  - destruct (fetch_handler_quiet e st1) as (evs & Hx & ->).
    exists evs. split; [exact Hx |]. rewrite fetch_finally_closes.
    unfold log. simpl. now rewrite <- List.app_assoc.
Qed.

(** *** The body, in every case *)

Lemma body_outcome (w : world) (a : args) (ets hd : string) (st : state) :
  connected st = false ->
  exists o evs kb' c,
    fetch_body w (arg_symbol a) (arg_timeframe a) hd ets (output_path a hd)
      (arg_timezone a) (arg_overwrite a) (arg_eth a) (negb (arg_eth a)) st
    = (o, {| trace := (trace st ++ evs)%list; stdin := kb'; connected := c |})
    /\ o <> Diverged
    /\ session_so_far w a ets hd c (externals evs).
Proof.
  intros Hst.
  destruct (connect w) as [e | u] eqn:Hc.
  { destruct (body_no_connection w a ets hd e Hc) as (evs & Hx & ->).
    exists (Raised e), evs, (stdin st), false. unfold done, advance.
    rewrite Hst. split; [reflexivity |]. split; [discriminate |].
    left. now split. }
  destruct (qualifyContracts w (stock a)) as [|q qs] eqn:Hq.
  { destruct (body_not_qualified w a ets hd u Hc Hq) as (evs & Hx & ->).
    eexists (Raised _), evs, (stdin st), true.
    split; [reflexivity |]. split; [discriminate |].
    right. split; [reflexivity |]. now left. }
  assert (Hshape : forall evs,
            externals evs = [connection; QualifyContracts (stock a);
                             request a ets hd q] ->
            session_so_far w a ets hd true (externals evs)).
  { intros evs Hx. right. split; [reflexivity |]. right. exists q.
    rewrite Hq. split; [reflexivity |]. now left. }
  destruct (reqHistoricalData w) as [e | [|b bars]] eqn:Hr.
  { destruct (body_request_fails w a ets hd u q qs e Hc Hq Hr) as (evs & Hx & ->).
    exists (Raised e), evs, (stdin st), true.
    split; [reflexivity |]. split; [discriminate |]. now apply Hshape. }
  { destruct (body_no_bars w a ets hd u q qs Hc Hq Hr) as (evs & Hx & ->).
    exists (Returned tt), evs, (stdin st), true.
    split; [reflexivity |]. split; [discriminate |]. now apply Hshape. }
  destruct (util_df w (b :: bars)) as [df|] eqn:Hdf;
    [destruct (df_empty df) eqn:He |].
  - destruct (body_no_dataframe w a ets hd u q qs b bars Hc Hq Hr)
      as (evs & Hx & ->); [now rewrite Hdf |].
    exists (Returned tt), evs, (stdin st), true.
    split; [reflexivity |]. split; [discriminate |]. now apply Hshape.
  - destruct (body_dataframe w a ets hd u q qs b bars df Hc Hq Hr Hdf He)
      as (evs & Hx & ->).
    destruct (save_dataframe_outcome w df (arg_symbol a) (arg_timeframe a)
                (output_path a hd) (arg_timezone a) (arg_overwrite a)
                (advance evs (Some true) st))
      as (o & evs' & kb' & -> & Ho & Hw).
    exists o, (evs ++ evs')%list, kb', true. cbn [advance trace connected].
    rewrite List.app_assoc. split; [reflexivity |]. split; [exact Ho |].
    rewrite externals_app, Hx. right. split; [reflexivity |]. right.
    exists q. rewrite Hq. split; [reflexivity |].
    destruct Hw as [-> | (path & table & Hpath & ->)]; [now left | right].
    exists path, table. now split.
  - destruct (body_no_dataframe w a ets hd u q qs b bars Hc Hq Hr)
      as (evs & Hx & ->); [now rewrite Hdf |].
    exists (Returned tt), evs, (stdin st), true.
    split; [reflexivity |]. split; [discriminate |]. now apply Hshape.
Qed.

(** [fetch_and_save_historical_data] when the dates resolve. *)
Lemma fetch_outcome (w : world) (a : args) (ets hd : string)
    (info : processed_info) (st : state) :
  process_date_arguments (arg_start_date a) (arg_end_date a) (arg_duration a)
    (arg_eth a) (clock w) = Ok (ets, hd, info) ->
  connected st = false ->
  exists evs kb',
    fetch_and_save_historical_data w (Some (arg_symbol a))
      (Some (arg_timeframe a)) (Some (arg_duration a)) (arg_output a)
      (arg_overwrite a) (arg_timezone a) (arg_start_date a)
      (arg_end_date a) (arg_eth a) st
    = (Returned tt,
       {| trace := (trace st ++ evs)%list; stdin := kb'; connected := false |})
    /\ session w a ets hd (externals evs).
Proof.
  intros Hp Hst.
  destruct (fetch_resolved w a ets hd info Hp) as (evs0 & H0 & ->).
  destruct (body_outcome w a ets hd (log evs0 st) Hst)
    as (o & evs1 & kb' & c & Hb & Ho & Hs).
  destruct (try_statement _ o _ _ Hb Ho) as (evs2 & H2 & ->).
  cbn [log trace stdin connected].
  eexists (evs0 ++ evs1 ++ evs2 ++ _)%list, kb'.
  rewrite <- !List.app_assoc. split; [reflexivity |].
  rewrite !externals_app, (externals_prints _ H0), H2. simpl List.app.
  destruct Hs as [[-> ->] | [-> Hs]]; [now left | right].
  destruct Hs as [-> | (q & Hq & Hs)]; [now left | right].
  exists q. split; [exact Hq |].
  destruct Hs as [-> | (path & table & Hpath & ->)]; [now left | right].
  exists path, table. now split.
Qed.

(** X17. Every run of [main] ends, with the connection closed, whatever
    the broker, the file system and the keyboard do. When the dates
    resolve, the exit status is 0, also after a failure, and the
    interactions with the broker and the file system are, in this order,
    the connection, the qualification of the stock contract, the request
    with the end timestamp and the duration of the resolver, at most one
    write, and the disconnection, cut short where a step fails: nothing
    is requested before the contract is qualified, nothing is written
    before bars are requested, and a connection that was made is closed.
    When the dates do not resolve there is no interaction at all, and the
    exit status is 0 for a [ValueError] and 1 otherwise. *)
Theorem every_run (w : world) (a : args) (keyboard : list string) :
  exists status st',
    main w a (initial keyboard) = (Returned status, st')
    /\ connected st' = false
    /\ match process_date_arguments (arg_start_date a) (arg_end_date a)
               (arg_duration a) (arg_eth a) (clock w) with
       | inr (ets, hd, _) =>
           status = 0 /\ session w a ets hd (externals (trace st'))
       | inl (ValueError _) => status = 0 /\ externals (trace st') = []
       | inl _ => status = 1 /\ externals (trace st') = []
       end.
Proof.
  destruct (main_header w a) as (header & Hh & ->).
  apply externals_prints in Hh.
  destruct (process_date_arguments _ _ _ _ _) as [e | [[ets hd] info]] eqn:Hp.
  - assert (Hf : forall st,
              fetch_and_save_historical_data w (Some (arg_symbol a))
                (Some (arg_timeframe a)) (Some (arg_duration a)) (arg_output a)
                (arg_overwrite a) (arg_timezone a) (arg_start_date a)
                (arg_end_date a) (arg_eth a) st
              = match e with
                | ValueError msg => print ("ERROR: " ++ msg) st
                | _ => (Raised e, st)
                end).
    { intros st. unfold fetch_and_save_historical_data.
      cbv beta iota zeta delta [from_option id]. rewrite Hp.
      destruct e; reflexivity. }
    unfold try_except, mbind, M_bind. rewrite Hf.
    destruct e; run; eexists _, _; (split; [reflexivity |]);
      (split; [reflexivity |]); (split; [reflexivity |]);
      cbn [trace]; rewrite !externals_app, Hh; reflexivity.
  - destruct (fetch_outcome w a ets hd info (log header (initial keyboard)) Hp
                eq_refl) as (evs & kb' & Hf & Hs).
    unfold try_except. erewrite bind_returned by exact Hf.
    eexists 0, _. split; [reflexivity |]. split; [reflexivity |].
    split; [reflexivity |]. cbn [trace log initial].
    now rewrite !externals_app, Hh.
Qed.

End RunShape.

(** ** The runs that fail *)

Module RunFailures.

Import PyDatetime Resolver Pipeline Config Run Spec Notions StrFacts RunProps
  ConflictProps RunShape.

Lemma fetch_handler_lines (e : exn) (st : state) :
  fetch_handler e st = (Returned tt, log (handler_lines e) st).
Proof.
  destruct e; try reflexivity; simpl; run; unfold log; simpl;
    now rewrite <- List.app_assoc.
Qed.

(** The [try] statement around a body that ends with [o]. *)
Lemma try_statement_ends (body : M unit) (o : outcome unit) (st st1 : state) :
  body st = (o, st1) -> o <> Diverged ->
  try_finally (try_except body fetch_handler) fetch_finally st
  = (Returned tt,
     {| trace := (trace st1 ++ outcome_lines o
                  ++ (if connected st1 then closing
                      else [Print no_connection_message]))%list;
        stdin := stdin st1; connected := false |}).
Proof.
  intros Hb Ho. unfold try_finally, try_except. rewrite Hb.
  destruct o as [[] | e |]; [| | contradiction].
  - now rewrite fetch_finally_closes.
  - rewrite fetch_handler_lines, fetch_finally_closes.
    unfold log. simpl. now rewrite <- List.app_assoc.
Qed.

(** A run whose dates resolve and whose body, after events whose
    external ones are [xs], goes on as [k], which ends with [o] after the
    events [tail], the keyboard then holding [rest]. *)
Lemma main_body_reads (w : world) (a : args) (ets hd : string)
    (info : processed_info) (keyboard rest : list string)
    (xs tail : list event) (c : option bool) (k : M unit) (o : outcome unit) :
  process_date_arguments (arg_start_date a) (arg_end_date a) (arg_duration a)
    (arg_eth a) (clock w) = Ok (ets, hd, info) ->
  leads_with xs c
    (fetch_body w (arg_symbol a) (arg_timeframe a) hd ets (output_path a hd)
       (arg_timezone a) (arg_overwrite a) (arg_eth a) (negb (arg_eth a)))
    k ->
  (forall st, stdin st = keyboard ->
     k st = (o, {| trace := (trace st ++ tail)%list; stdin := rest;
                   connected := connected st |})) ->
  o <> Diverged ->
  exists before,
    externals before = xs
    /\ main w a (initial keyboard)
       = (Returned 0,
          {| trace := (before ++ tail ++ outcome_lines o
                       ++ (if match c with Some b => b | None => false end
                           then closing else [Print no_connection_message]))%list;
             stdin := rest; connected := false |}).
Proof.
  intros Hp (evs & Hx & Hb) Hk Ho.
  destruct (main_header w a) as (header & Hh & ->).
  destruct (fetch_resolved w a ets hd info Hp) as (evs0 & H0 & Hf).
  exists (header ++ evs0 ++ evs)%list. split.
  - now rewrite !externals_app, (externals_prints _ Hh), (externals_prints _ H0).
  - unfold try_except at 1. erewrite bind_returned; [reflexivity |].
    rewrite Hf. erewrite try_statement_ends;
      [| rewrite Hb; now apply Hk | exact Ho].
    unfold done, advance, log, initial. simpl.
    rewrite <- !List.app_assoc. destruct c as [[]|]; reflexivity.
Qed.

Lemma main_body_tail (w : world) (a : args) (ets hd : string)
    (info : processed_info) (keyboard : list string) (xs tail : list event)
    (c : option bool) (k : M unit) (o : outcome unit) :
  process_date_arguments (arg_start_date a) (arg_end_date a) (arg_duration a)
    (arg_eth a) (clock w) = Ok (ets, hd, info) ->
  leads_with xs c
    (fetch_body w (arg_symbol a) (arg_timeframe a) hd ets (output_path a hd)
       (arg_timezone a) (arg_overwrite a) (arg_eth a) (negb (arg_eth a)))
    k ->
  (forall st, k st = (o, log tail st)) ->
  o <> Diverged ->
  exists before,
    externals before = xs
    /\ main w a (initial keyboard)
       = (Returned 0,
          {| trace := (before ++ tail ++ outcome_lines o
                       ++ (if match c with Some b => b | None => false end
                           then closing else [Print no_connection_message]))%list;
             stdin := keyboard; connected := false |}).
Proof.
  intros Hp Hb Hk Ho.
  apply (main_body_reads w a ets hd info keyboard keyboard xs tail c k o Hp Hb);
    [| exact Ho].
  intros st Hst. rewrite Hk. unfold log. now rewrite Hst.
Qed.

Lemma main_body_ends (w : world) (a : args) (ets hd : string)
    (info : processed_info) (keyboard : list string) (xs : list event)
    (c : option bool) (o : outcome unit) :
  process_date_arguments (arg_start_date a) (arg_end_date a) (arg_duration a)
    (arg_eth a) (clock w) = Ok (ets, hd, info) ->
  leads_with xs c
    (fetch_body w (arg_symbol a) (arg_timeframe a) hd ets (output_path a hd)
       (arg_timezone a) (arg_overwrite a) (arg_eth a) (negb (arg_eth a)))
    (done o) ->
  o <> Diverged ->
  exists before,
    externals before = xs
    /\ main w a (initial keyboard)
       = (Returned 0,
          {| trace := (before ++ outcome_lines o
                       ++ (if match c with Some b => b | None => false end
                           then closing else [Print no_connection_message]))%list;
             stdin := keyboard; connected := false |}).
Proof.
  intros Hp Hb Ho.
  apply (main_body_tail w a ets hd info keyboard xs [] c (done o) o Hp Hb);
    [| exact Ho].
  intros st. unfold done. now rewrite log_nil.
Qed.

(** X18. When the connection to the broker fails, with any exception,
    the run does nothing else with the broker or the file system: after
    the attempt to connect it prints what the [except] clause for the
    exception prints and that there is no connection to close; it does
    not disconnect, and the exit status is 0. *)
Theorem connection_failure (w : world) (a : args) (ets hd : string)
    (info : processed_info) (keyboard : list string) (e : exn) :
  process_date_arguments (arg_start_date a) (arg_end_date a) (arg_duration a)
    (arg_eth a) (clock w) = Ok (ets, hd, info) ->
  connect w = Raise e ->
  exists before,
    externals before = [connection]
    /\ main w a (initial keyboard)
       = (Returned 0,
          {| trace := (before ++ handler_lines e
                       ++ [Print no_connection_message])%list;
             stdin := keyboard; connected := false |}).
Proof.
  intros Hp Hc.
  exact (main_body_ends w a ets hd info keyboard _ _ (Raised e) Hp
           (body_no_connection w a ets hd e Hc) ltac:(discriminate)).
Qed.

(** The theorem for a broker that refuses the connection. *)
Lemma connection_failure_witness :
  exists before,
    externals before = [connection]
    /\ main (with_connect (Raise ConnectionRefusedError) sample_world)
         (sample_args None None None) (initial [])
       = (Returned 0,
          {| trace := (before ++ handler_lines ConnectionRefusedError
                       ++ [Print no_connection_message])%list;
             stdin := []; connected := false |}).
Proof.
  apply (connection_failure (with_connect (Raise ConnectionRefusedError)
                               sample_world)
           (sample_args None None None) "20261103 16:00:00" "1 Y"
           (duration_only "1 Y") [] ConnectionRefusedError);
    reflexivity.
Defined.

(** X19. When the broker qualifies no contract, the run stops before
    any request for data: it prints the error of the [LookupError], which
    names the symbol and the security type of the configuration ([SPY],
    [STK]) whatever symbol was asked for, closes the connection and ends
    with the exit status 0. *)
Theorem contract_not_qualified (w : world) (a : args) (ets hd : string)
    (info : processed_info) (keyboard : list string) (u : unit) :
  process_date_arguments (arg_start_date a) (arg_end_date a) (arg_duration a)
    (arg_eth a) (clock w) = Ok (ets, hd, info) ->
  connect w = Ok u ->
  qualifyContracts w (stock a) = [] ->
  exists before,
    externals before = [connection; QualifyContracts (stock a)]
    /\ main w a (initial keyboard)
       = (Returned 0,
          {| trace := (before
                       ++ [Print (nl ++ "ERROR: " ++ not_qualified_message)]
                       ++ closing)%list;
             stdin := keyboard; connected := false |}).
Proof.
  intros Hp Hc Hq.
  exact (main_body_ends w a ets hd info keyboard _ _ (Raised _) Hp
           (body_not_qualified w a ets hd u Hc Hq) ltac:(discriminate)).
Qed.

(** The theorem for the symbol AAPL, which the message does not name. *)
Lemma contract_not_qualified_witness :
  let a := {| arg_symbol := "AAPL"; arg_timeframe := "1 day";
              arg_duration := "1 Y"; arg_output := None;
              arg_overwrite := false; arg_timezone := "UTC";
              arg_start_date := None; arg_end_date := None;
              arg_eth := false |} in
  exists before,
    externals before = [connection; QualifyContracts (stock a)]
    /\ main (with_contracts [] sample_world) a (initial [])
       = (Returned 0,
          {| trace := (before
                       ++ [Print (nl ++ "ERROR: " ++ not_qualified_message)]
                       ++ closing)%list;
             stdin := []; connected := false |}).
Proof.
  apply (contract_not_qualified (with_contracts [] sample_world) _
           "20261103 16:00:00" "1 Y" (duration_only "1 Y") [] tt);
    reflexivity.
Defined.

(** *** The write *)

(** [save_dataframe] for a date column of dtype datetime64, when the
    file does not exist or the overwrite flag is set: the table is
    written to the path asked for. *)
Lemma save_datetime64 (w : world) (a : args) (hd : string) (df : dataframe)
    (values : list datetime) :
  df_date df = datetime64 values ->
  negb (path_exists (files w) (output_path a hd)) || arg_overwrite a = true ->
  exists note,
    forallb is_print note = true
    /\ forall st,
        save_dataframe w df (arg_symbol a) (arg_timeframe a) (output_path a hd)
          (arg_timezone a) (arg_overwrite a) st
        = (write_outcome w (output_path a hd),
           log (note ++ ToCsv (output_path a hd) (written_table w a df values)
                        :: write_lines w (output_path a hd)) st).
Proof.
  intros Hcol Hfree. unfold save_dataframe, write_outcome, write_lines.
  cbv zeta. rewrite Hcol.
  fold (output_date_column w (arg_timezone a) (arg_symbol a) (arg_timeframe a)).
  unfold handle_file_conflict, format_date_column.
  destruct (path_exists (files w) (output_path a hd)); simpl in Hfree;
    [rewrite Hfree; eexists [Print _] | exists []];
    (split; [reflexivity |]); intros st; run;
    (destruct (to_csv w (output_path a hd)) as [e | []]; [destruct e |]);
    run; unfold written_table, log; simpl; rewrite <- ?List.app_assoc;
    reflexivity.
Qed.

(** A run that gets as far as a data frame with a date column of dtype
    datetime64, the file being free or the overwrite flag set. *)
Lemma main_writes (w : world) (a : args) (ets hd : string)
    (info : processed_info) (df : dataframe) (values : list datetime)
    (keyboard : list string) :
  reaches_save w a ets hd info df ->
  df_date df = datetime64 values ->
  negb (path_exists (files w) (output_path a hd)) || arg_overwrite a = true ->
  exists before q,
    head (qualifyContracts w (stock a)) = Some q
    /\ externals before
       = [connection; QualifyContracts (stock a); request a ets hd q]
    /\ main w a (initial keyboard)
       = (Returned 0,
          {| trace :=
               (before
                ++ ToCsv (output_path a hd) (written_table w a df values)
                   :: write_lines w (output_path a hd)
                ++ outcome_lines (write_outcome w (output_path a hd))
                ++ closing)%list;
             stdin := keyboard; connected := false |}).
Proof.
  intros [Hp Hconn Hq (b & bars & Hreq & Hdf) Hne] Hcol Hfree.
  fold (stock a) in Hq.
  destruct (qualifyContracts w (stock a)) as [|q qs] eqn:Hqual; [contradiction |].
  destruct (save_datetime64 w a hd df values Hcol Hfree) as (note & Hn & Hsave).
  destruct (main_body_tail w a ets hd info keyboard _ _ _ _ _ Hp
              (body_dataframe w a ets hd tt q qs b bars df Hconn Hqual Hreq Hdf Hne)
              Hsave)
    as (before & Hx & Hmain).
  { unfold write_outcome. destruct (to_csv w _); discriminate. }
  exists (before ++ note)%list, q. split; [reflexivity |]. split.
  - now rewrite externals_app, Hx, (externals_prints _ Hn), List.app_nil_r.
  - rewrite Hmain. simpl. now rewrite <- !List.app_assoc.
Qed.

(** X20. The run that succeeds. When the dates resolve, the broker
    accepts the connection, qualifies the contract and returns bars that
    make a data frame with times of dtype datetime64, when the output file
    does not exist or the overwrite flag is set, and the write succeeds:
    one table is written, to the path asked for, after the request; its
    date column is named [Date] or [DateTime_<zone>] and holds the times
    converted to the target zone and formatted, its other columns are the
    rows of the data frame, all of them; then the success line is
    printed, the connection is closed, and the exit status is 0. *)
Theorem successful_run (w : world) (a : args) (ets hd : string)
    (info : processed_info) (df : dataframe) (values : list datetime)
    (keyboard : list string) :
  reaches_save w a ets hd info df ->
  df_date df = datetime64 values ->
  negb (path_exists (files w) (output_path a hd)) || arg_overwrite a = true ->
  to_csv w (output_path a hd) = Ok tt ->
  exists before q,
    head (qualifyContracts w (stock a)) = Some q
    /\ externals before
       = [connection; QualifyContracts (stock a); request a ets hd q]
    /\ main w a (initial keyboard)
       = (Returned 0,
          {| trace :=
               (before
                ++ [ToCsv (output_path a hd) (written_table w a df values);
                    Print (success_message (output_path a hd))]
                ++ closing)%list;
             stdin := keyboard; connected := false |}).
Proof.
  intros Hreach Hcol Hfree Hcsv.
  destruct (main_writes w a ets hd info df values keyboard Hreach Hcol Hfree)
    as (before & q & Hq & Hx & Hmain).
  exists before, q. split; [exact Hq |]. split; [exact Hx |].
  rewrite Hmain. unfold write_lines, write_outcome. rewrite Hcsv. reflexivity.
Qed.

(** The theorem in the sample environment, with a data frame of two
    bars and an output file that does not exist. *)
Lemma successful_run_witness :
  let w := with_dataframe sample_dataframe sample_world in
  let a := sample_args None None (Some "out.csv") in
  exists before q,
    head (qualifyContracts w (stock a)) = Some q
    /\ externals before
       = [connection; QualifyContracts (stock a);
          request a "20261103 16:00:00" "1 Y" q]
    /\ main w a (initial [])
       = (Returned 0,
          {| trace :=
               (before
                ++ [ToCsv "out.csv"
                      {| date_column_name := "Date";
                         date_values :=
                           object [cell_str "2024-01-02"; cell_str "2024-01-03"];
                         rows := df_rows sample_dataframe |};
                    Print (success_message "out.csv")]
                ++ closing)%list;
             stdin := []; connected := false |}).
Proof.
  intros w a.
  apply (successful_run w a "20261103 16:00:00" "1 Y" (duration_only "1 Y")
           sample_dataframe sample_times []);
    try reflexivity.
  constructor; try reflexivity.
  - discriminate.
  - do 2 eexists. split; reflexivity.
Defined.

(** X21. The run whose write fails. In the same situation, when the
    write raises an exception: the write is attempted once; for a
    [PermissionError] the causes and the solutions are printed; the
    exception is then reported by the [except] clauses, the connection is
    closed, no success line is printed, and the exit status is still 0. *)
Theorem failed_write (w : world) (a : args) (ets hd : string)
    (info : processed_info) (df : dataframe) (values : list datetime)
    (keyboard : list string) (e : exn) :
  reaches_save w a ets hd info df ->
  df_date df = datetime64 values ->
  negb (path_exists (files w) (output_path a hd)) || arg_overwrite a = true ->
  to_csv w (output_path a hd) = Raise e ->
  exists before q,
    head (qualifyContracts w (stock a)) = Some q
    /\ externals before
       = [connection; QualifyContracts (stock a); request a ets hd q]
    /\ main w a (initial keyboard)
       = (Returned 0,
          {| trace :=
               (before
                ++ ToCsv (output_path a hd) (written_table w a df values)
                   :: write_failure_lines (output_path a hd) e
                ++ handler_lines e ++ closing)%list;
             stdin := keyboard; connected := false |}).
Proof.
  intros Hreach Hcol Hfree Hcsv.
  destruct (main_writes w a ets hd info df values keyboard Hreach Hcol Hfree)
    as (before & q & Hq & Hx & Hmain).
  exists before, q. split; [exact Hq |]. split; [exact Hx |].
  rewrite Hmain. unfold write_lines, write_outcome. rewrite Hcsv. reflexivity.
Qed.

(** The theorem in the sample environment, for a file that is open in
    another application. *)
Lemma failed_write_witness :
  let w := with_to_csv (Raise PermissionError)
             (with_dataframe sample_dataframe sample_world) in
  let a := sample_args None None (Some "out.csv") in
  exists before q,
    head (qualifyContracts w (stock a)) = Some q
    /\ externals before
       = [connection; QualifyContracts (stock a);
          request a "20261103 16:00:00" "1 Y" q]
    /\ main w a (initial [])
       = (Returned 0,
          {| trace :=
               (before
                ++ ToCsv "out.csv" (written_table w a sample_dataframe sample_times)
                   :: write_failure_lines "out.csv" PermissionError
                ++ handler_lines PermissionError ++ closing)%list;
             stdin := []; connected := false |}).
Proof.
  intros w a.
  apply (failed_write w a "20261103 16:00:00" "1 Y" (duration_only "1 Y")
           sample_dataframe sample_times [] PermissionError);
    try reflexivity.
  constructor; try reflexivity.
  - discriminate.
  - do 2 eexists. split; reflexivity.
Defined.

(** X22. When the broker returns no bars, or bars of which no data
    frame can be made, nothing is written: the run closes the connection
    and ends with the exit status 0. *)
Theorem no_data_no_write (w : world) (a : args) (ets hd : string)
    (info : processed_info) (keyboard : list string) (q : contract)
    (qs : list contract) (bars : list bar) :
  process_date_arguments (arg_start_date a) (arg_end_date a) (arg_duration a)
    (arg_eth a) (clock w) = Ok (ets, hd, info) ->
  connect w = Ok tt ->
  qualifyContracts w (stock a) = q :: qs ->
  reqHistoricalData w = Ok bars ->
  (bars = []
   \/ match util_df w bars with
      | Some df => df_empty df = true
      | None => True
      end) ->
  exists before,
    externals before
    = [connection; QualifyContracts (stock a); request a ets hd q]
    /\ main w a (initial keyboard)
       = (Returned 0,
          {| trace := (before ++ closing)%list;
             stdin := keyboard; connected := false |}).
Proof.
  intros Hp Hc Hq Hr Hno.
  assert (Hb : leads_with
                 [connection; QualifyContracts (stock a); request a ets hd q]
                 (Some true)
                 (fetch_body w (arg_symbol a) (arg_timeframe a) hd ets
                    (output_path a hd) (arg_timezone a) (arg_overwrite a)
                    (arg_eth a) (negb (arg_eth a)))
                 (done (Returned tt))).
  { destruct bars as [|b bars].
    - now apply (body_no_bars w a ets hd tt q qs).
    - destruct Hno as [Hno | Hno]; [discriminate |].
      now apply (body_no_dataframe w a ets hd tt q qs b bars). }
  exact (main_body_ends w a ets hd info keyboard _ _ (Returned tt) Hp Hb
           ltac:(discriminate)).
Qed.

(** The theorem for a broker that has no bars. *)
Lemma no_data_no_write_witness :
  let w := with_bars (Ok []) sample_world in
  let a := sample_args None None None in
  exists before,
    externals before
    = [connection; QualifyContracts (stock a);
       request a "20261103 16:00:00" "1 Y"
         {| localSymbol := "SPY"; exchange := "SMART"; conId := 756733;
            symbol := "SPY" |}]
    /\ main w a (initial [])
       = (Returned 0,
          {| trace := (before ++ closing)%list;
             stdin := []; connected := false |}).
Proof.
  intros w a.
  apply (no_data_no_write w a "20261103 16:00:00" "1 Y" (duration_only "1 Y")
           [] _ [] []); try reflexivity.
  now left.
Defined.

(** *** The prompt without an answer *)

(** The loop of the prompt when every line of the keyboard is invalid. *)
Lemma choice_loop_end_of_input (w : world) (filename : string) (st : state) :
  forallb is_invalid (stdin st) = true ->
  ask_choice w filename st
  = (Raised EOFError,
     {| trace := (trace st ++ rejections (stdin st) ++ [Input prompt])%list;
        stdin := []; connected := connected st |}).
Proof.
  intros Hinv. unfold ask_choice.
  rewrite (choice_loop_skip w filename (stdin st) Hinv _ st []);
    [| lia | now rewrite List.app_nil_r].
  rewrite choice_loop_round. unfold input. run.
  now rewrite <- List.app_assoc.
Qed.

(** X23. The file exists, the overwrite flag is not set, and no line of
    the keyboard is a valid answer (there may be none at all, as in a run
    without a terminal). In a run that gets as far as the data frame, each
    line is rejected, the prompt then ends in [EOFError], which the
    [except] clauses report as an unexpected error with a traceback;
    nothing is written, the connection is closed, and the exit status is
    0. *)
Theorem prompt_without_answer (w : world) (a : args) (ets hd : string)
    (info : processed_info) (df : dataframe) (keyboard : list string) :
  reaches_save w a ets hd info df ->
  path_exists (files w) (output_path a hd) = true ->
  arg_overwrite a = false ->
  forallb is_invalid keyboard = true ->
  exists before,
    existsb is_write before = false
    /\ main w a (initial keyboard)
       = (Returned 0,
          {| trace := (before ++ rejections keyboard ++ [Input prompt]
                       ++ handler_lines EOFError ++ closing)%list;
             stdin := []; connected := false |}).
Proof.
  intros [Hp Hconn Hq (b & bars & Hreq & Hdf) Hne] Hex How Hinv.
  fold (stock a) in Hq.
  destruct (qualifyContracts w (stock a)) as [|q qs] eqn:Hqual; [contradiction |].
  assert (Hsave : exists evs,
            forallb is_print evs = true
            /\ forall st, stdin st = keyboard ->
                save_dataframe w df (arg_symbol a) (arg_timeframe a)
                  (output_path a hd) (arg_timezone a) (arg_overwrite a) st
                = (Raised EOFError,
                   {| trace := (trace st ++ evs ++ rejections keyboard
                                ++ [Input prompt])%list;
                      stdin := []; connected := connected st |})).
  { destruct (conflict_banner w (output_path a hd) Hex) as (banner & Hb & Hh).
    assert (Hcol : exists evs1, forallb is_print evs1 = true
              /\ forall st, exists col',
                   format_date_column w
                     (output_date_column w (arg_timezone a) (arg_symbol a)
                        (arg_timeframe a))
                     (df_date df)
                     (get_target_timezone (arg_timezone a) (arg_symbol a))
                     (is_intraday_timeframe (arg_timeframe a)) st
                   = (Returned col', log evs1 st)).
    { unfold format_date_column. destruct (df_date df) as [v | v | v].
      - exists []. split; [reflexivity |]. intros st. eexists.
        now rewrite log_nil.
      - destruct (pd_to_datetime w v).
        + exists []. split; [reflexivity |]. intros st. eexists.
          now rewrite log_nil.
        + eexists [_]. split; cycle 1; [intros st; eexists; reflexivity |].
          reflexivity.
      - exists []. split; [reflexivity |]. intros st. eexists.
        now rewrite log_nil. }
    destruct Hcol as (evs1 & H1 & Hcol).
    exists (evs1 ++ banner)%list. split; [now rewrite forallb_app, H1, Hb |].
    intros st Hst. unfold save_dataframe. cbv zeta.
    fold (output_date_column w (arg_timezone a) (arg_symbol a) (arg_timeframe a)).
    destruct (Hcol st) as (col' & Hf).
    erewrite bind_returned by exact Hf.
    unfold mbind at 1, M_bind at 1. rewrite How, Hh.
    rewrite choice_loop_end_of_input;
      cbn [log trace stdin connected]; rewrite Hst; [| exact Hinv].
    now rewrite <- !List.app_assoc. }
  destruct Hsave as (evs & Hevs & Hsave).
  destruct (main_body_reads w a ets hd info keyboard [] _ _ _ _ (Raised EOFError)
              Hp
              (body_dataframe w a ets hd tt q qs b bars df Hconn Hqual Hreq Hdf Hne)
              Hsave ltac:(discriminate))
    as (before & Hx & Hmain).
  exists (before ++ evs)%list. split.
  - rewrite existsb_app, (no_write_in_prints _ Hevs), orb_false_r.
    apply (f_equal (existsb is_write)) in Hx. simpl in Hx. rewrite <- Hx.
    clear. unfold externals. induction before as [|x l IH]; [reflexivity |].
    simpl. destruct x; simpl; auto.
  - rewrite Hmain. cbn [outcome_lines]. now rewrite <- !List.app_assoc.
Qed.

(** The theorem in the sample environment, without any line typed. *)
Lemma prompt_without_answer_witness :
  exists before,
    existsb is_write before = false
    /\ main sample_world (sample_args None None None) (initial [])
       = (Returned 0,
          {| trace := (before ++ rejections [] ++ [Input prompt]
                       ++ handler_lines EOFError ++ closing)%list;
             stdin := []; connected := false |}).
Proof.
  apply (prompt_without_answer sample_world (sample_args None None None)
           "20261103 16:00:00" "1 Y" (duration_only "1 Y")
           {| df_date := object sample_column;
              df_rows := map bar_ohlcv
                [sample_bar (cell_str "2024-01-02 10:00:00");
                 sample_bar (cell_str "garbage")] |} []);
    try reflexivity.
  constructor; try reflexivity.
  - discriminate.
  - do 2 eexists. split; reflexivity.
Defined.

End RunFailures.

(** ** A date column that cannot be parsed *)

Module UnparseableColumn.

Import PyDatetime Resolver Pipeline Config Run Spec Notions StrFacts RunProps
  ConflictProps RunShape RunFailures.






End UnparseableColumn.

(** ** The date column *)

Module ColumnProps.

Import PyDatetime Pipeline Run Spec Notions RunProps.

(** X24. Formatting the date column keeps the number of its values,
    whatever its dtype and whether its values can be parsed or not; it
    always returns, and it reads nothing from the keyboard and leaves the
    connection as it is. *)
Theorem date_column_keeps_rows (w : world) (name : string) (col : column)
    (tz : tzinfo) (is_intraday : bool) (st : state) :
  exists col' st',
    format_date_column w name col tz is_intraday st = (Returned col', st')
    /\ column_size col' = column_size col
    /\ stdin st' = stdin st /\ connected st' = connected st.
Proof.
  assert (Hlen : forall values,
            length (map cell_str
                      (format_timezone_aware_datetime w values tz is_intraday))
            = length values).
  { intros values. unfold format_timezone_aware_datetime, convert_datetime_column.
    destruct is_intraday; now rewrite !length_map. }
  destruct col as [values | values | values]; simpl.
  - eexists _, st. repeat split. simpl. apply Hlen.
  - destruct (pd_to_datetime w values) as [series|] eqn:E.
    + eexists _, st. repeat split. simpl. rewrite Hlen.
      unfold pd_to_datetime in E. symmetry. exact (length_mapM _ _ _ E).
    + eexists _, _. repeat split.
  - eexists _, st. repeat split.
Qed.

End ColumnProps.
